(** * Conceptual-design performance calculator: weight solver, field
    lengths and payload-range, embedded from the Python sources.

    Numbers.  Python floats are idealised as real numbers: rounding,
    NaN and silent overflow to infinity are outside the model, and the
    squares [x**2] are exact.  What the sources can observe as control
    flow is kept: [ZeroDivisionError] on a division by zero and on
    [0.0 ** negative], the complex result of a negative float raised to
    a non-integer power, [OverflowError] of [math.exp] (the one place
    where a mission input reaches an exponential), the [ValueError] of
    [math.sqrt], [math.log] and [math.asin], the [TypeError] of an
    ordering comparison on a complex number, and the
    [UnboundLocalError] of a local read before any assignment.  The
    literal [float("inf")] is a value of its own.

    Dictionaries are finite maps from strings to values; the logger is a
    list of events in emission order. *)

From stdpp Require Import base gmap strings.
From Stdlib Require Import Reals Lra Lia ZArith List.
Import ListNotations.

Local Open Scope R_scope.

(** ** Python-level values and exceptions *)

Inductive exn : Type :=
| ZeroDivisionError
| OverflowError
| ValueError
| TypeError
| UnboundLocalError.

Inductive res (A : Type) : Type :=
| Ok (a : A)
| Raise (e : exn).
Arguments Ok {A} a.
Arguments Raise {A} e.

Definition res_bind {A B : Type} (r : res A) (k : A -> res B) : res B :=
  match r with
  | Ok a => k a
  | Raise e => Raise e
  end.

Declare Scope res_scope.
Delimit Scope res_scope with res.
Notation "'let!' x ':=' r 'in' k" :=
  (res_bind r (fun x => k))
  (at level 10, x name, r at level 100, k at level 200) : res_scope.
Local Open Scope res_scope.

(** A Python number as the arithmetic of the sources can produce it: a
    float, or the complex number a negative base yields under [**]. *)
Inductive num : Type :=
| Float (x : R)
| Complex (re im : R).

(** A distance: a float, or the literal [float("inf")]. *)
Inductive xfloat : Type :=
| Finite (x : R)
| Infinity.

(** [a + b] where [float("inf")] may occur; no operand here is ever
    negative infinity, so the sum with infinity is infinity. *)
Definition xadd (a b : xfloat) : xfloat :=
  match a, b with
  | Finite x, Finite y => Finite (x + y)
  | _, _ => Infinity
  end.

(** Values stored in the result dictionaries. *)
Inductive value : Type :=
| VFloat (x : R)
| VInf
| VInt (n : Z)
| VBool (b : bool).

Definition value_of_xfloat (a : xfloat) : value :=
  match a with
  | Finite x => VFloat x
  | Infinity => VInf
  end.

(** ** Primitive float operations *)

(** [a / b] on floats. *)
Definition float_div (a b : R) : res R :=
  if Req_dec_T b 0 then Raise ZeroDivisionError else Ok (a / b).

(** Largest finite double, [(2 - 2^-52) * 2^1023]. *)
Definition float_max : R := (2 - / 2 ^ 52) * 2 ^ 1023.

(** [math.exp]: range error when the result is not a finite double. *)
Definition math_exp (x : R) : res R :=
  if Rle_dec (exp x) float_max then Ok (exp x) else Raise OverflowError.

(** [math.log]: domain error outside the positive reals. *)
Definition math_log (x : R) : res R :=
  if Rlt_dec 0 x then Ok (ln x) else Raise ValueError.

(** [math.sqrt]: domain error on a negative argument. *)
Definition math_sqrt (x : R) : res R :=
  if Rlt_dec x 0 then Raise ValueError else Ok (sqrt x).

(** [math.asin]: domain error outside [[-1, 1]]. *)
Definition math_asin (x : R) : res R :=
  if Rle_dec (Rabs x) 1 then Ok (asin x) else Raise ValueError.

(** [math.radians] and [math.degrees]. *)
Definition math_radians (d : R) : R := d * (PI / 180).
Definition math_degrees (r : R) : R := r * (180 / PI).

(** [x ** y] on floats (Python 3): [x ** 0.0] is [1.0]; a zero base with
    a negative exponent raises; a negative base with a non-integer
    exponent gives the principal complex power
    [|x|^y * (cos (pi*y) + i sin (pi*y))]. *)
Definition float_pow (x y : R) : res num :=
  if Req_dec_T y 0 then Ok (Float 1)
  else if Rlt_dec 0 x then Ok (Float (Rpower x y))
  else if Req_dec_T x 0 then
    (if Rlt_dec y 0 then Raise ZeroDivisionError else Ok (Float 0))
  else if Req_dec_T (frac_part y) 0 then
    Ok (Float (powerRZ x (Int_part y)))
  else
    Ok (Complex (Rpower (- x) y * cos (PI * y))
                (Rpower (- x) y * sin (PI * y))).

(** [a * v] with [a] a float: a complex operand makes the product
    complex, [(a + 0j) * (re + im j)]. *)
Definition float_mul_num (a : R) (v : num) : num :=
  match v with
  | Float x => Float (a * x)
  | Complex re im => Complex (a * re - 0 * im) (a * im + 0 * re)
  end.

(** ** estimativa_de_peso.py *)

Module Weights.

(** Gravity, as the module writes it. *)
Definition g : R := 9.81.

(** Raymer coefficients for business jets. *)
Definition A : R := 1.118.
Definition C : R := -0.070.

(** [calculate_empty_weight_fraction(W0_N)]: [A * W0_N**(C)]. *)
Definition calculate_empty_weight_fraction (W0_N : R) : res num :=
  let! p := float_pow W0_N C in
  Ok (float_mul_num A p).

Definition W_taxi : R := 0.97.
Definition W_takeoff : R := 0.985.
Definition W_climb : R := 0.985.
Definition W_descent : R := 0.995.
Definition W_other_phases_ratio : R :=
  W_taxi * W_takeoff * W_climb * W_descent.
Definition W_reserve_ratio : R := 0.98.

(** Defaults of the keyword arguments. *)
Definition L_D_cruise_default : R := 16.0.
Definition TSFC_kgNs_default : R := 2.0e-5.

(** [calculate_total_fuel_fraction(W0_kg, R_km, V_mps, h_m, L_D_cruise,
    TSFC_kgNs)]. *)
Definition calculate_total_fuel_fraction
    (W0_kg R_km V_mps h_m L_D_cruise TSFC_kgNs : R) : res R :=
  let R_m := R_km * 1000 in
  let! q := float_div (- (R_m * g * TSFC_kgNs)) (V_mps * L_D_cruise) in
  let! W3_W2 := math_exp q in
  let Wf_W0 := 1.0 - (W3_W2 * W_other_phases_ratio * W_reserve_ratio) in
  Ok Wf_W0.

(** The Breguet exponent of the cruise segment, the argument of
    [math.exp] above. *)
Definition cruise_exponent (R_km V_mps L_D_cruise TSFC_kgNs : R) : R :=
  - (R_km * 1000 * g * TSFC_kgNs) / (V_mps * L_D_cruise).

(** What the logger receives, one constructor per call site. *)
Inductive log_event : Type :=
| InfoHeader
| InfoRule
| InfoIteration (i : Z) (W0_kg We Wf W0_calc residual : R)
| ErrorDenominator (denominator : R)
| InfoConverged (n : Z)
| WarnMaxIterations (n : Z)
| WarnFinalResidual (residual : R).

(** The loop-local names that survive an iteration. *)
Record locals : Type := mkLocals {
  We_W0_ratio : R;
  Wf_W0_ratio : R;
  W0_calc_kg : R;
  residual_kg : R
}.

(** [a - b] on numbers: a complex operand makes the difference complex. *)
Definition num_sub (a b : num) : num :=
  match a, b with
  | Float x, Float y => Float (x - y)
  | Float x, Complex re im => Complex (x - re) (0 - im)
  | Complex re im, Float y => Complex (re - y) (im - 0)
  | Complex re im, Complex re' im' => Complex (re - re') (im - im')
  end.

(** The dictionary returned on convergence. *)
Definition converged_result (l : locals) (i : Z) : gmap string value :=
  <["iterations" := VInt (i + 1)]>
    (<["W_fuel_kg" := VFloat (W0_calc_kg l * Wf_W0_ratio l)]>
      (<["OEW_kg" := VFloat (W0_calc_kg l * We_W0_ratio l)]>
        (<["MTOW_kg" := VFloat (W0_calc_kg l)]> ∅))).

(** The dictionary returned when the iteration cap is reached. *)
Definition capped_result (l : locals) (max_iterations : Z)
  : gmap string value :=
  <["converged" := VBool false]>
    (<["iterations" := VInt max_iterations]>
      (<["W_fuel_kg" := VFloat (W0_calc_kg l * Wf_W0_ratio l)]>
        (<["OEW_kg" := VFloat (W0_calc_kg l * We_W0_ratio l)]>
          (<["MTOW_kg" := VFloat (W0_calc_kg l)]> ∅)))).

(** How one pass through the loop body ends. *)
Inductive step : Type :=
| StepRaise (e : exn)
| StepReturn (log : list log_event) (r : option (gmap string value))
| StepNext (log : list log_event) (l : locals).

Section Solver.

Variables (W_payload_kg R_km V_mps h_m : R).
Variables (tolerance : R) (verbose : bool).

Definition W_payload_N : R := W_payload_kg * g.

(** The new estimate the weight balance gives from the two fractions,
    [W_payload_N / (1 - We - Wf) / g]. *)
Definition balance (We Wf : R) : R :=
  W_payload_kg * g / (1 - We - Wf) / g.

(** The table row logged by a verbose iteration. *)
Definition row (i : Z) (w We Wf : R) : list log_event :=
  if verbose
  then [InfoIteration i w We Wf (balance We Wf) (w - balance We Wf)]
  else [].

(** Body of [for i in range(max_iterations)], entered with [W0_kg].
    The ordering test [denominator <= 0] is where a complex empty-weight
    fraction surfaces as a [TypeError]. *)
Definition iteration (i : Z) (W0_kg : R) : step :=
  match calculate_empty_weight_fraction (W0_kg * g) with
  | Raise e => StepRaise e
  | Ok We =>
    match calculate_total_fuel_fraction W0_kg R_km V_mps h_m
            L_D_cruise_default TSFC_kgNs_default with
    | Raise e => StepRaise e
    | Ok Wf =>
      match We, num_sub (num_sub (Float 1.0) We) (Float Wf) with
      | Float We_r, Float denominator =>
        if Rle_dec denominator 0 then
          StepReturn [ErrorDenominator denominator] None
        else
          let W0_calc_N := W_payload_N / denominator in
          let W0_calc := W0_calc_N / g in
          let residual := W0_kg - W0_calc in
          let l := mkLocals We_r Wf W0_calc residual in
          let row :=
            if verbose
            then [InfoIteration i W0_kg We_r Wf W0_calc residual]
            else [] in
          if Rlt_dec (Rabs residual) tolerance then
            StepReturn
              (row ++ (if verbose then [InfoConverged (i + 1)] else []))
              (Some (converged_result l i))
          else StepNext row l
      | _, _ => StepRaise TypeError
      end
    end
  end.

(** The [for] loop over the remaining indices [idx].  [last] holds the
    loop locals once an iteration has assigned them. *)
Fixpoint for_range (idx : list Z) (W0_kg : R) (last : option locals)
  : list log_event * res (option (gmap string value)) + option locals :=
  match idx with
  | [] => inr last
  | i :: rest =>
    match iteration i W0_kg with
    | StepRaise e => inl ([], Raise e)
    | StepReturn lg r => inl (lg, Ok r)
    | StepNext lg l =>
      match for_range rest (W0_calc_kg l) (Some l) with
      | inl (lg', r) => inl (lg ++ lg', r)
      | inr last' => inr last'
      end
    end
  end.

(** The code after the loop: it reads [residual_kg], [W0_calc_kg],
    [We_W0_ratio] and [Wf_W0_ratio], which only an iteration binds. *)
Definition after_loop (max_iterations : Z) (last : option locals)
  : list log_event * res (option (gmap string value)) :=
  match last with
  | None =>
    (if verbose then [WarnMaxIterations max_iterations] else [],
     Raise UnboundLocalError)
  | Some l =>
    (if verbose
     then [WarnMaxIterations max_iterations;
           WarnFinalResidual (residual_kg l)]
     else [],
     Ok (Some (capped_result l max_iterations)))
  end.

(** [estimate_weights_iterative(W_payload_kg, R_km, V_mps, h_m,
    initial_W0_guess_kg, tolerance, max_iterations, verbose)]: the
    logged events and the outcome ([Ok None] is Python's [None]). *)
Definition estimate_weights_iterative
    (initial_W0_guess_kg : R) (max_iterations : Z)
  : list log_event * res (option (gmap string value)) :=
  let header := if verbose then [InfoHeader; InfoRule] else [] in
  match for_range (seqZ 0 max_iterations) initial_W0_guess_kg None with
  | inl (lg, r) => (header ++ lg, r)
  | inr last =>
    let '(lg, r) := after_loop max_iterations last in
    (header ++ lg, r)
  end.

(** The estimate with which the loop enters its [n]-th next iteration
    when started at index [i] with [W0_kg]; [None] when an earlier
    iteration has left the loop. *)
Fixpoint W0_entering (n : nat) (i : Z) (W0_kg : R) : option R :=
  match n with
  | O => Some W0_kg
  | S n' =>
    match iteration i W0_kg with
    | StepNext _ l => W0_entering n' (i + 1) (W0_calc_kg l)
    | _ => None
    end
  end.

(** The call returns a converged solution: a dictionary without the
    [converged] entry of the capped result, with the given iteration
    count and take-off weight. *)
Definition converged_with (initial_W0_guess_kg : R) (max_iterations : Z)
    (iterations : Z) (MTOW_kg : R) : Prop :=
  exists d,
    snd (estimate_weights_iterative initial_W0_guess_kg max_iterations)
      = Ok (Some d) /\
    d !! "converged" = None /\
    d !! "iterations" = Some (VInt iterations) /\
    d !! "MTOW_kg" = Some (VFloat MTOW_kg).

(** An iteration entered with [w] has a positive denominator and a
    residual that does not pass the convergence test. *)
Definition keeps_iterating (w : R) : Prop :=
  exists We Wf,
    calculate_empty_weight_fraction (w * g) = Ok (Float We) /\
    calculate_total_fuel_fraction w R_km V_mps h_m
      L_D_cruise_default TSFC_kgNs_default = Ok Wf /\
    0 < 1 - We - Wf /\
    ~ Rabs (w - balance We Wf) < tolerance.

(** The locals an iteration leaves behind: a positive denominator, and
    the estimate it gives. *)
Definition balanced (l : locals) : Prop :=
  0 < 1 - We_W0_ratio l - Wf_W0_ratio l /\
  W0_calc_kg l = balance (We_W0_ratio l) (Wf_W0_ratio l).

End Solver.

End Weights.

(** ** calculo_distancia_pista.py *)

Module Runway.

Inductive log_event : Type :=
| WarnNoAcceleration
| WarnNoClimb
| WarnNoDeceleration.

Section Takeoff.

Variables (W_kg S_m2 T_N_static CLmax_TO : R).
Variables (rho0_kgm3 g_ms2 mu_roll CL_ground CD0_takeoff K : R).
Variables (Vlof_factor V_avg_factor t_rot_s h_obs_m : R).

Definition W_N : R := W_kg * g_ms2.

(** The function up to and including the assignment of [a_avg]:
    stall speed, lift-off speed and mean ground-run acceleration. *)
Definition takeoff_ground_balance : res (R * R * R) :=
  let! q := float_div (2 * W_N) (rho0_kgm3 * S_m2 * CLmax_TO) in
  let! Vs_TO := math_sqrt q in
  let Vlof := Vlof_factor * Vs_TO in
  let V_avg := V_avg_factor * Vlof in
  let T_avg := T_N_static in
  let CL_avg_g := CL_ground in
  let CD_avg_g := CD0_takeoff + K * (CL_avg_g ^ 2) in
  let L_avg_g := 0.5 * rho0_kgm3 * (V_avg ^ 2) * S_m2 * CL_avg_g in
  let D_avg_g := 0.5 * rho0_kgm3 * (V_avg ^ 2) * S_m2 * CD_avg_g in
  let! gw := float_div g_ms2 W_N in
  let a_avg := gw * (T_avg - D_avg_g - mu_roll * (W_N - L_avg_g)) in
  Ok (Vs_TO, Vlof, a_avg).

(** The dictionary of the early return. *)
Definition no_takeoff_result (Vs_TO Vlof a_avg : R) : gmap string value :=
  <["gamma_climb_deg" := VInt 0]>
    (<["a_avg_ms2" := VFloat a_avg]>
      (<["Vlof_mps" := VFloat Vlof]>
        (<["Vs_TO_mps" := VFloat Vs_TO]>
          (<["S_total_takeoff_m" := VInf]>
            (<["S_airborne_m" := VInt 0]>
              (<["S_rotation_m" := VInt 0]>
                (<["S_ground_run_m" := VInf]> ∅))))))).

(** The dictionary of the normal return. *)
Definition takeoff_result (Vs_TO Vlof a_avg gamma_cl Sg Sr : R)
    (S_air S_total : xfloat) : gmap string value :=
  <["S_total_takeoff_m" := value_of_xfloat S_total]>
    (<["S_airborne_m" := value_of_xfloat S_air]>
      (<["S_rotation_m" := VFloat Sr]>
        (<["S_ground_run_m" := VFloat Sg]>
          (<["gamma_climb_deg" := VFloat (math_degrees gamma_cl)]>
            (<["a_avg_ms2" := VFloat a_avg]>
              (<["Vlof_mps" := VFloat Vlof]>
                (<["Vs_TO_mps" := VFloat Vs_TO]> ∅))))))).

(** [estimate_takeoff_distance(...)]: the warnings logged and the
    outcome. *)
Definition estimate_takeoff_distance
  : list log_event * res (gmap string value) :=
  match takeoff_ground_balance with
  | Raise e => ([], Raise e)
  | Ok (Vs_TO, Vlof, a_avg) =>
    if Rle_dec a_avg 0 then
      ([WarnNoAcceleration], Ok (no_takeoff_result Vs_TO Vlof a_avg))
    else
      let T_avg := T_N_static in
      let Sg := (Vlof ^ 2) / (2 * a_avg) in
      let Sr := Vlof * t_rot_s in
      match float_div W_N (0.5 * rho0_kgm3 * (Vlof ^ 2) * S_m2) with
      | Raise e => ([], Raise e)
      | Ok q =>
        let CL_climb := Rmin q CLmax_TO in
        let CD_climb := CD0_takeoff + K * (CL_climb ^ 2) in
        let D_climb := 0.5 * rho0_kgm3 * (Vlof ^ 2) * S_m2 * CD_climb in
        match float_div (T_avg - D_climb) W_N with
        | Raise e => ([], Raise e)
        | Ok sin_gamma_cl =>
          if Rle_dec sin_gamma_cl 0 then
            let S_air := Infinity in
            let S_total := xadd (xadd (Finite Sg) (Finite Sr)) S_air in
            ([WarnNoClimb],
             Ok (takeoff_result Vs_TO Vlof a_avg 0 Sg Sr S_air S_total))
          else
            match math_asin sin_gamma_cl with
            | Raise e => ([], Raise e)
            | Ok gamma_cl =>
              let tan_gamma_cl := tan gamma_cl in
              match
                (if Rlt_dec 0 tan_gamma_cl
                 then let! d := float_div h_obs_m tan_gamma_cl in
                      Ok (Finite d)
                 else Ok Infinity)
              with
              | Raise e => ([], Raise e)
              | Ok S_air =>
                let S_total := xadd (xadd (Finite Sg) (Finite Sr)) S_air in
                ([],
                 Ok (takeoff_result Vs_TO Vlof a_avg gamma_cl
                       Sg Sr S_air S_total))
              end
            end
        end
      end
  end.

End Takeoff.

Section Landing.

Variables (W_land_kg S_m2 CLmax_land : R).
Variables (rho0_kgm3 g_ms2 mu_brake CD0_landing K CL_land_ground : R).
Variables (Vapp_factor Vtd_factor gamma_app_deg : R).
Variables (h_obs_m h_flare_m t_flare_s T_rev_N : R).

Definition W_land_N : R := W_land_kg * g_ms2.

(** The function up to and including the assignment of [a_avg_land]:
    speeds, approach and flare distances, mean deceleration. *)
Definition landing_ground_balance : res (R * R * R * R * R * R) :=
  let! q := float_div (2 * W_land_N) (rho0_kgm3 * S_m2 * CLmax_land) in
  let! Vs_land := math_sqrt q in
  let Vapp := Vapp_factor * Vs_land in
  let Vtd := Vtd_factor * Vs_land in
  let gamma_app_rad := math_radians gamma_app_deg in
  let! Sa := float_div (h_obs_m - h_flare_m) (tan gamma_app_rad) in
  let Sf := Vapp * t_flare_s in
  let V_avg_land := 0.7 * Vtd in
  let CL_avg_land_g := CL_land_ground in
  let CD_avg_land_g := CD0_landing + K * (CL_avg_land_g ^ 2) in
  let L_avg_land_g :=
    0.5 * rho0_kgm3 * (V_avg_land ^ 2) * S_m2 * CL_avg_land_g in
  let D_avg_land_g :=
    0.5 * rho0_kgm3 * (V_avg_land ^ 2) * S_m2 * CD_avg_land_g in
  let! gw := float_div g_ms2 W_land_N in
  let a_avg_land :=
    gw * (T_rev_N - D_avg_land_g - mu_brake * (W_land_N - L_avg_land_g)) in
  Ok (Vs_land, Vapp, Vtd, Sa, Sf, a_avg_land).

Definition landing_result (Vs_land Vapp Vtd a_avg_land Sa Sf : R)
    (Sg_land S_total : xfloat) : gmap string value :=
  <["S_total_landing_m" := value_of_xfloat S_total]>
    (<["S_ground_roll_m" := value_of_xfloat Sg_land]>
      (<["S_flare_m" := VFloat Sf]>
        (<["S_approach_m" := VFloat Sa]>
          (<["a_avg_land_ms2" := VFloat a_avg_land]>
            (<["Vtd_mps" := VFloat Vtd]>
              (<["Vapp_mps" := VFloat Vapp]>
                (<["Vs_land_mps" := VFloat Vs_land]> ∅))))))).

(** [estimate_landing_distance(...)]: the warnings logged and the
    outcome. *)
Definition estimate_landing_distance
  : list log_event * res (gmap string value) :=
  match landing_ground_balance with
  | Raise e => ([], Raise e)
  | Ok (Vs_land, Vapp, Vtd, Sa, Sf, a_avg_land) =>
    let '(lg, Sg_land) :=
      if Rge_dec a_avg_land 0
      then ([WarnNoDeceleration], Infinity)
      else ([], Finite (- (Vtd ^ 2) / (2 * a_avg_land))) in
    let S_total := xadd (xadd (Finite Sa) (Finite Sf)) Sg_land in
    (lg, Ok (landing_result Vs_land Vapp Vtd a_avg_land Sa Sf
               Sg_land S_total))
  end.

End Landing.

End Runway.

(** ** payload_range.py *)

Module PayloadRange.

(** [calculate_range_km(W_start_kg, W_end_kg, L_D_avg, V_mps, TSFC_kgNs)]. *)
Definition calculate_range_km
    (W_start_kg W_end_kg L_D_avg V_mps TSFC_kgNs : R) : res R :=
  if Rle_dec W_end_kg 0 then Ok 0
  else if Rle_dec W_start_kg W_end_kg then Ok 0
  else
    let g_ms2 := 9.81 in
    let! k := float_div (V_mps * L_D_avg) (g_ms2 * TSFC_kgNs) in
    let! q := float_div W_start_kg W_end_kg in
    let! lg := math_log q in
    let R_m := k * lg in
    Ok (R_m / 1000).

(** [calculate_L_D(W_kg, rho_kgm3, S_m2, V_mps, C_D0, k_2)]. *)
Definition calculate_L_D (W_kg rho_kgm3 S_m2 V_mps C_D0 k_2 : R) : res R :=
  let W_N := W_kg * 9.81 in
  let! CL := float_div (2 * W_N) (rho_kgm3 * S_m2 * V_mps ^ 2) in
  if Req_dec_T CL 0 then Ok 0
  else
    let! q := float_div C_D0 CL in
    float_div 1 (q + k_2 * CL).

(** One point of the diagram, [{"range_km": ..., "payload_kg": ...}]. *)
Definition point (range_km payload_kg : value) : gmap string value :=
  <["payload_kg" := payload_kg]> (<["range_km" := range_km]> ∅).

Section Points.

Variables (OEW_kg W_payload_max_kg W_fuel_max_kg MTOW_kg : R).
Variables (rho_kgm3 S_m2 V_mps C_D0 k_2 TSFC_kgNs : R).

(** Fuel on board at point B: what the take-off weight leaves, capped by
    the tanks. *)
Definition W_fuel_design_kg : R :=
  Rmin (MTOW_kg - OEW_kg - W_payload_max_kg) W_fuel_max_kg.

Definition W_start_AB : R := OEW_kg + W_payload_max_kg + W_fuel_design_kg.
Definition W_end_AB : R := OEW_kg + W_payload_max_kg.

Definition W_start_C : R := MTOW_kg.

(** [max(MTOW_kg - OEW_kg - W_fuel_max_kg, 0)]: the integer [0] when the
    difference is negative, the difference otherwise. *)
Definition Payload_C_kg : R := Rmax (MTOW_kg - OEW_kg - W_fuel_max_kg) 0.
Definition Payload_C_value : value :=
  if Rlt_dec (MTOW_kg - OEW_kg - W_fuel_max_kg) 0
  then VInt 0
  else VFloat (MTOW_kg - OEW_kg - W_fuel_max_kg).
Definition W_end_C : R := OEW_kg + Payload_C_kg.

Definition W_start_D : R := Rmin (OEW_kg + W_fuel_max_kg) MTOW_kg.
Definition W_end_D : R := OEW_kg.

(** The range of one segment: lift-to-drag ratio at the mean weight,
    then the Breguet range. *)
Definition segment_range (W_start W_end : R) : res R :=
  let W_avg := (W_start + W_end) / 2 in
  let! L_D_avg := calculate_L_D W_avg rho_kgm3 S_m2 V_mps C_D0 k_2 in
  calculate_range_km W_start W_end L_D_avg V_mps TSFC_kgNs.

(** [calculate_payload_range_points(...)].  A range is stored as a float
    also when [calculate_range_km] returned its integer [0]. *)
Definition calculate_payload_range_points
  : res (gmap string (gmap string value)) :=
  let! Range_AB_km := segment_range W_start_AB W_end_AB in
  let Payload_AB_kg := W_payload_max_kg in
  let! Range_C_km := segment_range W_start_C W_end_C in
  let! Range_D_km := segment_range W_start_D W_end_D in
  Ok (<["D" := point (VFloat Range_D_km) (VInt 0)]>
        (<["C" := point (VFloat Range_C_km) Payload_C_value]>
          (<["B" := point (VFloat Range_AB_km) (VFloat Payload_AB_kg)]>
            (<["A" := point (VInt 0) (VFloat Payload_AB_kg)]> ∅)))).

End Points.

End PayloadRange.

(** ** The worked example of [run_example] in estimativa_de_peso.py *)

Module Design.

Definition W_payload_kg : R := 2812.0.
Definition R_km : R := 7200.0.
Definition V_mps : R := 250.56.
Definition h_m : R := 12497.
Definition initial_W0_guess_kg : R := 40000.0.

(** The two fractions of the first iteration. *)
Definition We_first : R :=
  Weights.A * Rpower (initial_W0_guess_kg * Weights.g) Weights.C.
Definition Wf_first : R :=
  1 - exp (Weights.cruise_exponent R_km V_mps
             Weights.L_D_cruise_default Weights.TSFC_kgNs_default)
      * Weights.W_other_phases_ratio * Weights.W_reserve_ratio.

(** Two heavier payloads and a wide tolerance on the same mission: the
    lighter payload passes the residual test in the first iteration, the
    heavier one only in the second, entered with [W0_second]. *)
Definition light_payload_kg : R := 37000.
Definition heavy_payload_kg : R := 39500.
Definition wide_tolerance : R := 160000.
Definition W0_second : R :=
  Weights.balance heavy_payload_kg We_first Wf_first.
Definition We_second : R :=
  Weights.A * Rpower (W0_second * Weights.g) Weights.C.

End Design.

(** ** The solver's loop, iteration by iteration *)

Section SolverFacts.

Import Weights.
Variables (W_payload_kg R_km V_mps h_m tolerance : R) (verbose : bool).

Local Abbreviation iteration :=
  (iteration W_payload_kg R_km V_mps h_m tolerance verbose).
Local Abbreviation for_range :=
  (for_range W_payload_kg R_km V_mps h_m tolerance verbose).
Local Abbreviation W0_entering :=
  (W0_entering W_payload_kg R_km V_mps h_m tolerance verbose).
Local Abbreviation fuel W0_kg :=
  (calculate_total_fuel_fraction W0_kg R_km V_mps h_m
     L_D_cruise_default TSFC_kgNs_default).

Local Abbreviation balance := (balance W_payload_kg).
Local Abbreviation row := (row W_payload_kg verbose).
Local Abbreviation keeps_iterating :=
  (keeps_iterating W_payload_kg R_km V_mps h_m tolerance).

Lemma iteration_infeasible i w We Wf :
  calculate_empty_weight_fraction (w * g) = Ok (Float We) ->
  fuel w = Ok Wf ->
  1 - We - Wf <= 0 ->
  iteration i w = StepReturn [ErrorDenominator (1 - We - Wf)] None.
Proof.
  intros HWe HWf Hd. unfold Weights.iteration.
  rewrite HWe, HWf. cbn [num_sub].
  replace (1.0 - We - Wf) with (1 - We - Wf) by lra.
  destruct (Rle_dec (1 - We - Wf) 0) as [_|n]; [reflexivity | contradiction].
Qed.

Lemma iteration_converged i w We Wf :
  calculate_empty_weight_fraction (w * g) = Ok (Float We) ->
  fuel w = Ok Wf ->
  0 < 1 - We - Wf ->
  Rabs (w - balance We Wf) < tolerance ->
  iteration i w =
    StepReturn
      (row i w We Wf ++ (if verbose then [InfoConverged (i + 1)] else []))
      (Some (converged_result
               (mkLocals We Wf (balance We Wf) (w - balance We Wf)) i)).
Proof.
  intros HWe HWf Hd Hr. unfold Weights.iteration.
  rewrite HWe, HWf. cbn [num_sub].
  replace (1.0 - We - Wf) with (1 - We - Wf) by lra.
  destruct (Rle_dec (1 - We - Wf) 0) as [Hle|_]; [lra|].
  unfold Weights.row, Weights.balance, W_payload_N in *.
  match goal with
  | |- context [Rlt_dec ?a ?b] => destruct (Rlt_dec a b) as [_|n]
  end; [reflexivity | contradiction].
Qed.

Lemma iteration_next i w We Wf :
  calculate_empty_weight_fraction (w * g) = Ok (Float We) ->
  fuel w = Ok Wf ->
  0 < 1 - We - Wf ->
  tolerance <= Rabs (w - balance We Wf) ->
  iteration i w =
    StepNext (row i w We Wf)
             (mkLocals We Wf (balance We Wf) (w - balance We Wf)).
Proof.
  intros HWe HWf Hd Hr. unfold Weights.iteration.
  rewrite HWe, HWf. cbn [num_sub].
  replace (1.0 - We - Wf) with (1 - We - Wf) by lra.
  destruct (Rle_dec (1 - We - Wf) 0) as [Hle|_]; [lra|].
  unfold Weights.row, Weights.balance, W_payload_N in *.
  match goal with
  | |- context [Rlt_dec ?a ?b] => destruct (Rlt_dec a b) as [Hlt|_]
  end; [lra | reflexivity].
Qed.

(** Entering the [n]-th next iteration with [w'] means the loop over
    [n + m] indices behaves, from there on, as the loop over the last
    [m] indices started at [w']. *)
Lemma for_range_enter n :
  forall i w last m w',
    (0 <= m)%Z ->
    W0_entering n i w = Some w' ->
    exists lg last',
      for_range (seqZ i (Z.of_nat n + m)) w last =
        match for_range (seqZ (i + Z.of_nat n) m) w' last' with
        | inl (lg', r) => inl (lg ++ lg', r)
        | inr x => inr x
        end.
Proof.
  induction n as [|n IH]; intros i w last m w' Hm Hent.
  - cbn in Hent. injection Hent as <-. exists [], last.
    rewrite Z.add_0_r. change (Z.of_nat 0 + m)%Z with m.
    destruct (for_range (seqZ i m) w last) as [[lg' r]|x]; reflexivity.
  - cbn [Weights.W0_entering] in Hent.
    destruct (iteration i w) as [e|lg0 r|lg0 l] eqn:Hit; try discriminate.
    rewrite seqZ_cons by lia.
    cbn [Weights.for_range]. rewrite Hit.
    destruct (IH (i + 1)%Z (W0_calc_kg l) (Some l) m w' Hm Hent)
      as (lg & last' & Heq).
    replace (Z.pred (Z.of_nat (S n) + m)) with (Z.of_nat n + m)%Z by lia.
    replace (Z.succ i) with (i + 1)%Z by lia.
    rewrite Heq.
    replace (i + Z.of_nat (S n))%Z with (i + 1 + Z.of_nat n)%Z by lia.
    exists (lg0 ++ lg), last'.
    destruct (for_range (seqZ (i + 1 + Z.of_nat n) m) w' last')
      as [[lg' r]|x]; [|reflexivity].
    rewrite app_assoc. reflexivity.
Qed.

Local Abbreviation solve :=
  (estimate_weights_iterative W_payload_kg R_km V_mps h_m tolerance verbose).

(** An iteration that returns decides the whole call. *)
Lemma solve_returns_at n init max_iterations w lg r :
  (Z.of_nat n < max_iterations)%Z ->
  W0_entering n 0 init = Some w ->
  iteration (Z.of_nat n) w = StepReturn lg r ->
  exists pre, solve init max_iterations = (pre ++ lg, Ok r).
Proof.
  intros Hn Hent Hit. unfold Weights.estimate_weights_iterative.
  destruct (for_range_enter n 0 init None
              (max_iterations - Z.of_nat n) w ltac:(lia) Hent)
    as (lg0 & last' & Heq).
  replace (Z.of_nat n + (max_iterations - Z.of_nat n))%Z
    with max_iterations in Heq by lia.
  rewrite Heq, Z.add_0_l.
  rewrite seqZ_cons by lia. cbn [Weights.for_range]. rewrite Hit.
  exists ((if verbose then [InfoHeader; InfoRule] else []) ++ lg0).
  rewrite <- app_assoc. reflexivity.
Qed.

(** A loop whose last iteration falls through reaches the code after
    the loop with that iteration's locals. *)
Lemma solve_falls_through n init lg l w :
  W0_entering n 0 init = Some w ->
  iteration (Z.of_nat n) w = StepNext lg l ->
  snd (solve init (Z.of_nat n + 1)) =
    Ok (Some (capped_result l (Z.of_nat n + 1))).
Proof.
  intros Hent Hit. unfold Weights.estimate_weights_iterative.
  destruct (for_range_enter n 0 init None 1 w ltac:(lia) Hent)
    as (lg0 & last' & Heq).
  rewrite Heq, Z.add_0_l.
  rewrite seqZ_cons by lia. cbn [Weights.for_range]. rewrite Hit.
  rewrite seqZ_nil by lia. cbn [Weights.for_range Weights.after_loop snd].
  reflexivity.
Qed.

(** When the cap is not positive the loop body never runs and the code
    after the loop reads names that were never bound. *)
Lemma solve_empty_range init max_iterations :
  (max_iterations <= 0)%Z ->
  snd (solve init max_iterations) = Raise UnboundLocalError.
Proof.
  intros Hmax. unfold Weights.estimate_weights_iterative.
  rewrite seqZ_nil by lia.
  cbn [Weights.for_range Weights.after_loop]. reflexivity.
Qed.

Lemma W0_entering_S n i w :
  W0_entering (S n) i w =
    match iteration i w with
    | StepNext _ l => W0_entering n (i + 1) (W0_calc_kg l)
    | _ => None
    end.
Proof. reflexivity. Qed.

(** Unfolding [W0_entering] at its last step. *)
Lemma W0_entering_snoc n :
  forall i w,
    W0_entering (S n) i w =
      match W0_entering n i w with
      | Some w' =>
        match iteration (i + Z.of_nat n) w' with
        | StepNext _ l => Some (W0_calc_kg l)
        | _ => None
        end
      | None => None
      end.
Proof.
  induction n as [|n IH]; intros i w.
  - rewrite W0_entering_S. cbn [Weights.W0_entering]. rewrite Z.add_0_r.
    destruct (iteration i w); reflexivity.
  - rewrite (W0_entering_S (S n) i w), (W0_entering_S n i w).
    destruct (iteration i w) as [e|lg r|lg l]; try reflexivity.
    rewrite IH.
    replace (i + 1 + Z.of_nat n)%Z with (i + Z.of_nat (S n))%Z by lia.
    reflexivity.
Qed.

Lemma keeps_iterating_next i w :
  keeps_iterating w ->
  exists We Wf,
    calculate_empty_weight_fraction (w * g) = Ok (Float We) /\
    fuel w = Ok Wf /\
    iteration i w =
      StepNext (row i w We Wf)
               (mkLocals We Wf (balance We Wf) (w - balance We Wf)).
Proof.
  intros (We & Wf & HWe & HWf & Hd & Hr).
  exists We, Wf. repeat split; try assumption.
  apply iteration_next; try assumption. lra.
Qed.

(** If every iteration the loop enters keeps iterating, the loop
    enters all of them. *)
Lemma enters_every_iteration init bound :
  (forall n w, (n < bound)%nat ->
               W0_entering n 0 init = Some w -> keeps_iterating w) ->
  forall n, (n <= bound)%nat -> exists w, W0_entering n 0 init = Some w.
Proof.
  intros H n. induction n as [|n IH]; intros Hn.
  - exists init. reflexivity.
  - destruct IH as [w Hw]; [lia|].
    destruct (keeps_iterating_next (0 + Z.of_nat n) w) as
      (We & Wf & _ & _ & Hit); [apply (H n); [lia | exact Hw]|].
    rewrite W0_entering_snoc, Hw, Hit. eexists. reflexivity.
Qed.

(** The cap is reached with the last iteration's values. *)
Lemma solve_capped init max_iterations :
  (1 <= max_iterations)%Z ->
  (forall n w, (Z.of_nat n < max_iterations)%Z ->
               W0_entering n 0 init = Some w -> keeps_iterating w) ->
  exists w We Wf,
    W0_entering (Z.to_nat (max_iterations - 1)) 0 init = Some w /\
    calculate_empty_weight_fraction (w * g) = Ok (Float We) /\
    fuel w = Ok Wf /\
    snd (solve init max_iterations) =
      Ok (Some (capped_result
                  (mkLocals We Wf (balance We Wf) (w - balance We Wf))
                  max_iterations)).
Proof.
  intros Hmax H.
  set (k := Z.to_nat (max_iterations - 1)).
  assert (Hk : forall n w, (n < k)%nat ->
                 W0_entering n 0 init = Some w -> keeps_iterating w).
  { intros n w Hn. apply H. lia. }
  destruct (enters_every_iteration init k Hk k (le_n k)) as [w Hw].
  destruct (keeps_iterating_next (Z.of_nat k) w) as
    (We & Wf & HWe & HWf & Hit); [apply (H k); [lia | exact Hw]|].
  exists w, We, Wf. repeat split; try assumption.
  replace max_iterations with (Z.of_nat k + 1)%Z at 1 2 by lia.
  erewrite solve_falls_through by eassumption.
  replace (Z.of_nat k + 1)%Z with max_iterations by lia. reflexivity.
Qed.

Lemma solve_converged n init max_iterations w We Wf :
  (Z.of_nat n < max_iterations)%Z ->
  W0_entering n 0 init = Some w ->
  calculate_empty_weight_fraction (w * g) = Ok (Float We) ->
  fuel w = Ok Wf ->
  0 < 1 - We - Wf ->
  Rabs (w - balance We Wf) < tolerance ->
  snd (solve init max_iterations) =
    Ok (Some (converged_result
                (mkLocals We Wf (balance We Wf) (w - balance We Wf))
                (Z.of_nat n))).
Proof.
  intros Hn Hent HWe HWf Hd Hr.
  destruct (solve_returns_at n init max_iterations w _ _ Hn Hent
              (iteration_converged (Z.of_nat n) w We Wf HWe HWf Hd Hr))
    as [pre ->].
  reflexivity.
Qed.

Lemma solve_infeasible n init max_iterations w We Wf :
  (Z.of_nat n < max_iterations)%Z ->
  W0_entering n 0 init = Some w ->
  calculate_empty_weight_fraction (w * g) = Ok (Float We) ->
  fuel w = Ok Wf ->
  1 - We - Wf <= 0 ->
  exists pre,
    solve init max_iterations =
      (pre ++ [ErrorDenominator (1 - We - Wf)], Ok None).
Proof.
  intros Hn Hent HWe HWf Hd.
  exact (solve_returns_at n init max_iterations w _ _ Hn Hent
           (iteration_infeasible (Z.of_nat n) w We Wf HWe HWf Hd)).
Qed.

(** What an iteration returns, when it returns a dictionary. *)
Lemma iteration_returns_inv i w lg d :
  iteration i w = StepReturn lg (Some d) ->
  exists We Wf,
    calculate_empty_weight_fraction (w * g) = Ok (Float We) /\
    fuel w = Ok Wf /\
    0 < 1 - We - Wf /\
    d = converged_result
          (mkLocals We Wf (balance We Wf) (w - balance We Wf)) i.
Proof.
  unfold Weights.iteration.
  destruct (calculate_empty_weight_fraction (w * g)) as [[We|re im]|e];
    [| |discriminate].
  - destruct (fuel w) as [Wf|e]; [|discriminate].
    cbn [num_sub].
    replace (1.0 - We - Wf) with (1 - We - Wf) by lra.
    destruct (Rle_dec (1 - We - Wf) 0) as [Hle|Hpos]; [discriminate|].
    unfold W_payload_N. fold (balance We Wf).
    destruct (Rlt_dec _ tolerance) as [_|_]; [|discriminate].
    intros H. injection H as _ <-.
    exists We, Wf. repeat split; try reflexivity. lra.
  - destruct (fuel w) as [Wf|e]; discriminate.
Qed.

(** A dictionary returned from inside the loop is returned by one of
    its iterations. *)
Lemma for_range_returns_inv idx :
  forall w last lg d,
    for_range idx w last = inl (lg, Ok (Some d)) ->
    exists i w' lg',
      In i idx /\ iteration i w' = StepReturn lg' (Some d).
Proof.
  induction idx as [|i rest IH]; intros w last lg d H.
  - discriminate H.
  - cbn [Weights.for_range] in H.
    destruct (iteration i w) as [e|lg0 r|lg0 l] eqn:Hit.
    + discriminate H.
    + injection H as _ ->. exists i, w, lg0. split; [left; reflexivity|].
      exact Hit.
    + destruct (for_range rest (W0_calc_kg l) (Some l))
        as [[lg' r]|x] eqn:Hrest; [|discriminate H].
      injection H as _ ->.
      destruct (IH _ _ _ _ Hrest) as (j & w' & lg'' & Hin & Hj).
      exists j, w', lg''. split; [right; exact Hin | exact Hj].
Qed.

(** A solution that converged with an iteration count of one comes
    from the first iteration. *)
Lemma converged_first_inv init max_iterations m :
  converged_with W_payload_kg R_km V_mps h_m tolerance verbose
    init max_iterations 1 m ->
  exists We Wf,
    calculate_empty_weight_fraction (init * g) = Ok (Float We) /\
    fuel init = Ok Wf /\
    0 < 1 - We - Wf /\
    m = balance We Wf.
Proof.
  intros (d & Hsolve & Hconv & Hiter & Hm).
  unfold Weights.estimate_weights_iterative in Hsolve.
  destruct (for_range (seqZ 0 max_iterations) init None)
    as [[lg r]|last] eqn:Hloop.
  - cbn [snd] in Hsolve. subst r.
    destruct (Z_le_gt_dec max_iterations 0) as [Hle|Hgt].
    { rewrite seqZ_nil in Hloop by lia. discriminate Hloop. }
    rewrite seqZ_cons in Hloop by lia.
    cbn [Weights.for_range] in Hloop.
    destruct (iteration 0 init) as [e|lg0 r|lg0 l] eqn:Hit0.
    + discriminate Hloop.
    + injection Hloop as _ ->.
      destruct (iteration_returns_inv _ _ _ _ Hit0)
        as (We0 & Wf0 & HWe0 & HWf0 & Hd0 & Hres).
      exists We0, Wf0. repeat split; try assumption.
      rewrite Hres in Hm.
      change (Some (VFloat (balance We0 Wf0)) = Some (VFloat m)) in Hm.
      injection Hm. auto.
    + destruct (for_range (seqZ (Z.succ 0) (Z.pred max_iterations))
                  (W0_calc_kg l) (Some l)) as [[lg1 r1]|x] eqn:Hrest;
        [|discriminate Hloop].
      injection Hloop as _ ->.
      destruct (for_range_returns_inv _ _ _ _ _ Hrest)
        as (j & w'' & lg'' & Hj & Hitj).
      destruct (iteration_returns_inv _ _ _ _ Hitj)
        as (Wej & Wfj & _ & _ & _ & Hres).
      apply list_elem_of_In, elem_of_seqZ in Hj.
      rewrite Hres in Hiter.
      change (Some (VInt (j + 1)) = Some (VInt 1)) in Hiter.
      injection Hiter. lia.
  - unfold Weights.after_loop in Hsolve.
    destruct last as [l|]; cbn [snd] in Hsolve; [|discriminate Hsolve].
    injection Hsolve as <-. discriminate Hconv.
Qed.

End SolverFacts.

(** ** The two weight fractions *)

Section FractionFacts.

Import Weights.

Lemma C_nonzero : C <> 0.
Proof. unfold C. lra. Qed.

(** The Raymer exponent is not an integer. *)
Lemma C_fractional : frac_part C <> 0.
Proof.
  intros H.
  assert (HC : C = IZR (Int_part C)).
  { unfold frac_part in H. lra. }
  assert (Hlo : IZR (-1) < IZR (Int_part C)) by (rewrite <- HC; unfold C; lra).
  assert (Hhi : IZR (Int_part C) < IZR 0) by (rewrite <- HC; unfold C; lra).
  apply lt_IZR in Hlo. apply lt_IZR in Hhi. lia.
Qed.

Lemma calculate_empty_weight_fraction_pos W0_N :
  0 < W0_N ->
  calculate_empty_weight_fraction W0_N = Ok (Float (A * Rpower W0_N C)).
Proof.
  intros Hpos. unfold calculate_empty_weight_fraction, float_pow.
  destruct (Req_dec_T C 0) as [H0|_]; [destruct (C_nonzero H0)|].
  destruct (Rlt_dec 0 W0_N) as [_|n]; [reflexivity | contradiction].
Qed.

Lemma calculate_empty_weight_fraction_zero :
  calculate_empty_weight_fraction 0 = Raise ZeroDivisionError.
Proof.
  unfold calculate_empty_weight_fraction, float_pow.
  destruct (Req_dec_T C 0) as [H0|_]; [destruct (C_nonzero H0)|].
  destruct (Rlt_dec 0 0) as [H|_]; [lra|].
  destruct (Req_dec_T 0 0) as [_|n]; [|lra].
  destruct (Rlt_dec C 0) as [_|n]; [reflexivity|].
  exfalso. apply n. unfold C. lra.
Qed.

Lemma calculate_empty_weight_fraction_neg W0_N :
  W0_N < 0 ->
  calculate_empty_weight_fraction W0_N =
    Ok (Complex (A * (Rpower (- W0_N) C * cos (PI * C))
                 - 0 * (Rpower (- W0_N) C * sin (PI * C)))
                (A * (Rpower (- W0_N) C * sin (PI * C))
                 + 0 * (Rpower (- W0_N) C * cos (PI * C)))).
Proof.
  intros Hneg. unfold calculate_empty_weight_fraction, float_pow.
  destruct (Req_dec_T C 0) as [H0|_]; [destruct (C_nonzero H0)|].
  destruct (Rlt_dec 0 W0_N) as [H|_]; [lra|].
  destruct (Req_dec_T W0_N 0) as [H|_]; [lra|].
  destruct (Req_dec_T (frac_part C) 0) as [H|_];
    [destruct (C_fractional H) | reflexivity].
Qed.

Lemma g_positive : 0 < g.
Proof. unfold g. lra. Qed.

(** The balance is the payload divided by the denominator. *)
Lemma balance_times_denominator W_payload_kg We Wf :
  1 - We - Wf <> 0 ->
  balance W_payload_kg We Wf * (1 - We - Wf) = W_payload_kg.
Proof.
  intros Hd. pose proof g_positive. unfold balance. field. split; lra.
Qed.

Lemma one_le_float_max : 1 <= float_max.
Proof.
  unfold float_max.
  assert (H52 : 1 <= 2 ^ 52) by (apply pow_R1_Rle; lra).
  assert (H1023 : 1 <= 2 ^ 1023) by (apply pow_R1_Rle; lra).
  assert (Hinv : / 2 ^ 52 <= 1).
  { rewrite <- Rinv_1. apply Rinv_le_contravar; lra. }
  nra.
Qed.

Lemma calculate_total_fuel_fraction_ok
    W0_kg R_km V_mps h_m L_D_cruise TSFC_kgNs :
  V_mps * L_D_cruise <> 0 ->
  exp (cruise_exponent R_km V_mps L_D_cruise TSFC_kgNs) <= float_max ->
  calculate_total_fuel_fraction W0_kg R_km V_mps h_m L_D_cruise TSFC_kgNs =
    Ok (1 - exp (cruise_exponent R_km V_mps L_D_cruise TSFC_kgNs)
            * W_other_phases_ratio * W_reserve_ratio).
Proof.
  intros Hden Hexp.
  unfold calculate_total_fuel_fraction, float_div, math_exp.
  destruct (Req_dec_T (V_mps * L_D_cruise) 0) as [H|_]; [contradiction|].
  cbn [res_bind]. fold (cruise_exponent R_km V_mps L_D_cruise TSFC_kgNs).
  destruct (Rle_dec _ float_max) as [_|n]; [|contradiction].
  cbn [res_bind]. f_equal. lra.
Qed.

Lemma exp_nonpos_fits q : q <= 0 -> exp q <= float_max.
Proof.
  intros Hq. apply Rle_trans with 1; [|apply one_le_float_max].
  rewrite <- exp_0. destruct Hq as [Hlt | Heq]; [|subst q; lra].
  left. apply exp_increasing. exact Hlt.
Qed.

(** A mission with a non-negative product of range and consumption
    has a cruise ratio of at most one. *)
Lemma nonnegative_range_fits R_km V_mps L_D_cruise TSFC_kgNs :
  0 < V_mps -> 0 < L_D_cruise -> 0 <= R_km * TSFC_kgNs ->
  exp (cruise_exponent R_km V_mps L_D_cruise TSFC_kgNs) <= float_max.
Proof.
  intros HV HL HR. apply exp_nonpos_fits. unfold cruise_exponent.
  assert (Hd : 0 < / (V_mps * L_D_cruise)).
  { apply Rinv_0_lt_compat. nra. }
  pose proof g_positive as Hg.
  assert (Hn : 0 <= R_km * 1000 * g * TSFC_kgNs) by nra.
  unfold Rdiv. nra.
Qed.

End FractionFacts.

(** ** Rational enclosures of [exp], [ln] and the Raymer power *)

Section NumericBounds.

Lemma exp_le x y : x <= y -> exp x <= exp y.
Proof.
  intros [Hlt | Heq]; [left; apply exp_increasing; exact Hlt | subst; lra].
Qed.

Lemma exp_nat_pow (m : nat) y : exp (INR m * y) = exp y ^ m.
Proof.
  induction m as [|m IH].
  - cbn [INR pow]. rewrite Rmult_0_l. apply exp_0.
  - rewrite S_INR, Rmult_plus_distr_r, Rmult_1_l, exp_plus, IH.
    cbn [pow]. ring.
Qed.

(** [(1 + y/n)^n <= exp y]. *)
Lemma exp_lower (n : nat) y :
  (0 < n)%nat -> - INR n <= y -> (1 + y / INR n) ^ n <= exp y.
Proof.
  intros Hn Hy.
  assert (Hpos : 0 < INR n) by (apply lt_0_INR; exact Hn).
  replace y with (INR n * (y / INR n)) at 2 by (field; lra).
  rewrite exp_nat_pow. apply pow_incr. split.
  - assert (- 1 <= y / INR n); [|lra].
    apply Rmult_le_reg_r with (INR n); [exact Hpos|].
    unfold Rdiv. rewrite Rmult_assoc, Rinv_l by lra. lra.
  - apply exp_ineq1_le.
Qed.

(** [exp y <= (1 / (1 - y/n))^n]. *)
Lemma exp_upper (n : nat) y :
  (0 < n)%nat -> y < INR n -> exp y <= (/ (1 - y / INR n)) ^ n.
Proof.
  intros Hn Hy.
  assert (Hpos : 0 < INR n) by (apply lt_0_INR; exact Hn).
  assert (Hq : y / INR n < 1).
  { apply Rmult_lt_reg_r with (INR n); [exact Hpos|].
    unfold Rdiv. rewrite Rmult_assoc, Rinv_l by lra. lra. }
  replace y with (INR n * (y / INR n)) at 1 by (field; lra).
  rewrite exp_nat_pow. apply pow_incr. split.
  - left. apply exp_pos.
  - replace (y / INR n) with (- - (y / INR n)) at 1 by ring.
    rewrite exp_Ropp. apply Rinv_le_contravar; [lra|].
    replace (1 - y / INR n) with (1 + - (y / INR n)) by ring.
    apply exp_ineq1_le.
Qed.

Lemma ln_lower x t : exp t <= x -> t <= ln x.
Proof.
  intros H. assert (Hx : 0 < x) by (pose proof (exp_pos t); lra).
  destruct (Rle_or_lt t (ln x)) as [Hle | Hlt]; [exact Hle|].
  apply exp_increasing in Hlt. rewrite exp_ln in Hlt by exact Hx. lra.
Qed.

Lemma ln_upper x t : 0 < x -> x <= exp t -> ln x <= t.
Proof.
  intros Hx H.
  destruct (Rle_or_lt (ln x) t) as [Hle | Hlt]; [exact Hle|].
  apply exp_increasing in Hlt. rewrite exp_ln in Hlt by exact Hx. lra.
Qed.

Import Weights.

(** The Raymer power falls as the weight grows: a lower bound on the
    logarithm of the weight bounds the power from above, and conversely. *)
Lemma Rpower_C_upper x t : exp t <= x -> Rpower x C <= exp (C * t).
Proof.
  intros H. unfold Rpower. apply exp_le.
  pose proof (ln_lower x t H). unfold C. nra.
Qed.

Lemma Rpower_C_lower x t : 0 < x -> x <= exp t -> exp (C * t) <= Rpower x C.
Proof.
  intros Hx H. unfold Rpower. apply exp_le.
  pose proof (ln_upper x t Hx H). unfold C. nra.
Qed.

End NumericBounds.

(** Turns [INR] of a literal into the real literal. *)
Ltac inr_literals :=
  rewrite ?INR_IZR_INZ;
  repeat match goal with
         | |- context [Z.of_nat ?k] =>
           let z := eval vm_compute in (Z.of_nat k) in
           change (Z.of_nat k) with z
         end.

(** [exp Y <= c], from [exp (Y/m) <= (1/(1 - Y/(m n)))^n <= b] and
    [b^m <= c]. *)
Ltac exp_above m n b :=
  match goal with
  | |- exp ?Y <= ?c =>
    apply Rle_trans with (b ^ m); [|lra];
    replace Y with (INR m * (Y / INR m)) by (inr_literals; lra);
    rewrite exp_nat_pow; apply pow_incr; split; [left; apply exp_pos|];
    eapply Rle_trans; [apply (exp_upper n); [lia|] |];
    inr_literals; lra
  end.

(** [c <= exp Y], from [b <= (1 + Y/(m n))^n <= exp (Y/m)] and
    [c <= b^m]. *)
Ltac exp_below m n b :=
  match goal with
  | |- ?c <= exp ?Y =>
    apply Rle_trans with (b ^ m); [lra|];
    replace Y with (INR m * (Y / INR m)) by (inr_literals; lra);
    rewrite exp_nat_pow; apply pow_incr; split; [lra|];
    eapply Rle_trans; [| apply (exp_lower n); [lia|]];
    inr_literals; lra
  end.


(** ** The first iteration of the worked example *)

Section DesignFacts.

Import Weights Design.

Lemma design_weight_force : initial_W0_guess_kg * g = 392400.
Proof. unfold initial_W0_guess_kg, g. lra. Qed.

Lemma design_power_bounds :
  0.4024 <= Rpower (initial_W0_guess_kg * g) C <= 0.4094.
Proof.
  rewrite design_weight_force. split.
  - apply Rle_trans with (exp (C * 12.93)).
    + unfold C. exp_below 1%nat 256%nat 0.4024.
    + apply Rpower_C_lower; [lra|]. exp_below 16%nat 256%nat 2.2408.
  - apply Rle_trans with (exp (C * 12.83)).
    + apply Rpower_C_upper. exp_above 16%nat 256%nat 2.2326.
    + unfold C. exp_above 1%nat 128%nat 0.4094.
Qed.

Lemma design_We_first :
  calculate_empty_weight_fraction (initial_W0_guess_kg * g)
    = Ok (Float We_first) /\
  0.4498 <= We_first <= 0.4578.
Proof.
  split.
  - apply calculate_empty_weight_fraction_pos.
    rewrite design_weight_force. lra.
  - pose proof design_power_bounds as H. unfold We_first, A. lra.
Qed.

Lemma design_cruise_exponent :
  cruise_exponent R_km V_mps L_D_cruise_default TSFC_kgNs_default
    = - 1412.64 / 4008.96.
Proof.
  unfold cruise_exponent, R_km, V_mps, L_D_cruise_default,
    TSFC_kgNs_default, g. lra.
Qed.

Lemma design_cruise_ratio :
  0.702 <= exp (cruise_exponent R_km V_mps L_D_cruise_default
                  TSFC_kgNs_default) <= 0.704.
Proof.
  rewrite design_cruise_exponent. split.
  - exp_below 1%nat 64%nat 0.702.
  - exp_above 1%nat 64%nat 0.704.
Qed.

Lemma design_Wf_first W0_kg :
  calculate_total_fuel_fraction W0_kg R_km V_mps h_m
    L_D_cruise_default TSFC_kgNs_default = Ok Wf_first /\
  0.3539 <= Wf_first <= 0.3558.
Proof.
  pose proof design_cruise_ratio as H. split.
  - apply calculate_total_fuel_fraction_ok.
    + unfold V_mps, L_D_cruise_default. lra.
    + apply Rle_trans with 1; [lra | apply one_le_float_max].
  - unfold Wf_first, W_other_phases_ratio, W_taxi, W_takeoff, W_climb,
      W_descent, W_reserve_ratio. lra.
Qed.

(** Division of a positive payload by an enclosed denominator. *)
Lemma balance_enclosure W_payload_kg We Wf lo hi :
  0 < lo -> lo <= 1 - We - Wf <= hi -> 0 <= W_payload_kg ->
  W_payload_kg / hi <= balance W_payload_kg We Wf <= W_payload_kg / lo.
Proof.
  intros Hlo Hd Hp.
  assert (Hb : balance W_payload_kg We Wf * (1 - We - Wf) = W_payload_kg)
    by (apply balance_times_denominator; lra).
  assert (Hhi : W_payload_kg / hi * hi = W_payload_kg) by (field; lra).
  assert (Hl : W_payload_kg / lo * lo = W_payload_kg) by (field; lra).
  assert (0 <= W_payload_kg / hi).
  { apply Rmult_le_pos; [lra | left; apply Rinv_0_lt_compat; lra]. }
  assert (0 <= W_payload_kg / lo).
  { apply Rmult_le_pos; [lra | left; apply Rinv_0_lt_compat; lra]. }
  split; nra.
Qed.

Lemma design_first_denominator : 0.186 <= 1 - We_first - Wf_first <= 0.197.
Proof.
  destruct design_We_first as [_ HWe].
  destruct (design_Wf_first 0) as [_ HWf]. lra.
Qed.

(** The first estimate of the worked example lies between 14 and 15.2
    tonnes. *)
Lemma design_first_balance :
  14000 <= balance W_payload_kg We_first Wf_first <= 15200.
Proof.
  pose proof (balance_enclosure W_payload_kg We_first Wf_first 0.186 0.197
                ltac:(lra) design_first_denominator
                ltac:(unfold W_payload_kg; lra)) as H.
  unfold W_payload_kg in *. lra.
Qed.

End DesignFacts.

(** ** The weight solver: statements about whole calls *)

Section SolverClaims.

Import Weights.

(** C2.  If the loop enters an iteration [n < max_iterations] whose
    denominator [1 - We - Wf] is not positive, the call stops there: it
    returns [None], never a dictionary, and the last thing it logs is
    the error carrying that denominator, so no later iteration runs. *)
Theorem infeasible_balance_stops_solver
    (W_payload_kg R_km V_mps h_m tolerance : R) (verbose : bool)
    (init : R) (max_iterations : Z) (n : nat) (w We Wf : R) :
  (Z.of_nat n < max_iterations)%Z ->
  W0_entering W_payload_kg R_km V_mps h_m tolerance verbose n 0 init
    = Some w ->
  calculate_empty_weight_fraction (w * g) = Ok (Float We) ->
  calculate_total_fuel_fraction w R_km V_mps h_m
    L_D_cruise_default TSFC_kgNs_default = Ok Wf ->
  1 - We - Wf <= 0 ->
  exists pre,
    estimate_weights_iterative W_payload_kg R_km V_mps h_m tolerance
      verbose init max_iterations
    = (pre ++ [ErrorDenominator (1 - We - Wf)], Ok None).
Proof. apply solve_infeasible. Qed.

(** C3.  With [max_iterations >= 1], if every iteration the loop enters
    has a positive denominator and a residual that does not pass the
    test, the call does not fail: it returns the dictionary built from
    the last iteration's values, with [iterations] equal to the cap and
    [converged] false.  With [max_iterations = 1] and [tolerance = 0]
    the residual test can never pass, which is the instance on a
    feasible mission. *)
Theorem cap_reached_returns_last_estimate
    (W_payload_kg R_km V_mps h_m tolerance : R) (verbose : bool)
    (init : R) (max_iterations : Z) :
  (1 <= max_iterations)%Z ->
  (forall n w,
      (Z.of_nat n < max_iterations)%Z ->
      W0_entering W_payload_kg R_km V_mps h_m tolerance verbose n 0 init
        = Some w ->
      exists We Wf,
        calculate_empty_weight_fraction (w * g) = Ok (Float We) /\
        calculate_total_fuel_fraction w R_km V_mps h_m
          L_D_cruise_default TSFC_kgNs_default = Ok Wf /\
        0 < 1 - We - Wf /\
        ~ Rabs (w - balance W_payload_kg We Wf) < tolerance) ->
  exists w We Wf d,
    W0_entering W_payload_kg R_km V_mps h_m tolerance verbose
      (Z.to_nat (max_iterations - 1)) 0 init = Some w /\
    calculate_empty_weight_fraction (w * g) = Ok (Float We) /\
    calculate_total_fuel_fraction w R_km V_mps h_m
      L_D_cruise_default TSFC_kgNs_default = Ok Wf /\
    snd (estimate_weights_iterative W_payload_kg R_km V_mps h_m tolerance
           verbose init max_iterations) = Ok (Some d) /\
    d !! "MTOW_kg" = Some (VFloat (balance W_payload_kg We Wf)) /\
    d !! "OEW_kg" = Some (VFloat (balance W_payload_kg We Wf * We)) /\
    d !! "W_fuel_kg" = Some (VFloat (balance W_payload_kg We Wf * Wf)) /\
    d !! "iterations" = Some (VInt max_iterations) /\
    d !! "converged" = Some (VBool false).
Proof.
  intros Hmax H.
  destruct (solve_capped W_payload_kg R_km V_mps h_m tolerance verbose
              init max_iterations Hmax H) as (w & We & Wf & Hw & HWe & HWf & Hs).
  exists w, We, Wf. eexists. repeat split; try eassumption; reflexivity.
Qed.

(** C9.  With a cap that is zero or negative the loop body never runs,
    and the call fails on the unbound loop locals instead of returning:
    the non-converged result exists only for [max_iterations >= 1]. *)
Theorem nonpositive_cap_fails_unbound
    (W_payload_kg R_km V_mps h_m tolerance : R) (verbose : bool)
    (init : R) (max_iterations : Z) :
  (max_iterations <= 0)%Z ->
  snd (estimate_weights_iterative W_payload_kg R_km V_mps h_m tolerance
         verbose init max_iterations) = Raise UnboundLocalError.
Proof. apply solve_empty_range. Qed.

(** C1, as the code has it.  If the loop enters iteration [n <
    max_iterations] and there the denominator is positive and the
    residual passes the test, the call returns a dictionary with
    [MTOW_kg = W0_calc], [OEW_kg = W0_calc * We], [W_fuel_kg = W0_calc *
    Wf] and [iterations = n + 1]; that dictionary has no [converged]
    entry. *)
Theorem converged_result_fields
    (W_payload_kg R_km V_mps h_m tolerance : R) (verbose : bool)
    (init : R) (max_iterations : Z) (n : nat) (w We Wf : R) :
  (Z.of_nat n < max_iterations)%Z ->
  W0_entering W_payload_kg R_km V_mps h_m tolerance verbose n 0 init
    = Some w ->
  calculate_empty_weight_fraction (w * g) = Ok (Float We) ->
  calculate_total_fuel_fraction w R_km V_mps h_m
    L_D_cruise_default TSFC_kgNs_default = Ok Wf ->
  0 < 1 - We - Wf ->
  Rabs (w - balance W_payload_kg We Wf) < tolerance ->
  exists d,
    snd (estimate_weights_iterative W_payload_kg R_km V_mps h_m tolerance
           verbose init max_iterations) = Ok (Some d) /\
    d !! "MTOW_kg" = Some (VFloat (balance W_payload_kg We Wf)) /\
    d !! "OEW_kg" = Some (VFloat (balance W_payload_kg We Wf * We)) /\
    d !! "W_fuel_kg" = Some (VFloat (balance W_payload_kg We Wf * Wf)) /\
    d !! "iterations" = Some (VInt (Z.of_nat n + 1)) /\
    d !! "converged" = None.
Proof.
  intros Hn Hent HWe HWf Hd Hr. eexists. split.
  - eapply solve_converged; eassumption.
  - repeat split; reflexivity.
Qed.

End SolverClaims.

(** ** The solver on the worked example *)

Section SolverInstances.

Import Weights Design.

(** The worked example with a cap of zero. *)
Lemma nonpositive_cap_fails_unbound_witness :
  snd (estimate_weights_iterative W_payload_kg R_km V_mps h_m 1.0 true
         initial_W0_guess_kg 0) = Raise UnboundLocalError.
Proof. apply nonpositive_cap_fails_unbound. lia. Defined.

(** The worked example with one iteration and a zero tolerance. *)
Lemma cap_reached_returns_last_estimate_witness :
  exists w We Wf d,
    W0_entering W_payload_kg R_km V_mps h_m 0 true
      (Z.to_nat (1 - 1)) 0 initial_W0_guess_kg = Some w /\
    calculate_empty_weight_fraction (w * g) = Ok (Float We) /\
    calculate_total_fuel_fraction w R_km V_mps h_m
      L_D_cruise_default TSFC_kgNs_default = Ok Wf /\
    snd (estimate_weights_iterative W_payload_kg R_km V_mps h_m 0
           true initial_W0_guess_kg 1) = Ok (Some d) /\
    d !! "MTOW_kg" = Some (VFloat (balance W_payload_kg We Wf)) /\
    d !! "OEW_kg" = Some (VFloat (balance W_payload_kg We Wf * We)) /\
    d !! "W_fuel_kg" = Some (VFloat (balance W_payload_kg We Wf * Wf)) /\
    d !! "iterations" = Some (VInt 1) /\
    d !! "converged" = Some (VBool false).
Proof.
  apply cap_reached_returns_last_estimate; [lia|].
  intros n w Hn Hent.
  assert (n = 0%nat) by lia. subst n.
  cbn in Hent. injection Hent as <-.
  exists We_first, Wf_first.
  destruct design_We_first as [HWe _].
  destruct (design_Wf_first initial_W0_guess_kg) as [HWf _].
  pose proof design_first_denominator as Hd.
  repeat split; try assumption; try lra.
  intros Hlt. pose proof (Rabs_pos
    (initial_W0_guess_kg - balance W_payload_kg We_first Wf_first)). lra.
Defined.

(** The worked example with a tolerance of 30 tonnes converges in its
    first iteration. *)
Lemma design_first_residual :
  Rabs (initial_W0_guess_kg - balance W_payload_kg We_first Wf_first)
    < 30000.
Proof.
  pose proof design_first_balance as Hb.
  apply Rabs_def1; unfold initial_W0_guess_kg; lra.
Qed.

Lemma converged_result_fields_witness :
  exists d,
    snd (estimate_weights_iterative W_payload_kg R_km V_mps h_m 30000
           true initial_W0_guess_kg 50) = Ok (Some d) /\
    d !! "MTOW_kg"
      = Some (VFloat (balance W_payload_kg We_first Wf_first)) /\
    d !! "OEW_kg"
      = Some (VFloat (balance W_payload_kg We_first Wf_first * We_first)) /\
    d !! "W_fuel_kg"
      = Some (VFloat (balance W_payload_kg We_first Wf_first * Wf_first)) /\
    d !! "iterations" = Some (VInt (Z.of_nat 0 + 1)) /\
    d !! "converged" = None.
Proof.
  apply (converged_result_fields W_payload_kg R_km V_mps h_m 30000 true
           initial_W0_guess_kg 50 0 initial_W0_guess_kg We_first Wf_first).
  - lia.
  - reflexivity.
  - apply design_We_first.
  - apply design_Wf_first.
  - pose proof design_first_denominator as Hd. lra.
  - apply design_first_residual.
Defined.

(** On that call the premises of C1 hold at the first iteration, and the
    returned dictionary carries no true [converged] flag. *)
Lemma converged_flag_counterexample :
  W0_entering W_payload_kg R_km V_mps h_m 30000 true 0 0
    initial_W0_guess_kg = Some initial_W0_guess_kg /\
  calculate_empty_weight_fraction (initial_W0_guess_kg * g)
    = Ok (Float We_first) /\
  calculate_total_fuel_fraction initial_W0_guess_kg R_km V_mps h_m
    L_D_cruise_default TSFC_kgNs_default = Ok Wf_first /\
  0 < 1 - We_first - Wf_first /\
  Rabs (initial_W0_guess_kg - balance W_payload_kg We_first Wf_first)
    < 30000 /\
  ~ exists d,
      snd (estimate_weights_iterative W_payload_kg R_km V_mps h_m 30000
             true initial_W0_guess_kg 50) = Ok (Some d) /\
      d !! "converged" = Some (VBool true).
Proof.
  destruct design_We_first as [HWe _].
  destruct (design_Wf_first initial_W0_guess_kg) as [HWf _].
  pose proof design_first_denominator as Hd.
  pose proof design_first_residual as Hr.
  repeat split; try assumption; try lra.
  intros (d & Hsolve & Hflag).
  rewrite (solve_converged W_payload_kg R_km V_mps h_m 30000 true 0
             initial_W0_guess_kg 50 initial_W0_guess_kg We_first Wf_first)
    in Hsolve; try assumption; try lra; try lia; try reflexivity.
  injection Hsolve as <-. discriminate Hflag.
Qed.

(** A range of 100 000 km on the otherwise unchanged worked example. *)
Lemma far_range_cruise_ratio :
  exp (cruise_exponent 100000 V_mps L_D_cruise_default TSFC_kgNs_default)
    <= 0.2.
Proof.
  replace (cruise_exponent 100000 V_mps L_D_cruise_default
             TSFC_kgNs_default) with (- 19620 / 4008.96)
    by (unfold cruise_exponent, V_mps, L_D_cruise_default,
          TSFC_kgNs_default, g; lra).
  exp_above 1%nat 1%nat 0.2.
Qed.

Lemma infeasible_balance_stops_solver_witness :
  exists pre,
    estimate_weights_iterative W_payload_kg 100000 V_mps h_m 1.0 true
      initial_W0_guess_kg 50
    = (pre ++ [ErrorDenominator
                 (1 - We_first
                  - (1 - exp (cruise_exponent 100000 V_mps
                                L_D_cruise_default TSFC_kgNs_default)
                         * W_other_phases_ratio * W_reserve_ratio))],
       Ok None).
Proof.
  pose proof far_range_cruise_ratio as He.
  pose proof (exp_pos (cruise_exponent 100000 V_mps L_D_cruise_default
                         TSFC_kgNs_default)) as Hp.
  apply (infeasible_balance_stops_solver W_payload_kg 100000 V_mps h_m 1.0
           true initial_W0_guess_kg 50 0 initial_W0_guess_kg).
  - lia.
  - reflexivity.
  - apply design_We_first.
  - apply calculate_total_fuel_fraction_ok.
    + unfold V_mps, L_D_cruise_default. lra.
    + apply Rle_trans with 1; [lra | apply one_le_float_max].
  - destruct design_We_first as [_ HWe].
    unfold W_other_phases_ratio, W_taxi, W_takeoff, W_climb, W_descent,
      W_reserve_ratio. lra.
Defined.

End SolverInstances.

(** ** The weight-fraction formulas *)

Section FractionClaims.

Import Weights.

(** C10.  The fuel fraction does not depend on the take-off weight or on
    the altitude: two calls that differ only in [W0_kg] and [h_m] have
    the same outcome. *)
Theorem fuel_fraction_ignores_weight_and_altitude
    (W0_kg W0_kg' h_m h_m' R_km V_mps L_D_cruise TSFC_kgNs : R) :
  calculate_total_fuel_fraction W0_kg R_km V_mps h_m L_D_cruise TSFC_kgNs
  = calculate_total_fuel_fraction W0_kg' R_km V_mps h_m' L_D_cruise
      TSFC_kgNs.
Proof. reflexivity. Qed.

Lemma two_pow_le_exp (n : nat) : 2 ^ n <= exp (INR n).
Proof.
  replace (INR n) with (INR n * 1) by ring.
  rewrite exp_nat_pow. apply pow_incr. split; [lra|].
  pose proof (exp_ineq1_le 1). lra.
Qed.

Lemma float_max_lt_exp q : 1024 <= q -> float_max < exp q.
Proof.
  intros Hq. apply Rlt_le_trans with (2 ^ 1024).
  - unfold float_max.
    assert (H52 : 0 < / 2 ^ 52) by (apply Rinv_0_lt_compat, pow_lt; lra).
    assert (H1023 : 0 < 2 ^ 1023) by (apply pow_lt; lra).
    change (2 ^ 1024) with (2 * 2 ^ 1023). nra.
  - apply Rle_trans with (exp (INR 1024)); [apply two_pow_le_exp|].
    apply exp_le. inr_literals. exact Hq.
Qed.

(** C4 fails as stated: a range of minus one thousand million km with
    the default lift-to-drag ratio and fuel consumption has [V_mps > 0]
    and [L_D_cruise > 0], and [math.exp] raises. *)
Lemma fuel_fraction_overflow_counterexample :
  0 < 250.56 /\ 0 < 16.0 /\
  calculate_total_fuel_fraction 40000.0 (-1000000000) 250.56 12497
    16.0 2.0e-5 = Raise OverflowError.
Proof.
  split; [lra|]. split; [lra|].
  unfold calculate_total_fuel_fraction, float_div, math_exp.
  destruct (Req_dec_T (250.56 * 16.0) 0) as [H|_]; [lra|].
  cbn [res_bind].
  destruct (Rle_dec _ float_max) as [Hle|_]; [|reflexivity].
  exfalso. apply (Rlt_irrefl float_max).
  eapply Rlt_le_trans; [apply float_max_lt_exp | exact Hle].
  unfold g. lra.
Qed.

(** C4, as the code has it.  With [V_mps > 0], [L_D_cruise > 0] and a
    cruise ratio that fits a float, the function returns one minus the
    product of the Breguet cruise ratio, the fixed phase ratios and the
    reserve ratio, and raises nothing. *)
Theorem fuel_fraction_formula
    (W0_kg R_km V_mps h_m L_D_cruise TSFC_kgNs : R) :
  0 < V_mps ->
  0 < L_D_cruise ->
  exp (cruise_exponent R_km V_mps L_D_cruise TSFC_kgNs) <= float_max ->
  calculate_total_fuel_fraction W0_kg R_km V_mps h_m L_D_cruise TSFC_kgNs
  = Ok (1 - (exp (- (R_km * 1000) * 9.81 * TSFC_kgNs
                  / (V_mps * L_D_cruise))
             * (0.97 * 0.985 * 0.985 * 0.995) * 0.98)).
Proof.
  intros HV HL Hfit.
  rewrite calculate_total_fuel_fraction_ok; [|nra|exact Hfit].
  unfold cruise_exponent, W_other_phases_ratio, W_taxi, W_takeoff,
    W_climb, W_descent, W_reserve_ratio, g.
  do 5 f_equal. generalize 9.81. intros c. unfold Rdiv. ring.
Qed.

(** C5 fails as stated: a negative weight does not fail, it returns a
    complex number. *)
Lemma empty_weight_fraction_negative_counterexample :
  -1 <= 0 /\
  exists re im, calculate_empty_weight_fraction (-1) = Ok (Complex re im).
Proof.
  split; [lra|]. do 2 eexists.
  apply calculate_empty_weight_fraction_neg. lra.
Qed.

Lemma sin_PI_C_negative : sin (PI * C) < 0.
Proof.
  replace (PI * C) with (- (PI * 0.070)) by (unfold C; lra).
  rewrite sin_neg.
  assert (0 < sin (PI * 0.070)); [|lra].
  pose proof PI_RGT_0. apply sin_gt_0; lra.
Qed.

(** C5, as the code has it.  For [W0_N > 0] the function returns
    [1.118 * W0_N^(-0.070)]; for [W0_N = 0] it raises
    [ZeroDivisionError]; for [W0_N < 0] it raises nothing and returns
    the complex number
    [1.118 * |W0_N|^(-0.070) * (cos (-0.070 pi) + i sin (-0.070 pi))],
    whose imaginary part is not zero. *)
Theorem empty_weight_fraction_by_sign (W0_N : R) :
  (0 < W0_N ->
   calculate_empty_weight_fraction W0_N
   = Ok (Float (1.118 * Rpower W0_N (-0.070)))) /\
  (W0_N = 0 ->
   calculate_empty_weight_fraction W0_N = Raise ZeroDivisionError) /\
  (W0_N < 0 ->
   exists re im,
     calculate_empty_weight_fraction W0_N = Ok (Complex re im) /\
     re = 1.118 * Rpower (Rabs W0_N) (-0.070) * cos (-0.070 * PI) /\
     im = 1.118 * Rpower (Rabs W0_N) (-0.070) * sin (-0.070 * PI) /\
     im <> 0).
Proof.
  split; [|split].
  - apply calculate_empty_weight_fraction_pos.
  - intros ->. apply calculate_empty_weight_fraction_zero.
  - intros Hneg. do 2 eexists. split; [|split; [|split]].
    + apply calculate_empty_weight_fraction_neg. exact Hneg.
    + rewrite Rabs_left by exact Hneg.
      replace (-0.070 * PI) with (PI * C) by (unfold C; ring).
      unfold A, C. ring.
    + rewrite Rabs_left by exact Hneg.
      replace (-0.070 * PI) with (PI * C) by (unfold C; ring).
      unfold A, C. ring.
    + pose proof sin_PI_C_negative as Hs.
      assert (Hp : 0 < Rpower (- W0_N) C) by apply exp_pos.
      unfold A. nra.
Qed.

Lemma empty_weight_fraction_by_sign_witness :
  calculate_empty_weight_fraction 392400
  = Ok (Float (1.118 * Rpower 392400 (-0.070))) /\
  calculate_empty_weight_fraction 0 = Raise ZeroDivisionError /\
  exists re im,
    calculate_empty_weight_fraction (-392400) = Ok (Complex re im) /\
    re = 1.118 * Rpower (Rabs (-392400)) (-0.070) * cos (-0.070 * PI) /\
    im = 1.118 * Rpower (Rabs (-392400)) (-0.070) * sin (-0.070 * PI) /\
    im <> 0.
Proof.
  split; [|split].
  - apply (empty_weight_fraction_by_sign 392400). lra.
  - apply (empty_weight_fraction_by_sign 0). reflexivity.
  - apply (empty_weight_fraction_by_sign (-392400)). lra.
Defined.

End FractionClaims.

Section FractionInstances.

Import Weights Design.

Lemma fuel_fraction_formula_witness :
  calculate_total_fuel_fraction initial_W0_guess_kg R_km V_mps h_m
    L_D_cruise_default TSFC_kgNs_default
  = Ok (1 - (exp (- (R_km * 1000) * 9.81 * TSFC_kgNs_default
                  / (V_mps * L_D_cruise_default))
             * (0.97 * 0.985 * 0.985 * 0.995) * 0.98)).
Proof.
  apply fuel_fraction_formula.
  - unfold V_mps. lra.
  - unfold L_D_cruise_default. lra.
  - pose proof design_cruise_ratio.
    apply Rle_trans with 1; [lra | apply one_le_float_max].
Defined.

End FractionInstances.

(** ** The Breguet range *)

Section RangeClaims.

Import PayloadRange.

(** C8 fails as stated: past the guard, a zero fuel consumption makes
    the first division raise. *)
Lemma range_zero_tsfc_counterexample :
  ~ (1 <= 0 \/ 2 <= 1) /\
  calculate_range_km 2 1 16 250.56 0 = Raise ZeroDivisionError.
Proof.
  split; [lra|]. unfold calculate_range_km.
  destruct (Rle_dec 1 0) as [H|_]; [lra|].
  destruct (Rle_dec 2 1) as [H|_]; [lra|].
  unfold float_div.
  destruct (Req_dec_T (9.81 * 0) 0) as [_|n]; [reflexivity | lra].
Qed.

(** C8, as the code has it.  With [W_end_kg <= 0] or [W_start_kg <=
    W_end_kg] the function returns 0 and raises nothing; otherwise, for a
    non-zero [TSFC_kgNs], it returns the Breguet range in km, and for
    [TSFC_kgNs = 0] it raises [ZeroDivisionError]. *)
Theorem range_guard_and_formula
    (W_start_kg W_end_kg L_D_avg V_mps TSFC_kgNs : R) :
  (W_end_kg <= 0 \/ W_start_kg <= W_end_kg ->
   calculate_range_km W_start_kg W_end_kg L_D_avg V_mps TSFC_kgNs = Ok 0) /\
  (~ (W_end_kg <= 0 \/ W_start_kg <= W_end_kg) ->
   TSFC_kgNs <> 0 ->
   calculate_range_km W_start_kg W_end_kg L_D_avg V_mps TSFC_kgNs
   = Ok ((V_mps * L_D_avg) / (9.81 * TSFC_kgNs)
         * ln (W_start_kg / W_end_kg) / 1000)) /\
  (~ (W_end_kg <= 0 \/ W_start_kg <= W_end_kg) ->
   TSFC_kgNs = 0 ->
   calculate_range_km W_start_kg W_end_kg L_D_avg V_mps TSFC_kgNs
   = Raise ZeroDivisionError).
Proof.
  unfold calculate_range_km. split; [|split].
  - intros [H|H].
    + destruct (Rle_dec W_end_kg 0); [reflexivity | contradiction].
    + destruct (Rle_dec W_end_kg 0); [reflexivity|].
      destruct (Rle_dec W_start_kg W_end_kg); [reflexivity | contradiction].
  - intros Hguard Htsfc.
    destruct (Rle_dec W_end_kg 0) as [H|Hend]; [tauto|].
    destruct (Rle_dec W_start_kg W_end_kg) as [H|Hstart]; [tauto|].
    unfold float_div, math_log.
    destruct (Req_dec_T (9.81 * TSFC_kgNs) 0) as [H|_]; [lra|].
    destruct (Req_dec_T W_end_kg 0) as [H|_]; [lra|].
    cbn [res_bind].
    destruct (Rlt_dec 0 (W_start_kg / W_end_kg)) as [_|Hq]; [reflexivity|].
    exfalso. apply Hq. apply Rdiv_lt_0_compat; lra.
  - intros Hguard ->.
    destruct (Rle_dec W_end_kg 0) as [H|Hend]; [tauto|].
    destruct (Rle_dec W_start_kg W_end_kg) as [H|Hstart]; [tauto|].
    unfold float_div.
    destruct (Req_dec_T (9.81 * 0) 0) as [_|n]; [reflexivity | lra].
Qed.

(** The weights of point D of the payload-range example: full tanks, no
    payload; then the guard on equal weights; then no consumption. *)
Lemma range_guard_and_formula_witness :
  calculate_range_km 22069.24 22069.24 16 250.56 2.0028e-5 = Ok 0 /\
  calculate_range_km 40802.24 22069.24 16 250.56 2.0028e-5
  = Ok ((250.56 * 16) / (9.81 * 2.0028e-5)
        * ln (40802.24 / 22069.24) / 1000) /\
  calculate_range_km 40802.24 22069.24 16 250.56 0
  = Raise ZeroDivisionError.
Proof.
  split; [|split].
  - apply (range_guard_and_formula 22069.24 22069.24 16 250.56 2.0028e-5).
    right. lra.
  - apply (range_guard_and_formula 40802.24 22069.24 16 250.56 2.0028e-5);
      lra.
  - apply (range_guard_and_formula 40802.24 22069.24 16 250.56 0);
      [lra | reflexivity].
Defined.

End RangeClaims.

(** ** Field performance *)

Section RunwayClaims.

Import Runway.

Lemma takeoff_ground_balance_ok
    (W_kg S_m2 T_N_static CLmax_TO rho0_kgm3 g_ms2 mu_roll CL_ground
       CD0_takeoff K Vlof_factor V_avg_factor : R) :
  rho0_kgm3 * S_m2 * CLmax_TO <> 0 ->
  0 <= 2 * (W_kg * g_ms2) / (rho0_kgm3 * S_m2 * CLmax_TO) ->
  W_kg * g_ms2 <> 0 ->
  let Vs_TO := sqrt (2 * (W_kg * g_ms2) / (rho0_kgm3 * S_m2 * CLmax_TO)) in
  let Vlof := Vlof_factor * Vs_TO in
  let V_avg := V_avg_factor * Vlof in
  takeoff_ground_balance W_kg S_m2 T_N_static CLmax_TO rho0_kgm3 g_ms2
    mu_roll CL_ground CD0_takeoff K Vlof_factor V_avg_factor
  = Ok (Vs_TO, Vlof,
        g_ms2 / (W_kg * g_ms2)
        * (T_N_static
           - 0.5 * rho0_kgm3 * V_avg ^ 2 * S_m2
             * (CD0_takeoff + K * CL_ground ^ 2)
           - mu_roll
             * (W_kg * g_ms2
                - 0.5 * rho0_kgm3 * V_avg ^ 2 * S_m2 * CL_ground))).
Proof.
  intros Hden Hrad HW. cbv zeta.
  unfold takeoff_ground_balance, float_div, math_sqrt, W_N.
  destruct (Req_dec_T (rho0_kgm3 * S_m2 * CLmax_TO) 0) as [H|_];
    [contradiction|].
  cbn [res_bind].
  destruct (Rlt_dec _ 0) as [H|_]; [lra|].
  cbn [res_bind].
  destruct (Req_dec_T (W_kg * g_ms2) 0) as [H|_]; [contradiction|].
  reflexivity.
Qed.

Lemma landing_ground_balance_ok
    (W_land_kg S_m2 CLmax_land rho0_kgm3 g_ms2 mu_brake CD0_landing K
       CL_land_ground Vapp_factor Vtd_factor gamma_app_deg h_obs_m
       h_flare_m t_flare_s T_rev_N : R) :
  rho0_kgm3 * S_m2 * CLmax_land <> 0 ->
  0 <= 2 * (W_land_kg * g_ms2) / (rho0_kgm3 * S_m2 * CLmax_land) ->
  tan (math_radians gamma_app_deg) <> 0 ->
  W_land_kg * g_ms2 <> 0 ->
  let Vs_land :=
    sqrt (2 * (W_land_kg * g_ms2) / (rho0_kgm3 * S_m2 * CLmax_land)) in
  let Vapp := Vapp_factor * Vs_land in
  let Vtd := Vtd_factor * Vs_land in
  let V_avg_land := 0.7 * Vtd in
  landing_ground_balance W_land_kg S_m2 CLmax_land rho0_kgm3 g_ms2
    mu_brake CD0_landing K CL_land_ground Vapp_factor Vtd_factor
    gamma_app_deg h_obs_m h_flare_m t_flare_s T_rev_N
  = Ok (Vs_land, Vapp, Vtd,
        (h_obs_m - h_flare_m) / tan (math_radians gamma_app_deg),
        Vapp * t_flare_s,
        g_ms2 / (W_land_kg * g_ms2)
        * (T_rev_N
           - 0.5 * rho0_kgm3 * V_avg_land ^ 2 * S_m2
             * (CD0_landing + K * CL_land_ground ^ 2)
           - mu_brake
             * (W_land_kg * g_ms2
                - 0.5 * rho0_kgm3 * V_avg_land ^ 2 * S_m2
                  * CL_land_ground))).
Proof.
  intros Hden Hrad Htan HW. cbv zeta.
  unfold landing_ground_balance, float_div, math_sqrt, W_land_N.
  destruct (Req_dec_T (rho0_kgm3 * S_m2 * CLmax_land) 0) as [H|_];
    [contradiction|].
  cbn [res_bind].
  destruct (Rlt_dec _ 0) as [H|_]; [lra|].
  cbn [res_bind].
  destruct (Req_dec_T (tan (math_radians gamma_app_deg)) 0) as [H|_];
    [contradiction|].
  cbn [res_bind].
  destruct (Req_dec_T (W_land_kg * g_ms2) 0) as [H|_]; [contradiction|].
  reflexivity.
Qed.

(** C7.  When the take-off force balance is computed and gives
    [a_avg <= 0], [estimate_takeoff_distance] returns normally, with the
    no-acceleration warning logged and an infinite total distance; when
    the landing force balance is computed and gives [a_avg_land >= 0],
    [estimate_landing_distance] returns normally, with the
    no-deceleration warning logged and an infinite total distance. *)
Theorem degenerate_force_balance_gives_infinite_distance :
  (forall W_kg S_m2 T_N_static CLmax_TO rho0_kgm3 g_ms2 mu_roll CL_ground
          CD0_takeoff K Vlof_factor V_avg_factor t_rot_s h_obs_m
          Vs_TO Vlof a_avg,
      takeoff_ground_balance W_kg S_m2 T_N_static CLmax_TO rho0_kgm3
        g_ms2 mu_roll CL_ground CD0_takeoff K Vlof_factor V_avg_factor
      = Ok (Vs_TO, Vlof, a_avg) ->
      a_avg <= 0 ->
      exists d,
        estimate_takeoff_distance W_kg S_m2 T_N_static CLmax_TO rho0_kgm3
          g_ms2 mu_roll CL_ground CD0_takeoff K Vlof_factor V_avg_factor
          t_rot_s h_obs_m
        = ([WarnNoAcceleration], Ok d) /\
        d !! "S_total_takeoff_m" = Some VInf) /\
  (forall W_land_kg S_m2 CLmax_land rho0_kgm3 g_ms2 mu_brake CD0_landing K
          CL_land_ground Vapp_factor Vtd_factor gamma_app_deg h_obs_m
          h_flare_m t_flare_s T_rev_N
          Vs_land Vapp Vtd Sa Sf a_avg_land,
      landing_ground_balance W_land_kg S_m2 CLmax_land rho0_kgm3 g_ms2
        mu_brake CD0_landing K CL_land_ground Vapp_factor Vtd_factor
        gamma_app_deg h_obs_m h_flare_m t_flare_s T_rev_N
      = Ok (Vs_land, Vapp, Vtd, Sa, Sf, a_avg_land) ->
      a_avg_land >= 0 ->
      exists d,
        estimate_landing_distance W_land_kg S_m2 CLmax_land rho0_kgm3
          g_ms2 mu_brake CD0_landing K CL_land_ground Vapp_factor
          Vtd_factor gamma_app_deg h_obs_m h_flare_m t_flare_s T_rev_N
        = ([WarnNoDeceleration], Ok d) /\
        d !! "S_total_landing_m" = Some VInf).
Proof.
  split.
  - intros until a_avg. intros Hbal Ha.
    unfold estimate_takeoff_distance. rewrite Hbal.
    destruct (Rle_dec a_avg 0) as [_|n]; [|contradiction].
    eexists. split; reflexivity.
  - intros until a_avg_land. intros Hbal Ha.
    unfold estimate_landing_distance. rewrite Hbal.
    destruct (Rge_dec a_avg_land 0) as [_|n]; [|contradiction].
    eexists. split; reflexivity.
Qed.

Lemma sqr_of_scaled_sqrt a b q :
  0 <= q -> (a * (b * sqrt q)) ^ 2 = a ^ 2 * b ^ 2 * q.
Proof.
  intros Hq. rewrite <- (sqrt_sqrt q Hq) at 2. ring.
Qed.

Lemma approach_angle_tangent : tan (math_radians 3.0) <> 0.
Proof.
  pose proof PI_RGT_0. unfold math_radians.
  assert (0 < tan (3.0 * (PI / 180))); [|lra].
  apply tan_gt_0; lra.
Qed.

(** The take-off example of the module without thrust, and its landing
    example with the engines left at full forward thrust. *)
Lemma degenerate_force_balance_gives_infinite_distance_witness :
  (exists d,
     estimate_takeoff_distance 41557.66 113.7 0 2.1 1.225 9.81 0.03 0.1
       0.048 0.049 1.15 0.7 2.0 10.7
     = ([WarnNoAcceleration], Ok d) /\
     d !! "S_total_takeoff_m" = Some VInf) /\
  (exists d,
     estimate_landing_distance 26389 113.7 2.6 1.225 9.81 0.4 0.063 0.049
       0.1 1.3 1.15 3.0 15.2 10.0 3.0 136880
     = ([WarnNoDeceleration], Ok d) /\
     d !! "S_total_landing_m" = Some VInf).
Proof.
  destruct degenerate_force_balance_gives_infinite_distance
    as [Htakeoff Hlanding].
  split.
  - eapply Htakeoff.
    + apply takeoff_ground_balance_ok; lra.
    + rewrite sqr_of_scaled_sqrt by lra. lra.
  - eapply Hlanding.
    + apply landing_ground_balance_ok;
        [lra | lra | apply approach_angle_tangent | lra].
    + rewrite sqr_of_scaled_sqrt by lra. lra.
Defined.

End RunwayClaims.

(** ** Payload and converged take-off weight *)

Section PayloadClaims.

Import Weights.

Lemma balance_monotone p1 p2 We Wf :
  0 < 1 - We - Wf -> p1 <= p2 -> balance p1 We Wf <= balance p2 We Wf.
Proof.
  intros Hd Hp. pose proof g_positive as Hg. unfold balance, Rdiv.
  repeat apply Rmult_le_compat_r;
    try (left; apply Rinv_0_lt_compat; assumption); lra.
Qed.

Lemma converged_with_intro
    W_payload_kg R_km V_mps h_m tolerance verbose init max_iterations
    n w We Wf :
  (Z.of_nat n < max_iterations)%Z ->
  W0_entering W_payload_kg R_km V_mps h_m tolerance verbose n 0 init
    = Some w ->
  calculate_empty_weight_fraction (w * g) = Ok (Float We) ->
  calculate_total_fuel_fraction w R_km V_mps h_m
    L_D_cruise_default TSFC_kgNs_default = Ok Wf ->
  0 < 1 - We - Wf ->
  Rabs (w - balance W_payload_kg We Wf) < tolerance ->
  converged_with W_payload_kg R_km V_mps h_m tolerance verbose init
    max_iterations (Z.of_nat n + 1) (balance W_payload_kg We Wf).
Proof.
  intros Hn Hent HWe HWf Hd Hr. eexists. split.
  - eapply solve_converged; eassumption.
  - repeat split; reflexivity.
Qed.

Lemma first_iteration_monotone
    p1 p2 R_km V_mps h_m tolerance verbose init max_iterations m1 m2 :
  p1 <= p2 ->
  converged_with p1 R_km V_mps h_m tolerance verbose init max_iterations
    1 m1 ->
  converged_with p2 R_km V_mps h_m tolerance verbose init max_iterations
    1 m2 ->
  m1 <= m2.
Proof.
  intros Hp H1 H2.
  apply converged_first_inv in H1 as (We & Wf & HWe & HWf & Hd & ->).
  apply converged_first_inv in H2 as (We' & Wf' & HWe' & HWf' & _ & ->).
  rewrite HWe in HWe'. injection HWe' as <-.
  rewrite HWf in HWf'. injection HWf' as <-.
  apply balance_monotone; assumption.
Qed.

(** An iteration that returns a dictionary passed the residual test. *)
Lemma iteration_returns_residual
    W_payload_kg R_km V_mps h_m tolerance verbose i w lg d :
  iteration W_payload_kg R_km V_mps h_m tolerance verbose i w
    = StepReturn lg (Some d) ->
  exists We Wf,
    calculate_empty_weight_fraction (w * g) = Ok (Float We) /\
    calculate_total_fuel_fraction w R_km V_mps h_m
      L_D_cruise_default TSFC_kgNs_default = Ok Wf /\
    0 < 1 - We - Wf /\
    Rabs (w - balance W_payload_kg We Wf) < tolerance /\
    d !! "MTOW_kg" = Some (VFloat (balance W_payload_kg We Wf)).
Proof.
  unfold iteration.
  destruct (calculate_empty_weight_fraction (w * g)) as [[We|re im]|e];
    [| |discriminate].
  - destruct (calculate_total_fuel_fraction w R_km V_mps h_m
                L_D_cruise_default TSFC_kgNs_default) as [Wf|e];
      [|discriminate].
    cbn [num_sub].
    replace (1.0 - We - Wf) with (1 - We - Wf) by lra.
    destruct (Rle_dec (1 - We - Wf) 0) as [Hle|Hpos]; [discriminate|].
    unfold W_payload_N. fold (balance W_payload_kg We Wf).
    destruct (Rlt_dec _ tolerance) as [Hr|_]; [|discriminate].
    intros H. injection H as _ <-.
    exists We, Wf. repeat split; try reflexivity; [lra | exact Hr].
  - destruct (calculate_total_fuel_fraction w R_km V_mps h_m
                L_D_cruise_default TSFC_kgNs_default) as [Wf|e];
      discriminate.
Qed.

(** A converged solution comes from an iteration entered with some
    estimate [w]: real fractions, a positive denominator, and a returned
    take-off weight within the tolerance of [w]. *)
Lemma converged_inv
    W_payload_kg R_km V_mps h_m tolerance verbose init max_iterations k m :
  converged_with W_payload_kg R_km V_mps h_m tolerance verbose init
    max_iterations k m ->
  exists w We Wf,
    calculate_empty_weight_fraction (w * g) = Ok (Float We) /\
    calculate_total_fuel_fraction w R_km V_mps h_m
      L_D_cruise_default TSFC_kgNs_default = Ok Wf /\
    0 < 1 - We - Wf /\
    m = balance W_payload_kg We Wf /\
    Rabs (w - m) < tolerance.
Proof.
  intros (d & Hsolve & Hconv & _ & Hm).
  unfold estimate_weights_iterative in Hsolve.
  destruct (for_range W_payload_kg R_km V_mps h_m tolerance verbose
              (seqZ 0 max_iterations) init None)
    as [[lg r]|last] eqn:Hloop.
  - cbn [snd] in Hsolve. subst r.
    destruct (for_range_returns_inv _ _ _ _ _ _ _ _ _ _ _ Hloop)
      as (i & w & lg' & _ & Hit).
    destruct (iteration_returns_residual _ _ _ _ _ _ _ _ _ _ Hit)
      as (We & Wf & HWe & HWf & Hd & Hr & HM).
    rewrite HM in Hm. injection Hm as <-.
    exists w, We, Wf. repeat split; assumption.
  - unfold after_loop in Hsolve.
    destruct last as [l|]; cbn [snd] in Hsolve; [|discriminate Hsolve].
    injection Hsolve as <-. discriminate Hconv.
Qed.

(** A real empty-weight fraction comes from a positive weight. *)
Lemma empty_weight_fraction_real_inv W0_N We :
  calculate_empty_weight_fraction W0_N = Ok (Float We) ->
  0 < W0_N /\ We = A * Rpower W0_N C.
Proof.
  intros H.
  destruct (Rtotal_order W0_N 0) as [Hneg | [Hz | Hpos]].
  - rewrite calculate_empty_weight_fraction_neg in H by exact Hneg.
    discriminate H.
  - subst W0_N. rewrite calculate_empty_weight_fraction_zero in H.
    discriminate H.
  - rewrite calculate_empty_weight_fraction_pos in H by exact Hpos.
    injection H as <-. split; [exact Hpos|].
    unfold A, C. reflexivity.
Qed.

(** The power with the negative Raymer exponent falls as the weight
    grows, so the denominator of the balance grows with the estimate. *)
Lemma Rpower_C_antitone x y :
  0 < x -> x <= y -> Rpower y C <= Rpower x C.
Proof.
  intros Hx Hxy. unfold Rpower. apply exp_le.
  assert (Hln : ln x <= ln y).
  { destruct Hxy as [Hlt | ->]; [left; apply ln_increasing; lra | lra]. }
  unfold C. nra.
Qed.

(** C6, as the code has it.  For a fixed mission, initial guess,
    tolerance and cap, and payloads [p1 <= p2] for which the solver
    returns converged solutions, in whatever iterations, the converged
    take-off weight for [p2] exceeds the one for [p1] minus twice the
    tolerance; when both converge in their first iteration it is at
    least the one for [p1]. *)
Theorem converged_mtow_monotone_within_tolerance
    (p1 p2 R_km V_mps h_m tolerance : R) (verbose : bool)
    (init : R) (max_iterations : Z) (k1 k2 : Z) (m1 m2 : R) :
  p1 <= p2 ->
  converged_with p1 R_km V_mps h_m tolerance verbose init max_iterations
    k1 m1 ->
  converged_with p2 R_km V_mps h_m tolerance verbose init max_iterations
    k2 m2 ->
  m1 - 2 * tolerance < m2 /\
  (k1 = 1%Z -> k2 = 1%Z -> m1 <= m2).
Proof.
  intros Hp H1 H2. split.
  - destruct (converged_inv _ _ _ _ _ _ _ _ _ _ H1)
      as (w1 & We1 & Wf1 & HWe1 & HWf1 & Hd1 & Hm1 & Hr1).
    destruct (converged_inv _ _ _ _ _ _ _ _ _ _ H2)
      as (w2 & We2 & Wf2 & HWe2 & HWf2 & Hd2 & Hm2 & Hr2).
    assert (HWf : Wf1 = Wf2).
    { unfold calculate_total_fuel_fraction in HWf1, HWf2. congruence. }
    subst Wf2.
    destruct (empty_weight_fraction_real_inv _ _ HWe1) as [Hw1 HWe1'].
    destruct (empty_weight_fraction_real_inv _ _ HWe2) as [Hw2 HWe2'].
    pose proof g_positive as Hg.
    assert (Hpos2 : 0 < w2) by nra.
    pose proof (balance_times_denominator p1 We1 Wf1 ltac:(lra)) as Hb1.
    pose proof (balance_times_denominator p2 We2 Wf1 ltac:(lra)) as Hb2.
    rewrite <- Hm1 in Hb1. rewrite <- Hm2 in Hb2.
    apply Rabs_def2 in Hr1. apply Rabs_def2 in Hr2.
    destruct (Rlt_le_dec (m1 - 2 * tolerance) m2) as [Hlt|Hge];
      [exact Hlt | exfalso].
    assert (Hw : w2 <= w1) by lra.
    assert (HWe : We1 <= We2).
    { rewrite HWe1', HWe2'. apply Rmult_le_compat_l; [unfold A; lra|].
      apply Rpower_C_antitone; nra. }
    destruct (Rle_lt_dec 0 p2) as [Hp2|Hp2].
    + assert (Hm2pos : 0 <= m2) by nra.
      assert (m1 <= m2); [|lra].
      apply Rmult_le_reg_r with (1 - We1 - Wf1); [exact Hd1|]. nra.
    + assert (Hm1neg : m1 < 0) by nra. lra.
  - intros -> ->. eapply first_iteration_monotone; eassumption.
Qed.

End PayloadClaims.

Section PayloadInstances.

Import Weights Design.

Lemma design_converges_first p :
  0 <= p -> p <= light_payload_kg ->
  converged_with p R_km V_mps h_m wide_tolerance true
    initial_W0_guess_kg 50 1 (balance p We_first Wf_first).
Proof.
  intros Hp0 Hp.
  apply (converged_with_intro p R_km V_mps h_m wide_tolerance true
           initial_W0_guess_kg 50 0 initial_W0_guess_kg).
  - lia.
  - reflexivity.
  - apply design_We_first.
  - apply design_Wf_first.
  - pose proof design_first_denominator. lra.
  - pose proof (balance_enclosure p We_first Wf_first 0.186 0.197
                  ltac:(lra) design_first_denominator Hp0) as Hb.
    unfold light_payload_kg in Hp.
    apply Rabs_def1; unfold initial_W0_guess_kg, wide_tolerance; lra.
Qed.

Lemma W0_second_bounds : 200000 <= W0_second <= 213000.
Proof.
  pose proof (balance_enclosure heavy_payload_kg We_first Wf_first
                0.186 0.197 ltac:(lra) design_first_denominator
                ltac:(unfold heavy_payload_kg; lra)) as H.
  unfold W0_second, heavy_payload_kg in *. lra.
Qed.

Lemma We_second_bounds : 0 < We_second <= 0.4175.
Proof.
  pose proof W0_second_bounds as Hw. unfold We_second. split.
  - assert (0 < Rpower (W0_second * g) C) by apply exp_pos.
    unfold A. lra.
  - assert (Rpower (W0_second * g) C <= 0.3734); [|unfold A; lra].
    apply Rle_trans with (exp (C * 14.2)).
    + apply Rpower_C_upper. apply Rle_trans with 1962000.
      * exp_above 16%nat 64%nat 2.45.
      * unfold g. lra.
    + unfold C. exp_above 1%nat 128%nat 0.3734.
Qed.

Lemma second_denominator : 0.2267 <= 1 - We_second - Wf_first <= 0.6461.
Proof.
  pose proof We_second_bounds.
  destruct (design_Wf_first 0) as [_ HWf]. lra.
Qed.

(** The heavier payload enters a second iteration. *)
Lemma heavy_enters_second :
  W0_entering heavy_payload_kg R_km V_mps h_m wide_tolerance true
    1 0 initial_W0_guess_kg = Some W0_second.
Proof.
  rewrite W0_entering_S.
  rewrite (iteration_next heavy_payload_kg R_km V_mps h_m wide_tolerance
             true 0 initial_W0_guess_kg We_first Wf_first).
  - reflexivity.
  - apply design_We_first.
  - apply design_Wf_first.
  - pose proof design_first_denominator. lra.
  - pose proof W0_second_bounds as Hw. fold W0_second.
    rewrite Rabs_left; unfold wide_tolerance, initial_W0_guess_kg; lra.
Qed.

(** The heavier payload converges in its second iteration. *)
Lemma heavy_converges_second :
  converged_with heavy_payload_kg R_km V_mps h_m wide_tolerance true
    initial_W0_guess_kg 50 2 (balance heavy_payload_kg We_second Wf_first).
Proof.
  pose proof W0_second_bounds as Hw.
  pose proof second_denominator as Hd2.
  pose proof (balance_enclosure heavy_payload_kg We_second Wf_first
                0.2267 0.6461 ltac:(lra) Hd2
                ltac:(unfold heavy_payload_kg; lra)) as Hm2.
  set (m2 := balance heavy_payload_kg We_second Wf_first) in *.
  unfold heavy_payload_kg in Hm2.
  apply (converged_with_intro heavy_payload_kg R_km V_mps h_m
           wide_tolerance true initial_W0_guess_kg 50 1 W0_second
           We_second Wf_first).
  - lia.
  - apply heavy_enters_second.
  - apply calculate_empty_weight_fraction_pos.
    pose proof g_positive. nra.
  - apply design_Wf_first.
  - lra.
  - fold m2. apply Rabs_def1; unfold wide_tolerance; lra.
Qed.

(** The two payloads of the counterexample, which converge in different
    iterations, and two payloads that converge in the first. *)
Lemma converged_mtow_monotone_within_tolerance_witness :
  balance light_payload_kg We_first Wf_first - 2 * wide_tolerance
  < balance heavy_payload_kg We_second Wf_first /\
  balance W_payload_kg We_first Wf_first
  <= balance light_payload_kg We_first Wf_first.
Proof.
  split.
  - apply (converged_mtow_monotone_within_tolerance
             light_payload_kg heavy_payload_kg R_km V_mps h_m
             wide_tolerance true initial_W0_guess_kg 50 1 2).
    + unfold light_payload_kg, heavy_payload_kg. lra.
    + apply design_converges_first; unfold light_payload_kg; lra.
    + apply heavy_converges_second.
  - apply (converged_mtow_monotone_within_tolerance
             W_payload_kg light_payload_kg R_km V_mps h_m wide_tolerance
             true initial_W0_guess_kg 50 1 1).
    + unfold W_payload_kg, light_payload_kg. lra.
    + apply design_converges_first;
        unfold W_payload_kg, light_payload_kg; lra.
    + apply design_converges_first; unfold light_payload_kg; lra.
    + reflexivity.
    + reflexivity.
Defined.

(** C6 fails as stated: on the mission of the worked example with a
    tolerance of 160 tonnes, the payload of 37 tonnes converges in one
    iteration, the payload of 39.5 tonnes in two, and the heavier
    payload gets the smaller take-off weight. *)
Lemma payload_monotonicity_counterexample :
  light_payload_kg <= heavy_payload_kg /\
  exists m1 m2,
    converged_with light_payload_kg R_km V_mps h_m wide_tolerance true
      initial_W0_guess_kg 50 1 m1 /\
    converged_with heavy_payload_kg R_km V_mps h_m wide_tolerance true
      initial_W0_guess_kg 50 2 m2 /\
    m2 < m1.
Proof.
  split; [unfold light_payload_kg, heavy_payload_kg; lra|].
  exists (balance light_payload_kg We_first Wf_first),
         (balance heavy_payload_kg We_second Wf_first).
  pose proof W0_second_bounds as Hw.
  pose proof second_denominator as Hd2.
  pose proof (balance_enclosure heavy_payload_kg We_second Wf_first
                0.2267 0.6461 ltac:(lra) Hd2
                ltac:(unfold heavy_payload_kg; lra)) as Hm2.
  pose proof (balance_enclosure light_payload_kg We_first Wf_first
                0.186 0.197 ltac:(lra) design_first_denominator
                ltac:(unfold light_payload_kg; lra)) as Hm1.
  set (m1 := balance light_payload_kg We_first Wf_first) in *.
  set (m2 := balance heavy_payload_kg We_second Wf_first) in *.
  unfold heavy_payload_kg in Hm2. unfold light_payload_kg in Hm1.
  split; [|split].
  - apply design_converges_first; unfold light_payload_kg; lra.
  - apply (converged_with_intro heavy_payload_kg R_km V_mps h_m
             wide_tolerance true initial_W0_guess_kg 50 1 W0_second
             We_second Wf_first).
    + lia.
    + apply heavy_enters_second.
    + apply calculate_empty_weight_fraction_pos.
      pose proof g_positive. nra.
    + apply design_Wf_first.
    + lra.
    + fold m2. apply Rabs_def1; unfold wide_tolerance; lra.
  - lra.
Qed.

End PayloadInstances.

(** ** payload_range.py: lift-to-drag ratio and range *)

Section LiftToDrag.

Import PayloadRange.

(** The lift coefficient of level flight, [2 W_N / (rho S V^2)]. *)
Lemma calculate_L_D_unfold W_kg rho_kgm3 S_m2 V_mps C_D0 k_2 :
  rho_kgm3 * S_m2 * V_mps ^ 2 <> 0 ->
  let CL := 2 * (W_kg * 9.81) / (rho_kgm3 * S_m2 * V_mps ^ 2) in
  CL <> 0 ->
  C_D0 / CL + k_2 * CL <> 0 ->
  calculate_L_D W_kg rho_kgm3 S_m2 V_mps C_D0 k_2
  = Ok (1 / (C_D0 / CL + k_2 * CL)).
Proof.
  intros Hden CL HCL Hdrag. unfold calculate_L_D, float_div.
  destruct (Req_dec_T (rho_kgm3 * S_m2 * V_mps ^ 2) 0) as [H|_];
    [contradiction|].
  cbn [res_bind]. fold CL.
  destruct (Req_dec_T CL 0) as [H|_]; [contradiction|].
  destruct (Req_dec_T CL 0) as [H|_]; [contradiction|].
  cbn [res_bind].
  destruct (Req_dec_T (C_D0 / CL + k_2 * CL) 0) as [H|_]; [contradiction|].
  reflexivity.
Qed.

(** X1.  With a non-zero dynamic-pressure term, a non-zero weight and a
    non-zero drag polar [C_D0 + k_2 CL^2], [calculate_L_D] returns
    [CL / (C_D0 + k_2 CL^2)] for the level-flight lift coefficient
    [CL = 2 W g / (rho S V^2)], the formula its comment states. *)
Theorem lift_to_drag_is_polar_ratio
    (W_kg rho_kgm3 S_m2 V_mps C_D0 k_2 : R) :
  rho_kgm3 * S_m2 * V_mps ^ 2 <> 0 ->
  W_kg <> 0 ->
  let CL := 2 * (W_kg * 9.81) / (rho_kgm3 * S_m2 * V_mps ^ 2) in
  C_D0 + k_2 * CL ^ 2 <> 0 ->
  calculate_L_D W_kg rho_kgm3 S_m2 V_mps C_D0 k_2
  = Ok (CL / (C_D0 + k_2 * CL ^ 2)).
Proof.
  intros Hden HW CL Hpolar.
  assert (HCL : CL <> 0).
  { unfold CL, Rdiv. apply Rmult_integral_contrapositive_currified.
    - lra.
    - apply Rinv_neq_0_compat. exact Hden. }
  assert (Hsum : C_D0 / CL + k_2 * CL = (C_D0 + k_2 * CL ^ 2) / CL)
    by (field; exact HCL).
  rewrite calculate_L_D_unfold; try assumption.
  - fold CL. rewrite Hsum. f_equal. field. split; assumption.
  - fold CL. rewrite Hsum. unfold Rdiv.
    apply Rmult_integral_contrapositive_currified;
      [exact Hpolar | apply Rinv_neq_0_compat; exact HCL].
Qed.

Lemma lift_to_drag_is_polar_ratio_witness :
  calculate_L_D 32000 0.301 113.7 250.56 0.018 0.049
  = Ok (2 * (32000 * 9.81) / (0.301 * 113.7 * 250.56 ^ 2)
        / (0.018
           + 0.049
             * (2 * (32000 * 9.81) / (0.301 * 113.7 * 250.56 ^ 2)) ^ 2)).
Proof.
  apply (lift_to_drag_is_polar_ratio 32000 0.301 113.7 250.56 0.018 0.049).
  - lra.
  - lra.
  - lra.
Defined.

Lemma two_sqrt_le_sum a b : 0 < a -> 0 < b -> 2 * sqrt (a * b) <= a + b.
Proof.
  intros Ha Hb.
  assert (Hs : sqrt (a * b) <= sqrt (((a + b) / 2) * ((a + b) / 2))).
  { apply sqrt_le_1_alt.
    replace ((a + b) / 2 * ((a + b) / 2))
      with (a * b + (a - b) * (a - b) / 4) by field.
    pose proof (Rle_0_sqr (a - b)) as Hsq. unfold Rsqr in Hsq. lra. }
  rewrite sqrt_square in Hs by lra. lra.
Qed.

Lemma lift_to_drag_bounds W_kg rho_kgm3 S_m2 V_mps C_D0 k_2 :
  0 < W_kg -> 0 < rho_kgm3 -> 0 < S_m2 -> V_mps <> 0 ->
  0 < C_D0 -> 0 < k_2 ->
  exists L_D,
    calculate_L_D W_kg rho_kgm3 S_m2 V_mps C_D0 k_2 = Ok L_D /\
    0 < L_D <= 1 / (2 * sqrt (C_D0 * k_2)).
Proof.
  intros HW Hrho HS HV HC Hk.
  assert (HV2 : 0 < V_mps ^ 2).
  { rewrite <- Rsqr_pow2. apply Rsqr_pos_lt. exact HV. }
  assert (Hden : 0 < rho_kgm3 * S_m2 * V_mps ^ 2).
  { apply Rmult_lt_0_compat; [apply Rmult_lt_0_compat|]; assumption. }
  set (CL := 2 * (W_kg * 9.81) / (rho_kgm3 * S_m2 * V_mps ^ 2)).
  assert (HCL : 0 < CL).
  { unfold CL. apply Rdiv_lt_0_compat; lra. }
  assert (Ha : 0 < C_D0 / CL) by (apply Rdiv_lt_0_compat; assumption).
  assert (Hb : 0 < k_2 * CL) by (apply Rmult_lt_0_compat; assumption).
  assert (Hab : C_D0 / CL * (k_2 * CL) = C_D0 * k_2) by (field; lra).
  pose proof (two_sqrt_le_sum _ _ Ha Hb) as Hsum. rewrite Hab in Hsum.
  assert (Hs : 0 < sqrt (C_D0 * k_2)).
  { apply sqrt_lt_R0. apply Rmult_lt_0_compat; assumption. }
  exists (1 / (C_D0 / CL + k_2 * CL)). split.
  - apply calculate_L_D_unfold; fold CL; lra.
  - split.
    + apply Rdiv_lt_0_compat; lra.
    + unfold Rdiv. rewrite !Rmult_1_l.
      apply Rinv_le_contravar; lra.
Qed.

(** X2.  For a positive weight, density, wing area, parasite drag and
    induced-drag factor and a non-zero speed, [calculate_L_D] returns a
    positive ratio that never exceeds the maximum of the polar,
    [1 / (2 sqrt (C_D0 k_2))]. *)
Theorem lift_to_drag_below_polar_maximum
    (W_kg rho_kgm3 S_m2 V_mps C_D0 k_2 : R) :
  0 < W_kg -> 0 < rho_kgm3 -> 0 < S_m2 -> V_mps <> 0 ->
  0 < C_D0 -> 0 < k_2 ->
  exists L_D,
    calculate_L_D W_kg rho_kgm3 S_m2 V_mps C_D0 k_2 = Ok L_D /\
    0 < L_D <= 1 / (2 * sqrt (C_D0 * k_2)).
Proof. apply lift_to_drag_bounds. Qed.

Lemma lift_to_drag_below_polar_maximum_witness :
  exists L_D,
    calculate_L_D 32000 0.301 113.7 250.56 0.018 0.049 = Ok L_D /\
    0 < L_D <= 1 / (2 * sqrt (0.018 * 0.049)).
Proof.
  apply lift_to_drag_below_polar_maximum; lra.
Defined.

(** X3.  The guard of [calculate_L_D] covers a zero lift coefficient
    only: a zero weight returns 0 when the dynamic-pressure term is not
    zero, while a zero density, wing area or speed raises
    [ZeroDivisionError] whatever the weight. *)
Theorem lift_to_drag_zero_cases
    (W_kg rho_kgm3 S_m2 V_mps C_D0 k_2 : R) :
  (rho_kgm3 * S_m2 * V_mps ^ 2 <> 0 ->
   calculate_L_D 0 rho_kgm3 S_m2 V_mps C_D0 k_2 = Ok 0) /\
  (rho_kgm3 = 0 \/ S_m2 = 0 \/ V_mps = 0 ->
   calculate_L_D W_kg rho_kgm3 S_m2 V_mps C_D0 k_2
   = Raise ZeroDivisionError).
Proof.
  split.
  - intros Hden. unfold calculate_L_D, float_div.
    destruct (Req_dec_T (rho_kgm3 * S_m2 * V_mps ^ 2) 0) as [H|_];
      [contradiction|].
    cbn [res_bind].
    destruct (Req_dec_T _ 0) as [_|n]; [reflexivity|].
    exfalso. apply n. unfold Rdiv. ring.
  - intros Hz. unfold calculate_L_D, float_div.
    destruct (Req_dec_T (rho_kgm3 * S_m2 * V_mps ^ 2) 0) as [_|n];
      [reflexivity|].
    exfalso. apply n. destruct Hz as [-> | [-> | ->]]; ring.
Qed.

Lemma lift_to_drag_zero_cases_witness :
  calculate_L_D 0 0.301 113.7 250.56 0.018 0.049 = Ok 0 /\
  calculate_L_D 32000 0.301 113.7 0 0.018 0.049 = Raise ZeroDivisionError.
Proof.
  split.
  - apply (lift_to_drag_zero_cases 0 0.301 113.7 250.56 0.018 0.049). lra.
  - apply (lift_to_drag_zero_cases 32000 0.301 113.7 0 0.018 0.049).
    right. right. reflexivity.
Defined.

End LiftToDrag.

Section BreguetRange.

Import PayloadRange.

(** Inside the guard. *)
Lemma calculate_range_km_guard W_start_kg W_end_kg L_D_avg V_mps TSFC_kgNs :
  W_end_kg <= 0 \/ W_start_kg <= W_end_kg ->
  calculate_range_km W_start_kg W_end_kg L_D_avg V_mps TSFC_kgNs = Ok 0.
Proof.
  intros Hguard. unfold calculate_range_km.
  destruct (Rle_dec W_end_kg 0) as [_|Hend]; [reflexivity|].
  destruct (Rle_dec W_start_kg W_end_kg) as [_|Hstart]; [reflexivity|].
  tauto.
Qed.

(** Past the guard, with a non-zero consumption. *)
Lemma calculate_range_km_cruise W_start_kg W_end_kg L_D_avg V_mps TSFC_kgNs :
  0 < W_end_kg -> W_end_kg < W_start_kg -> TSFC_kgNs <> 0 ->
  calculate_range_km W_start_kg W_end_kg L_D_avg V_mps TSFC_kgNs
  = Ok ((V_mps * L_D_avg) / (9.81 * TSFC_kgNs)
        * ln (W_start_kg / W_end_kg) / 1000).
Proof.
  intros Hend Hstart Htsfc. unfold calculate_range_km.
  destruct (Rle_dec W_end_kg 0) as [H|_]; [lra|].
  destruct (Rle_dec W_start_kg W_end_kg) as [H|_]; [lra|].
  unfold float_div, math_log.
  destruct (Req_dec_T (9.81 * TSFC_kgNs) 0) as [H|_]; [lra|].
  destruct (Req_dec_T W_end_kg 0) as [H|_]; [lra|].
  cbn [res_bind].
  destruct (Rlt_dec 0 (W_start_kg / W_end_kg)) as [_|Hq]; [reflexivity|].
  exfalso. apply Hq. apply Rdiv_lt_0_compat; lra.
Qed.

(** X4.  Ranges of consecutive cruise segments add up: for weights
    [W1 > W2 > W3 > 0], one lift-to-drag ratio, speed and non-zero
    consumption, the range from [W1] to [W3] is the range from [W1] to
    [W2] plus the range from [W2] to [W3]. *)
Theorem range_of_consecutive_segments_adds
    (W1 W2 W3 L_D_avg V_mps TSFC_kgNs : R) :
  0 < W3 -> W3 < W2 -> W2 < W1 -> TSFC_kgNs <> 0 ->
  exists r12 r23 r13,
    calculate_range_km W1 W2 L_D_avg V_mps TSFC_kgNs = Ok r12 /\
    calculate_range_km W2 W3 L_D_avg V_mps TSFC_kgNs = Ok r23 /\
    calculate_range_km W1 W3 L_D_avg V_mps TSFC_kgNs = Ok r13 /\
    r13 = r12 + r23.
Proof.
  intros H3 H32 H21 Htsfc.
  do 3 eexists. split; [|split; [|split]].
  - apply calculate_range_km_cruise; lra.
  - apply calculate_range_km_cruise; lra.
  - apply calculate_range_km_cruise; lra.
  - replace (W1 / W3) with ((W1 / W2) * (W2 / W3)) by (field; lra).
    rewrite ln_mult by (apply Rdiv_lt_0_compat; lra).
    unfold Rdiv. ring.
Qed.

Lemma range_of_consecutive_segments_adds_witness :
  exists r12 r23 r13,
    calculate_range_km 41557.66 30000 16 250.56 2.0028e-5 = Ok r12 /\
    calculate_range_km 30000 22069.24 16 250.56 2.0028e-5 = Ok r23 /\
    calculate_range_km 41557.66 22069.24 16 250.56 2.0028e-5 = Ok r13 /\
    r13 = r12 + r23.
Proof.
  apply range_of_consecutive_segments_adds; lra.
Defined.

(** X5.  The range and the fuel fraction use the same Breguet relation:
    for [0 < W_end < W_start], a positive speed and lift-to-drag ratio
    and a non-zero consumption, flying the range that
    [calculate_range_km] gives has the cruise weight ratio
    [W_end / W_start], so [calculate_total_fuel_fraction] for that range
    returns [1 - (W_end / W_start) * 0.97 * 0.985 * 0.985 * 0.995 *
    0.98]. *)
Theorem fuel_fraction_of_breguet_range
    (W_start_kg W_end_kg L_D V_mps TSFC_kgNs W0_kg h_m : R) :
  0 < W_end_kg -> W_end_kg < W_start_kg ->
  0 < V_mps -> 0 < L_D -> TSFC_kgNs <> 0 ->
  exists range_km,
    calculate_range_km W_start_kg W_end_kg L_D V_mps TSFC_kgNs
      = Ok range_km /\
    Weights.calculate_total_fuel_fraction W0_kg range_km V_mps h_m L_D
      TSFC_kgNs
    = Ok (1 - W_end_kg / W_start_kg * Weights.W_other_phases_ratio
              * Weights.W_reserve_ratio).
Proof.
  intros Hend Hstart HV HL Htsfc.
  eexists. split; [apply calculate_range_km_cruise; lra|].
  set (r := V_mps * L_D / (9.81 * TSFC_kgNs)
            * ln (W_start_kg / W_end_kg) / 1000).
  assert (Hq : 0 < W_start_kg / W_end_kg) by (apply Rdiv_lt_0_compat; lra).
  assert (Hexp : Weights.cruise_exponent r V_mps L_D TSFC_kgNs
                 = - ln (W_start_kg / W_end_kg)).
  { unfold Weights.cruise_exponent, Weights.g, r.
    generalize (ln (W_start_kg / W_end_kg)). intros l.
    replace 9.81 with (981 / 100) by lra. field. repeat split; lra. }
  assert (Hratio : exp (Weights.cruise_exponent r V_mps L_D TSFC_kgNs)
                   = W_end_kg / W_start_kg).
  { rewrite Hexp, exp_Ropp, exp_ln by exact Hq. field. lra. }
  rewrite calculate_total_fuel_fraction_ok.
  - rewrite Hratio. reflexivity.
  - nra.
  - rewrite Hratio. apply Rle_trans with 1; [|apply one_le_float_max].
    apply Rmult_le_reg_r with W_start_kg; [lra|].
    unfold Rdiv. rewrite Rmult_assoc, Rinv_l by lra. lra.
Qed.

Lemma fuel_fraction_of_breguet_range_witness :
  exists range_km,
    calculate_range_km 41557.66 22069.24 16 250.56 2.0028e-5
      = Ok range_km /\
    Weights.calculate_total_fuel_fraction 40000 range_km 250.56 12497 16
      2.0028e-5
    = Ok (1 - 22069.24 / 41557.66 * Weights.W_other_phases_ratio
              * Weights.W_reserve_ratio).
Proof.
  apply fuel_fraction_of_breguet_range; lra.
Defined.

Lemma range_bounds
    W_start_kg W_start_kg' W_end_kg L_D_avg V_mps TSFC_kgNs :
  0 <= V_mps * L_D_avg -> 0 < TSFC_kgNs ->
  W_start_kg <= W_start_kg' ->
  exists r r',
    calculate_range_km W_start_kg W_end_kg L_D_avg V_mps TSFC_kgNs = Ok r /\
    calculate_range_km W_start_kg' W_end_kg L_D_avg V_mps TSFC_kgNs
      = Ok r' /\
    0 <= r <= r'.
Proof.
  intros HVL Htsfc Hle.
  assert (Hk : 0 <= V_mps * L_D_avg / (9.81 * TSFC_kgNs)).
  { apply Rmult_le_pos; [exact HVL|].
    left. apply Rinv_0_lt_compat. lra. }
  assert (Hcruise : forall W, 0 < W_end_kg -> W_end_kg < W ->
            0 <= ln (W / W_end_kg)).
  { intros W Hend HW. rewrite <- ln_1. left. apply ln_increasing; [lra|].
    apply Rmult_lt_reg_r with W_end_kg; [lra|].
    unfold Rdiv. rewrite Rmult_assoc, Rinv_l by lra. lra. }
  destruct (Rle_dec W_end_kg 0) as [Hend|Hend].
  - exists 0, 0. unfold calculate_range_km.
    destruct (Rle_dec W_end_kg 0); [|contradiction].
    repeat split; lra.
  - apply Rnot_le_lt in Hend.
    destruct (Rle_dec W_start_kg' W_end_kg) as [Hs'|Hs'].
    + exists 0, 0. unfold calculate_range_km.
      destruct (Rle_dec W_end_kg 0); [lra|].
      destruct (Rle_dec W_start_kg W_end_kg); [|lra].
      destruct (Rle_dec W_start_kg' W_end_kg); [|contradiction].
      repeat split; lra.
    + apply Rnot_le_lt in Hs'.
      destruct (Rle_dec W_start_kg W_end_kg) as [Hs|Hs].
      * exists 0. eexists. split; [|split].
        -- unfold calculate_range_km.
           destruct (Rle_dec W_end_kg 0); [lra|].
           destruct (Rle_dec W_start_kg W_end_kg); [reflexivity|lra].
        -- apply calculate_range_km_cruise; lra.
        -- pose proof (Hcruise W_start_kg' Hend Hs') as Hl.
           split; [lra|]. unfold Rdiv at 1.
           apply Rmult_le_pos; [|lra].
           apply Rmult_le_pos; assumption.
      * apply Rnot_le_lt in Hs. do 2 eexists. split; [|split].
        -- apply calculate_range_km_cruise; lra.
        -- apply calculate_range_km_cruise; lra.
        -- pose proof (Hcruise W_start_kg Hend Hs) as Hl.
           assert (Hmono : ln (W_start_kg / W_end_kg)
                           <= ln (W_start_kg' / W_end_kg)).
           { destruct Hle as [Hlt | ->]; [|lra].
             left. apply ln_increasing.
             - apply Rdiv_lt_0_compat; lra.
             - unfold Rdiv. apply Rmult_lt_compat_r;
                 [apply Rinv_0_lt_compat; lra | exact Hlt]. }
           split.
           ++ unfold Rdiv at 1. apply Rmult_le_pos; [|lra].
              apply Rmult_le_pos; assumption.
           ++ unfold Rdiv at 1 3. apply Rmult_le_compat_r; [lra|].
              apply Rmult_le_compat_l; assumption.
Qed.

(** X6.  For a non-negative product of speed and lift-to-drag ratio and
    a positive consumption, [calculate_range_km] never raises, its range
    is never negative, and a heavier start to the same end weight never
    gives a shorter range. *)
Theorem range_nonnegative_and_monotone
    (W_start_kg W_start_kg' W_end_kg L_D_avg V_mps TSFC_kgNs : R) :
  0 <= V_mps * L_D_avg -> 0 < TSFC_kgNs ->
  W_start_kg <= W_start_kg' ->
  exists r r',
    calculate_range_km W_start_kg W_end_kg L_D_avg V_mps TSFC_kgNs = Ok r /\
    calculate_range_km W_start_kg' W_end_kg L_D_avg V_mps TSFC_kgNs
      = Ok r' /\
    0 <= r <= r'.
Proof. apply range_bounds. Qed.

Lemma range_nonnegative_and_monotone_witness :
  exists r r',
    calculate_range_km 30000 22069.24 16 250.56 2.0028e-5 = Ok r /\
    calculate_range_km 41557.66 22069.24 16 250.56 2.0028e-5 = Ok r' /\
    0 <= r <= r'.
Proof.
  apply range_nonnegative_and_monotone; lra.
Defined.

End BreguetRange.

(** ** payload_range.py: the four points of the diagram *)

Section PayloadRangePoints.

Import PayloadRange.

Lemma segment_range_guard rho_kgm3 S_m2 V_mps C_D0 k_2 TSFC_kgNs
    W_start W_end r :
  segment_range rho_kgm3 S_m2 V_mps C_D0 k_2 TSFC_kgNs W_start W_end
    = Ok r ->
  W_end <= 0 \/ W_start <= W_end ->
  r = 0.
Proof.
  unfold segment_range. intros Hr Hguard.
  destruct (calculate_L_D _ _ _ _ _ _) as [L_D|e]; [|discriminate].
  cbn [res_bind] in Hr.
  rewrite calculate_range_km_guard in Hr by exact Hguard.
  injection Hr. auto.
Qed.

Lemma segment_range_stalled rho_kgm3 S_m2 V_mps C_D0 k_2 TSFC_kgNs
    W_start W_end :
  rho_kgm3 = 0 \/ S_m2 = 0 \/ V_mps = 0 ->
  segment_range rho_kgm3 S_m2 V_mps C_D0 k_2 TSFC_kgNs W_start W_end
    = Raise ZeroDivisionError.
Proof.
  intros Hz. unfold segment_range, calculate_L_D, float_div.
  destruct (Req_dec_T (rho_kgm3 * S_m2 * V_mps ^ 2) 0) as [_|n];
    [reflexivity|].
  exfalso. apply n. destruct Hz as [-> | [-> | ->]]; ring.
Qed.

Lemma segment_range_sane rho_kgm3 S_m2 V_mps C_D0 k_2 TSFC_kgNs
    W_start W_end :
  0 < rho_kgm3 -> 0 < S_m2 -> 0 < V_mps -> 0 < C_D0 -> 0 < k_2 ->
  0 < TSFC_kgNs -> 0 < W_start + W_end ->
  exists r,
    segment_range rho_kgm3 S_m2 V_mps C_D0 k_2 TSFC_kgNs W_start W_end
      = Ok r /\
    0 <= r.
Proof.
  intros Hrho HS HV HC Hk Ht HW. unfold segment_range.
  destruct (lift_to_drag_bounds ((W_start + W_end) / 2) rho_kgm3 S_m2
              V_mps C_D0 k_2) as (L_D & -> & HLD & _); try lra.
  cbn [res_bind].
  destruct (range_bounds W_start W_start W_end L_D V_mps TSFC_kgNs)
    as (r & r' & Hr & _ & Hpos & _); try lra.
  { apply Rmult_le_pos; lra. }
  exists r. split; [exact Hr | exact Hpos].
Qed.

(** What a successful call returns. *)
Lemma points_inv OEW_kg W_payload_max_kg W_fuel_max_kg MTOW_kg
    rho_kgm3 S_m2 V_mps C_D0 k_2 TSFC_kgNs pts :
  calculate_payload_range_points OEW_kg W_payload_max_kg W_fuel_max_kg
    MTOW_kg rho_kgm3 S_m2 V_mps C_D0 k_2 TSFC_kgNs = Ok pts ->
  exists rB rC rD,
    segment_range rho_kgm3 S_m2 V_mps C_D0 k_2 TSFC_kgNs
      (W_start_AB OEW_kg W_payload_max_kg W_fuel_max_kg MTOW_kg)
      (W_end_AB OEW_kg W_payload_max_kg) = Ok rB /\
    segment_range rho_kgm3 S_m2 V_mps C_D0 k_2 TSFC_kgNs
      (W_start_C MTOW_kg) (W_end_C OEW_kg W_fuel_max_kg MTOW_kg) = Ok rC /\
    segment_range rho_kgm3 S_m2 V_mps C_D0 k_2 TSFC_kgNs
      (W_start_D OEW_kg W_fuel_max_kg MTOW_kg) (W_end_D OEW_kg) = Ok rD /\
    pts !! "A" = Some (point (VInt 0) (VFloat W_payload_max_kg)) /\
    pts !! "B" = Some (point (VFloat rB) (VFloat W_payload_max_kg)) /\
    pts !! "C" = Some (point (VFloat rC)
                         (Payload_C_value OEW_kg W_fuel_max_kg MTOW_kg)) /\
    pts !! "D" = Some (point (VFloat rD) (VInt 0)).
Proof.
  unfold calculate_payload_range_points. intros H.
  destruct (segment_range _ _ _ _ _ _ (W_start_AB _ _ _ _) _) as [rB|e];
    [|discriminate].
  cbn [res_bind] in H.
  destruct (segment_range _ _ _ _ _ _ (W_start_C _) _) as [rC|e];
    [|discriminate].
  cbn [res_bind] in H.
  destruct (segment_range _ _ _ _ _ _ (W_start_D _ _ _) _) as [rD|e];
    [|discriminate].
  cbn [res_bind] in H. injection H as <-.
  exists rB, rC, rD. repeat split; reflexivity.
Qed.

(** X7.  When the take-off weight leaves no room for fuel beside the
    maximum payload, or the tanks hold nothing, a call that returns
    gives point B a range of 0. *)
Theorem no_fuel_margin_gives_zero_range_at_B
    (OEW_kg W_payload_max_kg W_fuel_max_kg MTOW_kg : R)
    (rho_kgm3 S_m2 V_mps C_D0 k_2 TSFC_kgNs : R)
    (pts : gmap string (gmap string value)) :
  calculate_payload_range_points OEW_kg W_payload_max_kg W_fuel_max_kg
    MTOW_kg rho_kgm3 S_m2 V_mps C_D0 k_2 TSFC_kgNs = Ok pts ->
  MTOW_kg <= OEW_kg + W_payload_max_kg \/ W_fuel_max_kg <= 0 ->
  pts !! "B" = Some (point (VFloat 0) (VFloat W_payload_max_kg)).
Proof.
  intros Hpts Hmargin.
  destruct (points_inv _ _ _ _ _ _ _ _ _ _ _ Hpts)
    as (rB & rC & rD & HB & _ & _ & _ & -> & _).
  apply segment_range_guard in HB as ->; [reflexivity|].
  right. unfold W_start_AB, W_end_AB, W_fuel_design_kg.
  pose proof (Rmin_l (MTOW_kg - OEW_kg - W_payload_max_kg) W_fuel_max_kg).
  pose proof (Rmin_r (MTOW_kg - OEW_kg - W_payload_max_kg) W_fuel_max_kg).
  destruct Hmargin; lra.
Qed.

(** X8.  When the tanks cannot be filled even without payload
    ([MTOW_kg - OEW_kg - W_fuel_max_kg < 0]), a call that returns gives
    points C and D the same range and the same zero payload. *)
Theorem overfull_tanks_merge_points_C_and_D
    (OEW_kg W_payload_max_kg W_fuel_max_kg MTOW_kg : R)
    (rho_kgm3 S_m2 V_mps C_D0 k_2 TSFC_kgNs : R)
    (pts : gmap string (gmap string value)) :
  calculate_payload_range_points OEW_kg W_payload_max_kg W_fuel_max_kg
    MTOW_kg rho_kgm3 S_m2 V_mps C_D0 k_2 TSFC_kgNs = Ok pts ->
  MTOW_kg - OEW_kg - W_fuel_max_kg < 0 ->
  pts !! "C" = pts !! "D".
Proof.
  intros Hpts Hneg.
  destruct (points_inv _ _ _ _ _ _ _ _ _ _ _ Hpts)
    as (rB & rC & rD & _ & HC & HD & _ & _ & -> & ->).
  assert (HendC : W_end_C OEW_kg W_fuel_max_kg MTOW_kg = W_end_D OEW_kg).
  { unfold W_end_C, W_end_D, Payload_C_kg. rewrite Rmax_right by lra. ring. }
  assert (HstartD : W_start_D OEW_kg W_fuel_max_kg MTOW_kg
                    = W_start_C MTOW_kg).
  { unfold W_start_D, W_start_C. rewrite Rmin_right by lra. reflexivity. }
  rewrite HendC in HC. rewrite HstartD in HD.
  rewrite HC in HD. injection HD as <-.
  unfold Payload_C_value.
  destruct (Rlt_dec (MTOW_kg - OEW_kg - W_fuel_max_kg) 0) as [_|n];
    [reflexivity | contradiction].
Qed.

(** X9.  The payload at point C is not capped by the maximum payload:
    when maximum payload and full tanks together stay below the take-off
    weight, a call that returns gives point C the payload
    [MTOW_kg - OEW_kg - W_fuel_max_kg], which exceeds
    [W_payload_max_kg]. *)
Theorem point_C_payload_can_exceed_maximum
    (OEW_kg W_payload_max_kg W_fuel_max_kg MTOW_kg : R)
    (rho_kgm3 S_m2 V_mps C_D0 k_2 TSFC_kgNs : R)
    (pts : gmap string (gmap string value)) :
  calculate_payload_range_points OEW_kg W_payload_max_kg W_fuel_max_kg
    MTOW_kg rho_kgm3 S_m2 V_mps C_D0 k_2 TSFC_kgNs = Ok pts ->
  0 <= W_payload_max_kg ->
  OEW_kg + W_payload_max_kg + W_fuel_max_kg < MTOW_kg ->
  exists rC,
    pts !! "C"
      = Some (point (VFloat rC)
                (VFloat (MTOW_kg - OEW_kg - W_fuel_max_kg))) /\
    W_payload_max_kg < MTOW_kg - OEW_kg - W_fuel_max_kg.
Proof.
  intros Hpts Hpl Hroom.
  destruct (points_inv _ _ _ _ _ _ _ _ _ _ _ Hpts)
    as (rB & rC & rD & _ & _ & _ & _ & _ & -> & _).
  exists rC. split; [|lra].
  unfold Payload_C_value.
  destruct (Rlt_dec (MTOW_kg - OEW_kg - W_fuel_max_kg) 0) as [H|_];
    [lra | reflexivity].
Qed.

(** X10.  A zero air density, wing area or speed makes
    [calculate_payload_range_points] raise [ZeroDivisionError]: the
    lift-to-drag ratio of the first segment is computed before any range
    guard is reached. *)
Theorem zero_dynamic_pressure_raises
    (OEW_kg W_payload_max_kg W_fuel_max_kg MTOW_kg : R)
    (rho_kgm3 S_m2 V_mps C_D0 k_2 TSFC_kgNs : R) :
  rho_kgm3 = 0 \/ S_m2 = 0 \/ V_mps = 0 ->
  calculate_payload_range_points OEW_kg W_payload_max_kg W_fuel_max_kg
    MTOW_kg rho_kgm3 S_m2 V_mps C_D0 k_2 TSFC_kgNs
  = Raise ZeroDivisionError.
Proof.
  intros Hz. unfold calculate_payload_range_points.
  rewrite segment_range_stalled by exact Hz. reflexivity.
Qed.

(** Sane inputs: no exception, and no negative range. *)
Lemma points_sane
    (OEW_kg W_payload_max_kg W_fuel_max_kg MTOW_kg : R)
    (rho_kgm3 S_m2 V_mps C_D0 k_2 TSFC_kgNs : R) :
  0 < OEW_kg -> OEW_kg <= MTOW_kg ->
  0 <= W_payload_max_kg -> 0 <= W_fuel_max_kg ->
  0 < rho_kgm3 -> 0 < S_m2 -> 0 < V_mps -> 0 < C_D0 -> 0 < k_2 ->
  0 < TSFC_kgNs ->
  exists pts rB rC rD,
    calculate_payload_range_points OEW_kg W_payload_max_kg W_fuel_max_kg
      MTOW_kg rho_kgm3 S_m2 V_mps C_D0 k_2 TSFC_kgNs = Ok pts /\
    pts !! "A" = Some (point (VInt 0) (VFloat W_payload_max_kg)) /\
    pts !! "B" = Some (point (VFloat rB) (VFloat W_payload_max_kg)) /\
    pts !! "C" = Some (point (VFloat rC)
                         (Payload_C_value OEW_kg W_fuel_max_kg MTOW_kg)) /\
    pts !! "D" = Some (point (VFloat rD) (VInt 0)) /\
    0 <= rB /\ 0 <= rC /\ 0 <= rD.
Proof.
  intros HO HM Hpl Hf Hrho HS HV HC Hk Ht.
  pose proof (Rmin_glb (MTOW_kg - OEW_kg - W_payload_max_kg) W_fuel_max_kg
                (- W_payload_max_kg) ltac:(lra) ltac:(lra)) as HminB.
  pose proof (Rmin_glb (OEW_kg + W_fuel_max_kg) MTOW_kg OEW_kg
                ltac:(lra) ltac:(lra)) as HminD.
  pose proof (Rmax_r (MTOW_kg - OEW_kg - W_fuel_max_kg) 0) as HmaxC.
  destruct (segment_range_sane rho_kgm3 S_m2 V_mps C_D0 k_2 TSFC_kgNs
              (W_start_AB OEW_kg W_payload_max_kg W_fuel_max_kg MTOW_kg)
              (W_end_AB OEW_kg W_payload_max_kg)) as (rB & HB & HrB);
    try assumption.
  { unfold W_start_AB, W_end_AB, W_fuel_design_kg. lra. }
  destruct (segment_range_sane rho_kgm3 S_m2 V_mps C_D0 k_2 TSFC_kgNs
              (W_start_C MTOW_kg) (W_end_C OEW_kg W_fuel_max_kg MTOW_kg))
    as (rC & HCr & HrC); try assumption.
  { unfold W_start_C, W_end_C, Payload_C_kg. lra. }
  destruct (segment_range_sane rho_kgm3 S_m2 V_mps C_D0 k_2 TSFC_kgNs
              (W_start_D OEW_kg W_fuel_max_kg MTOW_kg) (W_end_D OEW_kg))
    as (rD & HD & HrD); try assumption.
  { unfold W_start_D, W_end_D. lra. }
  eexists. exists rB, rC, rD. split.
  - unfold calculate_payload_range_points.
    rewrite HB. cbn [res_bind]. rewrite HCr. cbn [res_bind].
    rewrite HD. cbn [res_bind]. reflexivity.
  - repeat split; try reflexivity; assumption.
Qed.


(** X11.  On sane inputs (positive empty weight not above the take-off
    weight, non-negative payload and tank capacities, positive density,
    wing area, speed, drag coefficients and consumption) the function
    raises nothing, point A has range 0, and the ranges of B, C and D
    are never negative. *)
Theorem sane_inputs_give_four_points
    (OEW_kg W_payload_max_kg W_fuel_max_kg MTOW_kg : R)
    (rho_kgm3 S_m2 V_mps C_D0 k_2 TSFC_kgNs : R) :
  0 < OEW_kg -> OEW_kg <= MTOW_kg ->
  0 <= W_payload_max_kg -> 0 <= W_fuel_max_kg ->
  0 < rho_kgm3 -> 0 < S_m2 -> 0 < V_mps -> 0 < C_D0 -> 0 < k_2 ->
  0 < TSFC_kgNs ->
  exists pts rB rC rD,
    calculate_payload_range_points OEW_kg W_payload_max_kg W_fuel_max_kg
      MTOW_kg rho_kgm3 S_m2 V_mps C_D0 k_2 TSFC_kgNs = Ok pts /\
    pts !! "A" = Some (point (VInt 0) (VFloat W_payload_max_kg)) /\
    pts !! "B" = Some (point (VFloat rB) (VFloat W_payload_max_kg)) /\
    pts !! "C" = Some (point (VFloat rC)
                         (Payload_C_value OEW_kg W_fuel_max_kg MTOW_kg)) /\
    pts !! "D" = Some (point (VFloat rD) (VInt 0)) /\
    0 <= rB /\ 0 <= rC /\ 0 <= rD.
Proof. apply points_sane. Qed.

(** The aircraft of [run_example] in payload_range.py. *)
Lemma sane_inputs_give_four_points_witness :
  exists pts rB rC rD,
    calculate_payload_range_points 22069.24 2812.00 18733.00 41557.66
      0.301 113.7 250.56 0.018 0.049 2.0028e-5 = Ok pts /\
    pts !! "A" = Some (point (VInt 0) (VFloat 2812.00)) /\
    pts !! "B" = Some (point (VFloat rB) (VFloat 2812.00)) /\
    pts !! "C" = Some (point (VFloat rC)
                         (Payload_C_value 22069.24 18733.00 41557.66)) /\
    pts !! "D" = Some (point (VFloat rD) (VInt 0)) /\
    0 <= rB /\ 0 <= rC /\ 0 <= rD.
Proof.
  apply sane_inputs_give_four_points; lra.
Defined.

(** The same aircraft with a take-off weight of 24 tonnes. *)
Lemma no_fuel_margin_gives_zero_range_at_B_witness :
  exists pts,
    calculate_payload_range_points 22069.24 2812.00 18733.00 24000
      0.301 113.7 250.56 0.018 0.049 2.0028e-5 = Ok pts /\
    pts !! "B" = Some (point (VFloat 0) (VFloat 2812.00)).
Proof.
  destruct (points_sane 22069.24 2812.00 18733.00 24000
              0.301 113.7 250.56 0.018 0.049 2.0028e-5)
    as (pts & _ & _ & _ & Hpts & _); try lra.
  exists pts. split; [exact Hpts|].
  apply (no_fuel_margin_gives_zero_range_at_B 22069.24 2812.00 18733.00
           24000 0.301 113.7 250.56 0.018 0.049 2.0028e-5 pts Hpts).
  left. lra.
Defined.

(** The same aircraft with a take-off weight of 40 tonnes. *)
Lemma overfull_tanks_merge_points_C_and_D_witness :
  exists pts,
    calculate_payload_range_points 22069.24 2812.00 18733.00 40000
      0.301 113.7 250.56 0.018 0.049 2.0028e-5 = Ok pts /\
    pts !! "C" = pts !! "D".
Proof.
  destruct (points_sane 22069.24 2812.00 18733.00 40000
              0.301 113.7 250.56 0.018 0.049 2.0028e-5)
    as (pts & _ & _ & _ & Hpts & _); try lra.
  exists pts. split; [exact Hpts|].
  apply (overfull_tanks_merge_points_C_and_D 22069.24 2812.00 18733.00
           40000 0.301 113.7 250.56 0.018 0.049 2.0028e-5 pts Hpts).
  lra.
Defined.

(** The same aircraft with a take-off weight of 45 tonnes. *)
Lemma point_C_payload_can_exceed_maximum_witness :
  exists pts rC,
    calculate_payload_range_points 22069.24 2812.00 18733.00 45000
      0.301 113.7 250.56 0.018 0.049 2.0028e-5 = Ok pts /\
    pts !! "C"
      = Some (point (VFloat rC) (VFloat (45000 - 22069.24 - 18733.00))) /\
    2812.00 < 45000 - 22069.24 - 18733.00.
Proof.
  destruct (points_sane 22069.24 2812.00 18733.00 45000
              0.301 113.7 250.56 0.018 0.049 2.0028e-5)
    as (pts & _ & _ & _ & Hpts & _); try lra.
  destruct (point_C_payload_can_exceed_maximum 22069.24 2812.00 18733.00
              45000 0.301 113.7 250.56 0.018 0.049 2.0028e-5 pts Hpts)
    as (rC & HC & Hgt); try lra.
  exists pts, rC. split; [exact Hpts|]. split; assumption.
Defined.

(** The same aircraft at rest. *)
Lemma zero_dynamic_pressure_raises_witness :
  calculate_payload_range_points 22069.24 2812.00 18733.00 41557.66
    0.301 113.7 0 0.018 0.049 2.0028e-5 = Raise ZeroDivisionError.
Proof.
  apply zero_dynamic_pressure_raises. right. right. reflexivity.
Defined.

End PayloadRangePoints.

(** ** estimativa_de_peso.py: what every call of the solver keeps *)

Section SolverInvariants.

Import Weights.
Variables (W_payload_kg R_km V_mps h_m tolerance : R).

Local Abbreviation fuel W0_kg :=
  (calculate_total_fuel_fraction W0_kg R_km V_mps h_m
     L_D_cruise_default TSFC_kgNs_default).
Local Abbreviation balance := (balance W_payload_kg).

Local Abbreviation balanced := (balanced W_payload_kg).

Lemma iteration_next_inv verbose i w lg l :
  iteration W_payload_kg R_km V_mps h_m tolerance verbose i w
    = StepNext lg l ->
  balanced l /\ lg = row W_payload_kg verbose i w (We_W0_ratio l)
                       (Wf_W0_ratio l).
Proof.
  unfold iteration.
  destruct (calculate_empty_weight_fraction (w * g)) as [[We|re im]|e];
    [| |discriminate].
  - destruct (fuel w) as [Wf|e]; [|discriminate].
    cbn [num_sub].
    replace (1.0 - We - Wf) with (1 - We - Wf) by lra.
    destruct (Rle_dec (1 - We - Wf) 0) as [Hle|Hpos]; [discriminate|].
    unfold W_payload_N. fold (balance We Wf).
    destruct (Rlt_dec _ tolerance) as [_|_]; [discriminate|].
    intros H. injection H as <- <-.
    split; [split|]; cbn; [lra | reflexivity | reflexivity].
  - destruct (fuel w) as [Wf|e]; discriminate.
Qed.

(** The locals with which the loop falls through are the initial ones
    or those of an iteration. *)
Lemma for_range_falls_inv verbose idx :
  forall w last l,
    for_range W_payload_kg R_km V_mps h_m tolerance verbose idx w last
      = inr (Some l) ->
    last = Some l \/ balanced l.
Proof.
  induction idx as [|i rest IH]; intros w last l H.
  - cbn in H. injection H as ->. left. reflexivity.
  - cbn [for_range] in H.
    destruct (iteration _ _ _ _ _ verbose i w) as [e|lg0 r|lg0 l0] eqn:Hit;
      try discriminate H.
    destruct (for_range _ _ _ _ _ verbose rest (W0_calc_kg l0) (Some l0))
      as [[lg' r]|x] eqn:Hrest; [discriminate H|].
    injection H as ->.
    destruct (IH _ _ _ Hrest) as [Hl | Hl]; [|right; exact Hl].
    injection Hl as <-. right.
    apply (iteration_next_inv _ _ _ _ _ Hit).
Qed.

(** Every dictionary the solver returns is one of the two results, built
    from balanced locals. *)
Lemma solve_result_inv verbose init max_iterations d :
  snd (estimate_weights_iterative W_payload_kg R_km V_mps h_m tolerance
         verbose init max_iterations) = Ok (Some d) ->
  exists l,
    balanced l /\
    ((exists i, (0 <= i < max_iterations)%Z /\ d = converged_result l i) \/
     ((1 <= max_iterations)%Z /\ d = capped_result l max_iterations)).
Proof.
  unfold estimate_weights_iterative. intros H.
  destruct (for_range _ _ _ _ _ verbose (seqZ 0 max_iterations) init None)
    as [[lg r]|last] eqn:Hloop.
  - cbn [snd] in H. subst r.
    destruct (for_range_returns_inv _ _ _ _ _ _ _ _ _ _ _ Hloop)
      as (i & w' & lg' & Hin & Hit).
    destruct (iteration_returns_inv _ _ _ _ _ _ _ _ _ _ Hit)
      as (We & Wf & _ & _ & Hd & ->).
    eexists. split; [|left; exists i; split; [|reflexivity]].
    + split; cbn; [exact Hd | reflexivity].
    + apply list_elem_of_In, elem_of_seqZ in Hin. lia.
  - unfold after_loop in H. destruct last as [l|]; cbn [snd] in H;
      [|discriminate H].
    injection H as <-.
    destruct (for_range_falls_inv _ _ _ _ _ Hloop) as [Hl|Hl];
      [discriminate Hl|].
    exists l. split; [exact Hl|]. right. split; [|reflexivity].
    destruct (Z_le_gt_dec max_iterations 0) as [Hle|Hgt]; [|lia].
    rewrite seqZ_nil in Hloop by lia. discriminate Hloop.
Qed.

End SolverInvariants.

Section SolverInvariantClaims.

Import Weights.

(** X12.  Every dictionary [estimate_weights_iterative] returns,
    converged or capped, closes the weight balance of its docstring:
    [MTOW_kg = W_payload_kg + OEW_kg + W_fuel_kg]. *)
Theorem returned_weights_close_the_balance
    (W_payload_kg R_km V_mps h_m tolerance : R) (verbose : bool)
    (init : R) (max_iterations : Z) (d : gmap string value) :
  snd (estimate_weights_iterative W_payload_kg R_km V_mps h_m tolerance
         verbose init max_iterations) = Ok (Some d) ->
  exists MTOW OEW W_fuel,
    d !! "MTOW_kg" = Some (VFloat MTOW) /\
    d !! "OEW_kg" = Some (VFloat OEW) /\
    d !! "W_fuel_kg" = Some (VFloat W_fuel) /\
    MTOW = W_payload_kg + OEW + W_fuel.
Proof.
  intros H.
  destruct (solve_result_inv _ _ _ _ _ _ _ _ _ H)
    as (l & [Hd Hb] & [(i & _ & ->) | (_ & ->)]);
    exists (W0_calc_kg l), (W0_calc_kg l * We_W0_ratio l),
           (W0_calc_kg l * Wf_W0_ratio l);
    (repeat split; try reflexivity);
    pose proof (balance_times_denominator W_payload_kg (We_W0_ratio l)
                  (Wf_W0_ratio l) ltac:(lra)) as Hp;
    rewrite <- Hb in Hp; lra.
Qed.

(** X13.  Every dictionary the solver returns has an iteration count
    between 1 and [max_iterations]; it has no [converged] entry, or it
    has [converged = False] and an iteration count equal to the cap. *)
Theorem returned_iteration_count_within_cap
    (W_payload_kg R_km V_mps h_m tolerance : R) (verbose : bool)
    (init : R) (max_iterations : Z) (d : gmap string value) :
  snd (estimate_weights_iterative W_payload_kg R_km V_mps h_m tolerance
         verbose init max_iterations) = Ok (Some d) ->
  exists k,
    d !! "iterations" = Some (VInt k) /\
    (1 <= k <= max_iterations)%Z /\
    (d !! "converged" = None \/
     (d !! "converged" = Some (VBool false) /\ k = max_iterations)).
Proof.
  intros H.
  destruct (solve_result_inv _ _ _ _ _ _ _ _ _ H)
    as (l & _ & [(i & Hi & ->) | (Hmax & ->)]).
  - exists (i + 1)%Z. split; [reflexivity|]. split; [lia|].
    left. reflexivity.
  - exists max_iterations. split; [reflexivity|]. split; [lia|].
    right. split; reflexivity.
Qed.

End SolverInvariantClaims.

Section SolverInvariantInstances.

Import Weights Design.

(** The worked example with a tolerance of 30 tonnes. *)
Lemma returned_weights_close_the_balance_witness :
  exists MTOW OEW W_fuel,
    converged_result
      (mkLocals We_first Wf_first
         (balance W_payload_kg We_first Wf_first)
         (initial_W0_guess_kg - balance W_payload_kg We_first Wf_first))
      (Z.of_nat 0) !! "MTOW_kg" = Some (VFloat MTOW) /\
    converged_result
      (mkLocals We_first Wf_first
         (balance W_payload_kg We_first Wf_first)
         (initial_W0_guess_kg - balance W_payload_kg We_first Wf_first))
      (Z.of_nat 0) !! "OEW_kg" = Some (VFloat OEW) /\
    converged_result
      (mkLocals We_first Wf_first
         (balance W_payload_kg We_first Wf_first)
         (initial_W0_guess_kg - balance W_payload_kg We_first Wf_first))
      (Z.of_nat 0) !! "W_fuel_kg" = Some (VFloat W_fuel) /\
    MTOW = W_payload_kg + OEW + W_fuel.
Proof.
  apply (returned_weights_close_the_balance W_payload_kg R_km V_mps h_m
           30000 true initial_W0_guess_kg 50).
  apply (solve_converged W_payload_kg R_km V_mps h_m 30000 true 0
           initial_W0_guess_kg 50 initial_W0_guess_kg We_first Wf_first).
  - lia.
  - reflexivity.
  - apply design_We_first.
  - apply design_Wf_first.
  - pose proof design_first_denominator. lra.
  - apply design_first_residual.
Defined.

Lemma returned_iteration_count_within_cap_witness :
  exists k,
    converged_result
      (mkLocals We_first Wf_first
         (balance W_payload_kg We_first Wf_first)
         (initial_W0_guess_kg - balance W_payload_kg We_first Wf_first))
      (Z.of_nat 0) !! "iterations" = Some (VInt k) /\
    (1 <= k <= 50)%Z /\
    (converged_result
       (mkLocals We_first Wf_first
          (balance W_payload_kg We_first Wf_first)
          (initial_W0_guess_kg - balance W_payload_kg We_first Wf_first))
       (Z.of_nat 0) !! "converged" = None \/
     (converged_result
        (mkLocals We_first Wf_first
           (balance W_payload_kg We_first Wf_first)
           (initial_W0_guess_kg - balance W_payload_kg We_first Wf_first))
        (Z.of_nat 0) !! "converged" = Some (VBool false) /\ k = 50%Z)).
Proof.
  apply (returned_iteration_count_within_cap W_payload_kg R_km V_mps h_m
           30000 true initial_W0_guess_kg 50).
  apply (solve_converged W_payload_kg R_km V_mps h_m 30000 true 0
           initial_W0_guess_kg 50 initial_W0_guess_kg We_first Wf_first).
  - lia.
  - reflexivity.
  - apply design_We_first.
  - apply design_Wf_first.
  - pose proof design_first_denominator. lra.
  - apply design_first_residual.
Defined.

End SolverInvariantInstances.

(** ** estimativa_de_peso.py: logging and degenerate inputs *)

Section SolverLogging.

Import Weights.
Variables (W_payload_kg R_km V_mps h_m tolerance : R).

Local Abbreviation iteration :=
  (iteration W_payload_kg R_km V_mps h_m tolerance).
Local Abbreviation for_range :=
  (for_range W_payload_kg R_km V_mps h_m tolerance).
Local Abbreviation solve :=
  (estimate_weights_iterative W_payload_kg R_km V_mps h_m tolerance).

(** An iteration ends the same way with and without verbosity. *)
Lemma iteration_verbose_irrelevant i w :
  match iteration true i w, iteration false i w with
  | StepRaise e, StepRaise e' => e = e'
  | StepReturn _ r, StepReturn _ r' => r = r'
  | StepNext _ l, StepNext _ l' => l = l'
  | _, _ => False
  end.
Proof.
  unfold Weights.iteration.
  destruct (calculate_empty_weight_fraction (w * g)) as [[We|re im]|e];
    [| |reflexivity].
  - destruct (calculate_total_fuel_fraction _ _ _ _ _ _) as [Wf|e];
      [|reflexivity].
    cbn [num_sub].
    destruct (Rle_dec _ 0); [reflexivity|].
    destruct (Rlt_dec _ tolerance); reflexivity.
  - destruct (calculate_total_fuel_fraction _ _ _ _ _ _) as [Wf|e];
      reflexivity.
Qed.

Lemma for_range_verbose_irrelevant idx :
  forall w last,
    match for_range true idx w last, for_range false idx w last with
    | inl (_, r), inl (_, r') => r = r'
    | inr l, inr l' => l = l'
    | _, _ => False
    end.
Proof.
  induction idx as [|i rest IH]; intros w last.
  - reflexivity.
  - cbn [Weights.for_range].
    pose proof (iteration_verbose_irrelevant i w) as Hit.
    destruct (iteration true i w) as [e|lg r|lg l];
      destruct (iteration false i w) as [e'|lg' r'|lg' l'];
      try contradiction; try (subst; reflexivity).
    subst l'. specialize (IH (W0_calc_kg l) (Some l)).
    destruct (for_range true rest _ _) as [[lg1 r1]|x1];
      destruct (for_range false rest _ _) as [[lg2 r2]|x2];
      try contradiction; exact IH.
Qed.

(** A quiet iteration logs nothing, unless it returns [None]. *)
Lemma quiet_iteration_log i w :
  match iteration false i w with
  | StepRaise _ => True
  | StepReturn lg None => exists d, lg = [ErrorDenominator d] /\ d <= 0
  | StepReturn lg (Some _) => lg = []
  | StepNext lg _ => lg = []
  end.
Proof.
  unfold Weights.iteration.
  destruct (calculate_empty_weight_fraction (w * g)) as [[We|re im]|e];
    [| |exact I].
  - destruct (calculate_total_fuel_fraction _ _ _ _ _ _) as [Wf|e];
      [|exact I].
    cbn [num_sub].
    destruct (Rle_dec _ 0) as [Hle|_]; [eexists; split; [reflexivity|exact Hle]|].
    destruct (Rlt_dec _ tolerance); reflexivity.
  - destruct (calculate_total_fuel_fraction _ _ _ _ _ _) as [Wf|e];
      exact I.
Qed.

Lemma quiet_for_range_log idx :
  forall w last,
    match for_range false idx w last with
    | inl (lg, Ok None) => exists d, lg = [ErrorDenominator d] /\ d <= 0
    | inl (lg, _) => lg = []
    | inr _ => True
    end.
Proof.
  induction idx as [|i rest IH]; intros w last.
  - exact I.
  - cbn [Weights.for_range].
    pose proof (quiet_iteration_log i w) as Hit.
    destruct (iteration false i w) as [e|lg r|lg l].
    + reflexivity.
    + destruct r; exact Hit.
    + subst lg. specialize (IH (W0_calc_kg l) (Some l)).
      destruct (for_range false rest _ _) as [[lg1 r1]|x1]; [|exact I].
      exact IH.
Qed.

End SolverLogging.

Section SolverLoggingClaims.

Import Weights.

(** X14.  The [verbose] flag changes what is logged only: the outcome
    of [estimate_weights_iterative] (dictionary, [None] or exception) is
    the same with and without it. *)
Theorem verbose_does_not_change_the_outcome
    (W_payload_kg R_km V_mps h_m tolerance init : R) (max_iterations : Z) :
  snd (estimate_weights_iterative W_payload_kg R_km V_mps h_m tolerance
         true init max_iterations)
  = snd (estimate_weights_iterative W_payload_kg R_km V_mps h_m tolerance
           false init max_iterations).
Proof.
  unfold estimate_weights_iterative.
  pose proof (for_range_verbose_irrelevant W_payload_kg R_km V_mps h_m
                tolerance (seqZ 0 max_iterations) init None) as H.
  destruct (for_range _ _ _ _ _ true _ _ _) as [[lg r]|l];
    destruct (for_range _ _ _ _ _ false _ _ _) as [[lg' r']|l'];
    try contradiction.
  - exact H.
  - subst l'. destruct l as [l|]; reflexivity.
Qed.

(** X15.  With [verbose=False] the solver logs nothing, except the
    non-positive denominator when it returns [None]; and it returns
    [None] only then. *)
Theorem quiet_solver_logs_only_infeasibility
    (W_payload_kg R_km V_mps h_m tolerance init : R) (max_iterations : Z) :
  let '(lg, r) :=
    estimate_weights_iterative W_payload_kg R_km V_mps h_m tolerance
      false init max_iterations in
  match r with
  | Ok None => exists d, lg = [ErrorDenominator d] /\ d <= 0
  | _ => lg = []
  end.
Proof.
  unfold estimate_weights_iterative.
  pose proof (quiet_for_range_log W_payload_kg R_km V_mps h_m tolerance
                (seqZ 0 max_iterations) init None) as H.
  destruct (for_range _ _ _ _ _ false _ _ _) as [[lg r]|l].
  - cbn [app]. destruct r as [[d|]|e]; exact H.
  - destruct l as [l|]; reflexivity.
Qed.

End SolverLoggingClaims.

Section SolverDegenerateInputs.

Import Weights.

Lemma solve_first_raises
    W_payload_kg R_km V_mps h_m tolerance verbose init max_iterations e :
  (1 <= max_iterations)%Z ->
  iteration W_payload_kg R_km V_mps h_m tolerance verbose 0 init
    = StepRaise e ->
  snd (estimate_weights_iterative W_payload_kg R_km V_mps h_m tolerance
         verbose init max_iterations) = Raise e.
Proof.
  intros Hmax Hit. unfold estimate_weights_iterative.
  rewrite seqZ_cons by lia. cbn [for_range]. rewrite Hit. reflexivity.
Qed.

(** X16.  An initial guess that is not positive never gives a result
    (for a cap of at least 1): a guess of zero raises
    [ZeroDivisionError] in the empty-weight power, and a negative guess,
    once the fuel fraction has been computed, raises [TypeError] when
    the complex denominator is compared with 0. *)
Theorem nonpositive_initial_guess_raises
    (W_payload_kg R_km V_mps h_m tolerance : R) (verbose : bool)
    (init : R) (max_iterations : Z) :
  (1 <= max_iterations)%Z ->
  (init = 0 ->
   snd (estimate_weights_iterative W_payload_kg R_km V_mps h_m tolerance
          verbose init max_iterations) = Raise ZeroDivisionError) /\
  (init < 0 ->
   forall Wf,
     calculate_total_fuel_fraction init R_km V_mps h_m
       L_D_cruise_default TSFC_kgNs_default = Ok Wf ->
     snd (estimate_weights_iterative W_payload_kg R_km V_mps h_m tolerance
            verbose init max_iterations) = Raise TypeError).
Proof.
  intros Hmax. split.
  - intros ->. apply solve_first_raises; [exact Hmax|].
    unfold iteration. rewrite Rmult_0_l.
    rewrite calculate_empty_weight_fraction_zero. reflexivity.
  - intros Hneg Wf HWf. apply solve_first_raises; [exact Hmax|].
    unfold iteration.
    rewrite calculate_empty_weight_fraction_neg
      by (pose proof g_positive; nra).
    rewrite HWf. reflexivity.
Qed.

End SolverDegenerateInputs.

Section SolverDegenerateInstances.

Import Weights Design.

(** The worked example started from zero and from minus 40 tonnes. *)
Lemma nonpositive_initial_guess_raises_witness :
  snd (estimate_weights_iterative W_payload_kg R_km V_mps h_m 1.0 true
         0 50) = Raise ZeroDivisionError /\
  snd (estimate_weights_iterative W_payload_kg R_km V_mps h_m 1.0 true
         (-40000) 50) = Raise TypeError.
Proof.
  split.
  - apply (nonpositive_initial_guess_raises W_payload_kg R_km V_mps h_m
             1.0 true 0 50); [lia | reflexivity].
  - apply (nonpositive_initial_guess_raises W_payload_kg R_km V_mps h_m
             1.0 true (-40000) 50 ltac:(lia)) with (Wf := Wf_first).
    + lra.
    + apply design_Wf_first.
Defined.

End SolverDegenerateInstances.

Section ZeroPayload.

Import Weights.

(** X17.  A payload of zero makes the first estimate zero.  If the
    first iteration has a positive denominator, the initial guess is at
    least the tolerance away from zero and the cap allows a second
    iteration, that iteration raises [ZeroDivisionError]; if the guess
    is within the tolerance of zero, the call converges at once with a
    take-off weight of zero. *)
Theorem zero_payload_estimate_collapses
    (R_km V_mps h_m tolerance : R) (verbose : bool)
    (init : R) (max_iterations : Z) (We Wf : R) :
  calculate_empty_weight_fraction (init * g) = Ok (Float We) ->
  calculate_total_fuel_fraction init R_km V_mps h_m
    L_D_cruise_default TSFC_kgNs_default = Ok Wf ->
  0 < 1 - We - Wf ->
  (tolerance <= Rabs init -> (2 <= max_iterations)%Z ->
   snd (estimate_weights_iterative 0 R_km V_mps h_m tolerance verbose
          init max_iterations) = Raise ZeroDivisionError) /\
  (Rabs init < tolerance -> (1 <= max_iterations)%Z ->
   exists d,
     snd (estimate_weights_iterative 0 R_km V_mps h_m tolerance verbose
            init max_iterations) = Ok (Some d) /\
     d !! "MTOW_kg" = Some (VFloat 0)).
Proof.
  intros HWe HWf Hd.
  assert (Hb : balance 0 We Wf = 0).
  { unfold balance, Rdiv. ring. }
  split.
  - intros Htol Hmax. unfold estimate_weights_iterative.
    rewrite seqZ_cons by lia. cbn [for_range].
    rewrite (iteration_next 0 R_km V_mps h_m tolerance verbose 0 init
               We Wf HWe HWf Hd)
      by (rewrite Hb, Rminus_0_r; exact Htol).
    rewrite seqZ_cons by lia. cbn [for_range W0_calc_kg].
    unfold iteration at 1. rewrite Hb, Rmult_0_l.
    rewrite calculate_empty_weight_fraction_zero. reflexivity.
  - intros Htol Hmax. eexists. split.
    + apply (solve_converged 0 R_km V_mps h_m tolerance verbose 0 init
               max_iterations init We Wf); try assumption;
        [lia | reflexivity | rewrite Hb, Rminus_0_r; exact Htol].
    + cbn. rewrite Hb. reflexivity.
Qed.

End ZeroPayload.

Section ZeroPayloadInstances.

Import Weights Design.

(** The worked example without payload, with the default tolerance and
    with a tolerance of 50 tonnes. *)
Lemma zero_payload_estimate_collapses_witness :
  snd (estimate_weights_iterative 0 R_km V_mps h_m 1.0 true
         initial_W0_guess_kg 50) = Raise ZeroDivisionError /\
  exists d,
    snd (estimate_weights_iterative 0 R_km V_mps h_m 50000 true
           initial_W0_guess_kg 50) = Ok (Some d) /\
    d !! "MTOW_kg" = Some (VFloat 0).
Proof.
  destruct design_We_first as [HWe _].
  destruct (design_Wf_first initial_W0_guess_kg) as [HWf _].
  pose proof design_first_denominator as Hd.
  split.
  - apply (zero_payload_estimate_collapses R_km V_mps h_m 1.0 true
             initial_W0_guess_kg 50 We_first Wf_first HWe HWf);
      [lra | | lia].
    rewrite Rabs_right; unfold initial_W0_guess_kg; lra.
  - apply (zero_payload_estimate_collapses R_km V_mps h_m 50000 true
             initial_W0_guess_kg 50 We_first Wf_first HWe HWf);
      [lra | | lia].
    rewrite Rabs_right; unfold initial_W0_guess_kg; lra.
Defined.

End ZeroPayloadInstances.

(** ** estimativa_de_peso.py: the two fractions *)

Section FractionBounds.

Import Weights.

Lemma cruise_exponent_nonpos R_km V_mps L_D_cruise TSFC_kgNs :
  0 < V_mps -> 0 < L_D_cruise -> 0 <= R_km * TSFC_kgNs ->
  cruise_exponent R_km V_mps L_D_cruise TSFC_kgNs <= 0.
Proof.
  intros HV HL HR. unfold cruise_exponent.
  assert (Hd : 0 < / (V_mps * L_D_cruise)).
  { apply Rinv_0_lt_compat. nra. }
  pose proof g_positive as Hg.
  assert (Hn : 0 <= R_km * 1000 * g * TSFC_kgNs) by nra.
  unfold Rdiv. nra.
Qed.

(** X18.  A fuel fraction that is returned never exceeds 1; for a
    positive speed and lift-to-drag ratio and a non-negative product of
    range and consumption the function returns, and the fraction is at
    least [1 - 0.97 * 0.985 * 0.985 * 0.995 * 0.98], the share of the
    fixed phases and of the reserve. *)
Theorem fuel_fraction_bounds
    (W0_kg R_km V_mps h_m L_D_cruise TSFC_kgNs : R) :
  (forall Wf,
      calculate_total_fuel_fraction W0_kg R_km V_mps h_m L_D_cruise
        TSFC_kgNs = Ok Wf -> Wf <= 1) /\
  (0 < V_mps -> 0 < L_D_cruise -> 0 <= R_km * TSFC_kgNs ->
   exists Wf,
     calculate_total_fuel_fraction W0_kg R_km V_mps h_m L_D_cruise
       TSFC_kgNs = Ok Wf /\
     1 - 0.97 * 0.985 * 0.985 * 0.995 * 0.98 <= Wf).
Proof.
  split.
  - intros Wf. unfold calculate_total_fuel_fraction, float_div, math_exp.
    destruct (Req_dec_T (V_mps * L_D_cruise) 0); [discriminate|].
    cbn [res_bind].
    destruct (Rle_dec _ float_max); [|discriminate].
    cbn [res_bind]. intros H. injection H as <-.
    match goal with |- context [exp ?q] => pose proof (exp_pos q) as Hp end.
    unfold W_other_phases_ratio, W_taxi, W_takeoff, W_climb, W_descent,
      W_reserve_ratio. lra.
  - intros HV HL HR.
    pose proof (cruise_exponent_nonpos R_km V_mps L_D_cruise TSFC_kgNs
                  HV HL HR) as Hq.
    assert (He : exp (cruise_exponent R_km V_mps L_D_cruise TSFC_kgNs) <= 1).
    { rewrite <- exp_0. apply exp_le. exact Hq. }
    eexists. split.
    + apply calculate_total_fuel_fraction_ok; [nra|].
      apply exp_nonpos_fits. exact Hq.
    + unfold W_other_phases_ratio, W_taxi, W_takeoff, W_climb, W_descent,
        W_reserve_ratio. lra.
Qed.

Lemma fuel_fraction_bounds_witness :
  (forall Wf,
      calculate_total_fuel_fraction 40000 7200 250.56 12497 16 2.0e-5
        = Ok Wf -> Wf <= 1) /\
  exists Wf,
    calculate_total_fuel_fraction 40000 7200 250.56 12497 16 2.0e-5
      = Ok Wf /\
    1 - 0.97 * 0.985 * 0.985 * 0.995 * 0.98 <= Wf.
Proof.
  split.
  - apply (fuel_fraction_bounds 40000 7200 250.56 12497 16 2.0e-5).
  - apply (fuel_fraction_bounds 40000 7200 250.56 12497 16 2.0e-5); lra.
Defined.

(** X19.  For a positive speed, lift-to-drag ratio and consumption, a
    longer non-negative range never needs a smaller fuel fraction. *)
Theorem fuel_fraction_grows_with_range
    (W0_kg R_km R_km' V_mps h_m L_D_cruise TSFC_kgNs : R) :
  0 < V_mps -> 0 < L_D_cruise -> 0 < TSFC_kgNs ->
  0 <= R_km -> R_km <= R_km' ->
  exists Wf Wf',
    calculate_total_fuel_fraction W0_kg R_km V_mps h_m L_D_cruise
      TSFC_kgNs = Ok Wf /\
    calculate_total_fuel_fraction W0_kg R_km' V_mps h_m L_D_cruise
      TSFC_kgNs = Ok Wf' /\
    Wf <= Wf'.
Proof.
  intros HV HL HT HR HRR'.
  pose proof (cruise_exponent_nonpos R_km V_mps L_D_cruise TSFC_kgNs
                HV HL ltac:(nra)) as Hq.
  pose proof (cruise_exponent_nonpos R_km' V_mps L_D_cruise TSFC_kgNs
                HV HL ltac:(nra)) as Hq'.
  assert (Hqq : cruise_exponent R_km' V_mps L_D_cruise TSFC_kgNs
                <= cruise_exponent R_km V_mps L_D_cruise TSFC_kgNs).
  { unfold cruise_exponent, Rdiv.
    assert (Hd : 0 < / (V_mps * L_D_cruise)).
    { apply Rinv_0_lt_compat. nra. }
    pose proof g_positive as Hg.
    apply Rmult_le_compat_r; [lra|].
    apply Ropp_le_contravar.
    apply Rmult_le_compat_r; [lra|].
    apply Rmult_le_compat_r; [lra|].
    apply Rmult_le_compat_r; lra. }
  apply exp_le in Hqq.
  do 2 eexists. split; [|split].
  - apply calculate_total_fuel_fraction_ok; [nra|].
    apply exp_nonpos_fits. exact Hq.
  - apply calculate_total_fuel_fraction_ok; [nra|].
    apply exp_nonpos_fits. exact Hq'.
  - unfold W_other_phases_ratio, W_taxi, W_takeoff, W_climb, W_descent,
      W_reserve_ratio. lra.
Qed.

Lemma fuel_fraction_grows_with_range_witness :
  exists Wf Wf',
    calculate_total_fuel_fraction 40000 7200 250.56 12497 16 2.0e-5
      = Ok Wf /\
    calculate_total_fuel_fraction 40000 12000 250.56 12497 16 2.0e-5
      = Ok Wf' /\
    Wf <= Wf'.
Proof.
  apply fuel_fraction_grows_with_range; lra.
Defined.

(** X20.  On positive weights the empty-weight fraction is positive and
    falls as the weight grows. *)
Theorem empty_weight_fraction_falls_with_weight (W0_N W0_N' : R) :
  0 < W0_N -> W0_N <= W0_N' ->
  exists We We',
    calculate_empty_weight_fraction W0_N = Ok (Float We) /\
    calculate_empty_weight_fraction W0_N' = Ok (Float We') /\
    0 < We' <= We.
Proof.
  intros Hpos Hle. do 2 eexists. split; [|split].
  - apply calculate_empty_weight_fraction_pos. exact Hpos.
  - apply calculate_empty_weight_fraction_pos. lra.
  - assert (Hp : 0 < Rpower W0_N' C) by apply exp_pos.
    assert (Hmono : Rpower W0_N' C <= Rpower W0_N C).
    { unfold Rpower. apply exp_le.
      assert (ln W0_N <= ln W0_N').
      { destruct Hle as [Hlt | Heq]; [|subst; lra].
        left. apply ln_increasing; assumption. }
      unfold C. nra. }
    unfold A. split; nra.
Qed.

Lemma empty_weight_fraction_falls_with_weight_witness :
  exists We We',
    calculate_empty_weight_fraction 392400 = Ok (Float We) /\
    calculate_empty_weight_fraction 784800 = Ok (Float We') /\
    0 < We' <= We.
Proof.
  apply empty_weight_fraction_falls_with_weight; lra.
Defined.

(** X21.  A zero cruise speed or a zero lift-to-drag ratio makes
    [calculate_total_fuel_fraction] raise [ZeroDivisionError]; the
    solver, which passes the speed on, raises it in its first iteration
    when started from a positive guess with a cap of at least 1. *)
Theorem zero_speed_raises
    (W_payload_kg W0_kg R_km V_mps h_m L_D_cruise TSFC_kgNs tolerance : R)
    (verbose : bool) (init : R) (max_iterations : Z) :
  (V_mps = 0 \/ L_D_cruise = 0 ->
   calculate_total_fuel_fraction W0_kg R_km V_mps h_m L_D_cruise
     TSFC_kgNs = Raise ZeroDivisionError) /\
  (V_mps = 0 -> 0 < init -> (1 <= max_iterations)%Z ->
   snd (estimate_weights_iterative W_payload_kg R_km V_mps h_m tolerance
          verbose init max_iterations) = Raise ZeroDivisionError).
Proof.
  assert (Hfuel : forall W L T, V_mps = 0 \/ L = 0 ->
            calculate_total_fuel_fraction W R_km V_mps h_m L T
            = Raise ZeroDivisionError).
  { intros W L T Hz. unfold calculate_total_fuel_fraction, float_div.
    destruct (Req_dec_T (V_mps * L) 0) as [_|n]; [reflexivity|].
    exfalso. apply n. destruct Hz as [-> | ->]; ring. }
  split.
  - apply Hfuel.
  - intros HV Hinit Hmax. apply solve_first_raises; [exact Hmax|].
    unfold iteration.
    rewrite calculate_empty_weight_fraction_pos
      by (pose proof g_positive; nra).
    rewrite Hfuel by (left; exact HV). reflexivity.
Qed.

Lemma zero_speed_raises_witness :
  calculate_total_fuel_fraction 40000 7200 0 12497 16 2.0e-5
    = Raise ZeroDivisionError /\
  snd (estimate_weights_iterative 2812 7200 0 12497 1 true 40000 50)
    = Raise ZeroDivisionError.
Proof.
  split.
  - apply (zero_speed_raises 2812 40000 7200 0 12497 16 2.0e-5 1 true
             40000 50). left. reflexivity.
  - apply (zero_speed_raises 2812 40000 7200 0 12497 16 2.0e-5 1 true
             40000 50); [reflexivity | lra | lia].
Defined.

End FractionBounds.

(** ** calculo_distancia_pista.py: take-off *)

Section TakeoffFacts.

Import Runway.

Variables (W_kg S_m2 T_N_static CLmax_TO : R).
Variables (rho0_kgm3 g_ms2 mu_roll CL_ground CD0_takeoff K : R).
Variables (Vlof_factor V_avg_factor t_rot_s h_obs_m : R).

Local Abbreviation ground_balance :=
  (takeoff_ground_balance W_kg S_m2 T_N_static CLmax_TO rho0_kgm3 g_ms2
     mu_roll CL_ground CD0_takeoff K Vlof_factor V_avg_factor).
Local Abbreviation takeoff :=
  (estimate_takeoff_distance W_kg S_m2 T_N_static CLmax_TO rho0_kgm3 g_ms2
     mu_roll CL_ground CD0_takeoff K Vlof_factor V_avg_factor t_rot_s
     h_obs_m).
Local Abbreviation W_N := (W_N W_kg g_ms2).
Local Abbreviation pressure_area Vlof :=
  (0.5 * rho0_kgm3 * (Vlof ^ 2) * S_m2).
Local Abbreviation climb_sine Vlof :=
  ((T_N_static
    - pressure_area Vlof
      * (CD0_takeoff + K * (Rmin (W_N / pressure_area Vlof) CLmax_TO) ^ 2))
   / W_N).

Lemma takeoff_ground_balance_inv Vs_TO Vlof a_avg :
  ground_balance = Ok (Vs_TO, Vlof, a_avg) ->
  rho0_kgm3 * S_m2 * CLmax_TO <> 0 /\
  0 <= 2 * W_N / (rho0_kgm3 * S_m2 * CLmax_TO) /\
  W_N <> 0 /\
  Vs_TO = sqrt (2 * W_N / (rho0_kgm3 * S_m2 * CLmax_TO)) /\
  Vlof = Vlof_factor * Vs_TO /\
  a_avg
  = g_ms2 / W_N
    * (T_N_static
       - 0.5 * rho0_kgm3 * (V_avg_factor * Vlof) ^ 2 * S_m2
         * (CD0_takeoff + K * CL_ground ^ 2)
       - mu_roll
         * (W_N - 0.5 * rho0_kgm3 * (V_avg_factor * Vlof) ^ 2 * S_m2
                  * CL_ground)).
Proof.
  unfold takeoff_ground_balance, float_div, math_sqrt.
  destruct (Req_dec_T (rho0_kgm3 * S_m2 * CLmax_TO) 0) as [H|Hden];
    [discriminate|].
  cbn [res_bind].
  destruct (Rlt_dec _ 0) as [H|Hrad]; [discriminate|].
  cbn [res_bind].
  destruct (Req_dec_T W_N 0) as [H|HW]; [discriminate|].
  cbn [res_bind]. intros [= <- <- <-].
  repeat split; try assumption; try reflexivity. lra.
Qed.

(** The three ways past a positive ground acceleration. *)
Lemma takeoff_no_climb Vs_TO Vlof a_avg :
  ground_balance = Ok (Vs_TO, Vlof, a_avg) ->
  0 < a_avg ->
  pressure_area Vlof <> 0 ->
  climb_sine Vlof <= 0 ->
  takeoff
  = ([WarnNoClimb],
     Ok (takeoff_result Vs_TO Vlof a_avg 0 (Vlof ^ 2 / (2 * a_avg))
           (Vlof * t_rot_s) Infinity Infinity)).
Proof.
  intros Hbal Ha HP Hs.
  destruct (takeoff_ground_balance_inv _ _ _ Hbal) as (_ & _ & HW & _).
  unfold estimate_takeoff_distance. rewrite Hbal.
  destruct (Rle_dec a_avg 0) as [H|_]; [lra|].
  unfold float_div.
  destruct (Req_dec_T (pressure_area Vlof) 0) as [H|_]; [contradiction|].
  destruct (Req_dec_T W_N 0) as [H|_]; [contradiction|].
  destruct (Rle_dec (climb_sine Vlof) 0) as [_|H]; [|contradiction].
  reflexivity.
Qed.

Lemma takeoff_excess_thrust Vs_TO Vlof a_avg :
  ground_balance = Ok (Vs_TO, Vlof, a_avg) ->
  0 < a_avg ->
  pressure_area Vlof <> 0 ->
  1 < climb_sine Vlof ->
  takeoff = ([], Raise ValueError).
Proof.
  intros Hbal Ha HP Hs.
  destruct (takeoff_ground_balance_inv _ _ _ Hbal) as (_ & _ & HW & _).
  unfold estimate_takeoff_distance. rewrite Hbal.
  destruct (Rle_dec a_avg 0) as [H|_]; [lra|].
  unfold float_div.
  destruct (Req_dec_T (pressure_area Vlof) 0) as [H|_]; [contradiction|].
  destruct (Req_dec_T W_N 0) as [H|_]; [contradiction|].
  destruct (Rle_dec (climb_sine Vlof) 0) as [H|_]; [lra|].
  unfold math_asin.
  destruct (Rle_dec (Rabs (climb_sine Vlof)) 1) as [H|_]; [|reflexivity].
  rewrite Rabs_right in H by lra. lra.
Qed.

Lemma tan_asin_pos s : 0 < s < 1 -> 0 < tan (asin s).
Proof.
  intros Hs. rewrite tan_asin by lra.
  apply Rdiv_lt_0_compat; [lra|].
  apply sqrt_lt_R0. unfold Rsqr. nra.
Qed.

Lemma takeoff_climbs Vs_TO Vlof a_avg :
  ground_balance = Ok (Vs_TO, Vlof, a_avg) ->
  0 < a_avg ->
  pressure_area Vlof <> 0 ->
  0 < climb_sine Vlof < 1 ->
  let gamma_cl := asin (climb_sine Vlof) in
  let Sg := Vlof ^ 2 / (2 * a_avg) in
  let Sr := Vlof * t_rot_s in
  let S_air := h_obs_m / tan gamma_cl in
  takeoff
  = ([],
     Ok (takeoff_result Vs_TO Vlof a_avg gamma_cl Sg Sr (Finite S_air)
           (Finite (Sg + Sr + S_air)))).
Proof.
  intros Hbal Ha HP Hs. cbv zeta.
  destruct (takeoff_ground_balance_inv _ _ _ Hbal) as (_ & _ & HW & _).
  pose proof (tan_asin_pos _ Hs) as Htan.
  unfold estimate_takeoff_distance. rewrite Hbal.
  destruct (Rle_dec a_avg 0) as [H|_]; [lra|].
  unfold float_div at 1 2.
  destruct (Req_dec_T (pressure_area Vlof) 0) as [H|_]; [contradiction|].
  destruct (Req_dec_T W_N 0) as [H|_]; [contradiction|].
  destruct (Rle_dec (climb_sine Vlof) 0) as [H|_]; [lra|].
  unfold math_asin.
  destruct (Rle_dec (Rabs (climb_sine Vlof)) 1) as [_|H];
    [|rewrite Rabs_right in H by lra; lra].
  destruct (Rlt_dec 0 (tan (asin (climb_sine Vlof)))) as [_|H];
    [|contradiction].
  unfold float_div.
  destruct (Req_dec_T (tan (asin (climb_sine Vlof))) 0) as [H|_]; [lra|].
  reflexivity.
Qed.

(** Every normal return of the function, by the branch taken. *)
Lemma takeoff_returns_inv lg d :
  takeoff = (lg, Ok d) ->
  exists Vs_TO Vlof a_avg,
    ground_balance = Ok (Vs_TO, Vlof, a_avg) /\
    ((a_avg <= 0 /\ lg = [WarnNoAcceleration] /\
      d = no_takeoff_result Vs_TO Vlof a_avg) \/
     (0 < a_avg /\
      exists gamma_cl S_air,
        d = takeoff_result Vs_TO Vlof a_avg gamma_cl
              (Vlof ^ 2 / (2 * a_avg)) (Vlof * t_rot_s) S_air
              (xadd (xadd (Finite (Vlof ^ 2 / (2 * a_avg)))
                          (Finite (Vlof * t_rot_s))) S_air) /\
        ((lg = [WarnNoClimb] /\ S_air = Infinity /\ gamma_cl = 0) \/
         lg = []))).
Proof.
  unfold estimate_takeoff_distance.
  destruct ground_balance as [[[Vs_TO Vlof] a_avg]|e]; [|discriminate].
  intros H. exists Vs_TO, Vlof, a_avg. split; [reflexivity|].
  destruct (Rle_dec a_avg 0) as [Ha|Ha].
  - left. injection H as <- <-. auto.
  - right. split; [lra|].
    destruct (float_div W_N _) as [q|e]; [|discriminate].
    destruct (float_div _ W_N) as [s|e]; [|discriminate].
    destruct (Rle_dec s 0) as [Hs|Hs].
    + injection H as <- <-. exists 0, Infinity. auto.
    + destruct (math_asin s) as [gamma_cl|e]; [|discriminate].
      destruct (Rlt_dec 0 (tan gamma_cl)) as [Ht|Ht].
      * destruct (float_div h_obs_m (tan gamma_cl)) as [x|e];
          [|discriminate].
        cbn [res_bind] in H. injection H as <- <-.
        exists gamma_cl, (Finite x). auto.
      * injection H as <- <-. exists gamma_cl, Infinity. auto.
Qed.

Lemma ground_run_nonneg Vlof a_avg : 0 < a_avg -> 0 <= Vlof ^ 2 / (2 * a_avg).
Proof.
  intros Ha. apply Rmult_le_pos; [apply pow2_ge_0|].
  apply Rlt_le, Rinv_0_lt_compat. lra.
Qed.

(** X22.  A take-off result with a finite total distance was computed
    without any warning, from a positive ground acceleration; its ground
    run, rotation and airborne distances are finite, the ground run is
    not negative, and the total is their sum. *)
Theorem finite_takeoff_total_is_sum_of_segments
    (lg : list log_event) (d : gmap string value) (total : R) :
  estimate_takeoff_distance W_kg S_m2 T_N_static CLmax_TO rho0_kgm3
    g_ms2 mu_roll CL_ground CD0_takeoff K Vlof_factor V_avg_factor
    t_rot_s h_obs_m = (lg, Ok d) ->
  d !! "S_total_takeoff_m" = Some (VFloat total) ->
  lg = [] /\
  exists a_avg Sg Sr S_air,
    d !! "a_avg_ms2" = Some (VFloat a_avg) /\
    d !! "S_ground_run_m" = Some (VFloat Sg) /\
    d !! "S_rotation_m" = Some (VFloat Sr) /\
    d !! "S_airborne_m" = Some (VFloat S_air) /\
    0 < a_avg /\ 0 <= Sg /\ total = Sg + Sr + S_air.
Proof.
  intros Hret Htot.
  destruct (takeoff_returns_inv _ _ Hret)
    as (Vs_TO & Vlof & a_avg & _ & [(_ & _ & ->) | (Ha & g & S_air & -> & Hlg)]).
  - discriminate Htot.
  - destruct S_air as [x|].
    + destruct Hlg as [(_ & Habs & _) | ->]; [discriminate|].
      split; [reflexivity|].
      injection Htot as <-.
      exists a_avg, (Vlof ^ 2 / (2 * a_avg)), (Vlof * t_rot_s), x.
      repeat split; try reflexivity; [exact Ha|].
      apply ground_run_nonneg, Ha.
    + discriminate Htot.
Qed.

(** X23.  A take-off that logs a warning reports an infinite total
    distance.  Without acceleration the ground run is infinite and the
    other two segments are the integer 0; without climb capability the
    ground run and the rotation are still computed, the ground run is
    not negative, the airborne distance is infinite and the climb angle
    is 0. *)
Theorem takeoff_warning_means_infinite_total
    (lg : list log_event) (d : gmap string value) :
  estimate_takeoff_distance W_kg S_m2 T_N_static CLmax_TO rho0_kgm3
    g_ms2 mu_roll CL_ground CD0_takeoff K Vlof_factor V_avg_factor
    t_rot_s h_obs_m = (lg, Ok d) ->
  lg <> [] ->
  d !! "S_total_takeoff_m" = Some VInf /\
  ((lg = [WarnNoAcceleration] /\
    d !! "S_ground_run_m" = Some VInf /\
    d !! "S_rotation_m" = Some (VInt 0) /\
    d !! "S_airborne_m" = Some (VInt 0)) \/
   (lg = [WarnNoClimb] /\
    exists Sg Sr,
      d !! "S_ground_run_m" = Some (VFloat Sg) /\
      d !! "S_rotation_m" = Some (VFloat Sr) /\
      0 <= Sg /\
      d !! "S_airborne_m" = Some VInf /\
      d !! "gamma_climb_deg" = Some (VFloat 0))).
Proof.
  intros Hret Hlg.
  destruct (takeoff_returns_inv _ _ Hret)
    as (Vs_TO & Vlof & a_avg & _
        & [(_ & -> & ->) | (Ha & g & S_air & -> & Hcase)]).
  - split; [reflexivity|]. left. repeat split; reflexivity.
  - destruct Hcase as [(-> & -> & ->) | ->]; [|contradiction].
    split; [reflexivity|]. right. split; [reflexivity|].
    exists (Vlof ^ 2 / (2 * a_avg)), (Vlof * t_rot_s).
    repeat split; try reflexivity.
    + apply ground_run_nonneg, Ha.
    + transitivity (Some (VFloat (math_degrees 0))); [reflexivity|].
      unfold math_degrees. rewrite Rmult_0_l. reflexivity.
Qed.

(** X24.  Degenerate take-off inputs raise instead of returning: a zero
    weight, gravity, density, wing area or maximum lift coefficient
    raises [ZeroDivisionError]; a negative stall-speed radicand raises
    [ValueError]; and a zero lift-off factor with a positive ground
    acceleration raises [ZeroDivisionError] in the climb lift
    coefficient. *)
Theorem degenerate_takeoff_inputs_raise :
  (W_kg * g_ms2 = 0 \/ rho0_kgm3 * S_m2 * CLmax_TO = 0 ->
   estimate_takeoff_distance W_kg S_m2 T_N_static CLmax_TO rho0_kgm3
     g_ms2 mu_roll CL_ground CD0_takeoff K Vlof_factor V_avg_factor
     t_rot_s h_obs_m
   = ([], Raise ZeroDivisionError)) /\
  (rho0_kgm3 * S_m2 * CLmax_TO <> 0 ->
   2 * (W_kg * g_ms2) / (rho0_kgm3 * S_m2 * CLmax_TO) < 0 ->
   estimate_takeoff_distance W_kg S_m2 T_N_static CLmax_TO rho0_kgm3
     g_ms2 mu_roll CL_ground CD0_takeoff K Vlof_factor V_avg_factor
     t_rot_s h_obs_m
   = ([], Raise ValueError)) /\
  (forall Vs_TO Vlof a_avg,
      takeoff_ground_balance W_kg S_m2 T_N_static CLmax_TO rho0_kgm3
        g_ms2 mu_roll CL_ground CD0_takeoff K Vlof_factor V_avg_factor
      = Ok (Vs_TO, Vlof, a_avg) ->
      Vlof_factor = 0 -> 0 < a_avg ->
      estimate_takeoff_distance W_kg S_m2 T_N_static CLmax_TO rho0_kgm3
        g_ms2 mu_roll CL_ground CD0_takeoff K Vlof_factor V_avg_factor
        t_rot_s h_obs_m
      = ([], Raise ZeroDivisionError)).
Proof.
  split; [|split].
  - intros Hz.
    unfold estimate_takeoff_distance, takeoff_ground_balance, float_div,
      math_sqrt, Runway.W_N.
    destruct (Req_dec_T (rho0_kgm3 * S_m2 * CLmax_TO) 0) as [H|Hden];
      [reflexivity|].
    destruct Hz as [Hz|Hz]; [|contradiction].
    cbn [res_bind]. rewrite Hz.
    destruct (Rlt_dec _ 0) as [H|_].
    { unfold Rdiv in H. rewrite Rmult_0_r, Rmult_0_l in H. lra. }
    cbn [res_bind].
    destruct (Req_dec_T 0 0) as [_|H]; [reflexivity|contradiction].
  - intros Hden Hneg.
    unfold estimate_takeoff_distance, takeoff_ground_balance, float_div,
      math_sqrt, Runway.W_N.
    destruct (Req_dec_T (rho0_kgm3 * S_m2 * CLmax_TO) 0) as [H|_];
      [contradiction|].
    cbn [res_bind].
    destruct (Rlt_dec _ 0) as [_|H]; [reflexivity|contradiction].
  - intros Vs_TO Vlof a_avg Hbal Hf Ha.
    destruct (takeoff_ground_balance_inv _ _ _ Hbal)
      as (_ & _ & _ & _ & HVlof & _).
    unfold estimate_takeoff_distance. rewrite Hbal.
    destruct (Rle_dec a_avg 0) as [H|_]; [lra|].
    unfold float_div at 1.
    destruct (Req_dec_T (pressure_area Vlof) 0) as [_|H]; [reflexivity|].
    exfalso. apply H. rewrite HVlof, Hf. ring.
Qed.

(** X25.  More thrust than the weight plus the largest possible climb
    drag cannot be handled.  For positive weight, gravity, density, wing
    area, maximum lift coefficient and lift-off factor, non-negative
    drag coefficients, a rolling friction between 0 and 1, a ground lift
    coefficient between 0 and the maximum and an average-speed factor
    between -1 and 1, a static thrust above
    [W g (1 + Vlof_factor^2 (CD0 + K CLmax^2) / CLmax)] makes the call
    raise [ValueError]: the sine of the climb angle exceeds 1. *)
Theorem excess_thrust_raises_value_error :
  0 < W_kg -> 0 < g_ms2 -> 0 < rho0_kgm3 -> 0 < S_m2 -> 0 < CLmax_TO ->
  0 < Vlof_factor -> 0 <= CD0_takeoff -> 0 <= K ->
  0 <= mu_roll <= 1 -> 0 <= CL_ground <= CLmax_TO ->
  -1 <= V_avg_factor <= 1 ->
  W_kg * g_ms2
  * (1 + Vlof_factor ^ 2 * (CD0_takeoff + K * CLmax_TO ^ 2) / CLmax_TO)
  < T_N_static ->
  estimate_takeoff_distance W_kg S_m2 T_N_static CLmax_TO rho0_kgm3
    g_ms2 mu_roll CL_ground CD0_takeoff K Vlof_factor V_avg_factor
    t_rot_s h_obs_m = ([], Raise ValueError).
Proof.
  intros HW Hg Hrho HS HCL Hf HCD HK Hmu HCLg Hv HT.
  set (W := W_kg * g_ms2) in *.
  assert (HWpos : 0 < W) by (unfold W; nra).
  set (den := rho0_kgm3 * S_m2 * CLmax_TO).
  assert (Hden : 0 < den) by (unfold den; repeat apply Rmult_lt_0_compat; lra).
  set (q0 := 2 * W / den).
  assert (Hq0 : 0 < q0).
  { unfold q0. apply Rdiv_lt_0_compat; lra. }
  set (CDm := CD0_takeoff + K * CLmax_TO ^ 2) in *.
  assert (HCDm : 0 <= CDm) by (unfold CDm; nra).
  set (P := Vlof_factor ^ 2 * W / CLmax_TO).
  assert (HfP : 0 < Vlof_factor ^ 2) by nra.
  assert (HP : 0 < P).
  { unfold P. apply Rdiv_lt_0_compat; nra. }
  assert (HTP : W + P * CDm < T_N_static).
  { replace (W + P * CDm)
      with (W * (1 + Vlof_factor ^ 2 * CDm / CLmax_TO))
      by (unfold P; field; lra).
    exact HT. }
  pose proof (takeoff_ground_balance_ok W_kg S_m2 T_N_static CLmax_TO
                rho0_kgm3 g_ms2 mu_roll CL_ground CD0_takeoff K
                Vlof_factor V_avg_factor) as Hbal.
  cbv zeta in Hbal. fold W den q0 in Hbal.
  specialize (Hbal ltac:(lra) ltac:(lra) ltac:(lra)).
  set (Vlof := Vlof_factor * sqrt q0) in *.
  assert (HVlof2 : Vlof ^ 2 = Vlof_factor ^ 2 * q0).
  { unfold Vlof. rewrite <- (sqrt_sqrt q0) at 2 by lra. ring. }
  assert (Hpa : 0.5 * rho0_kgm3 * Vlof ^ 2 * S_m2 = P).
  { rewrite HVlof2. unfold P, q0, den.
    replace 0.5 with (/ 2) by lra. field. lra. }
  assert (Hpg : 0.5 * rho0_kgm3 * (V_avg_factor * Vlof) ^ 2 * S_m2
                = V_avg_factor ^ 2 * P).
  { rewrite <- Hpa. ring. }
  assert (Hv2 : 0 <= V_avg_factor ^ 2 <= 1) by nra.
  assert (HCLg2 : CL_ground ^ 2 <= CLmax_TO ^ 2) by nra.
  assert (HPa : 0 <= V_avg_factor ^ 2 * P <= P) by nra.
  rewrite Hpg in Hbal.
  match type of Hbal with
  | _ = Ok (_, _, ?a) => set (a_avg := a) in *
  end.
  assert (Ha : 0 < a_avg).
  { unfold a_avg. apply Rmult_lt_0_compat.
    - apply Rdiv_lt_0_compat; lra.
    - assert (H1 : V_avg_factor ^ 2 * P * (CD0_takeoff + K * CL_ground ^ 2)
                   <= P * CDm).
      { apply Rmult_le_compat; [lra | nra | lra | unfold CDm; nra]. }
      assert (H2 : 0 <= mu_roll * (V_avg_factor ^ 2 * P * CL_ground)).
      { apply Rmult_le_pos; [lra|]. apply Rmult_le_pos; lra. }
      nra. }
  apply (takeoff_excess_thrust _ _ _ Hbal Ha).
  - rewrite Hpa. lra.
  - rewrite Hpa. unfold Runway.W_N. fold W.
    assert (Hq : 0 < W / P) by (apply Rdiv_lt_0_compat; lra).
    set (CLc := Rmin (W / P) CLmax_TO).
    assert (HCLc : 0 < CLc <= CLmax_TO).
    { unfold CLc. split; [apply Rmin_glb_lt; lra | apply Rmin_r]. }
    assert (HCLc2 : CLc ^ 2 <= CLmax_TO ^ 2) by nra.
    assert (HD : P * (CD0_takeoff + K * CLc ^ 2) <= P * CDm).
    { apply Rmult_le_compat_l; [lra | unfold CDm; nra]. }
    apply Rmult_lt_reg_r with W; [lra|].
    unfold Rdiv. rewrite Rmult_assoc, Rinv_l by lra. lra.
Qed.

End TakeoffFacts.

Section TakeoffInstances.

Import Runway.

Lemma sqr_scaled_sqrt a q : 0 <= q -> (a * sqrt q) ^ 2 = a ^ 2 * q.
Proof.
  intros Hq. rewrite <- (sqrt_sqrt q Hq) at 2. ring.
Qed.

(** The take-off example of the module: it climbs. *)
Lemma example_takeoff_climbs :
  exists d total,
    estimate_takeoff_distance 41557.66 113.7 136880 2.1 1.225 9.81 0.03
      0.1 0.048 0.049 1.15 0.7 2.0 10.7 = ([], Ok d) /\
    d !! "S_total_takeoff_m" = Some (VFloat total).
Proof.
  do 2 eexists. split.
  - eapply takeoff_climbs.
    + apply takeoff_ground_balance_ok; lra.
    + rewrite sqr_of_scaled_sqrt by lra. lra.
    + rewrite sqr_scaled_sqrt by lra. lra.
    + rewrite sqr_scaled_sqrt by lra. unfold Runway.W_N.
      rewrite Rmin_left by lra. lra.
  - reflexivity.
Qed.

(** The same aircraft with 30 kN of thrust: it accelerates but cannot
    climb. *)
Lemma example_takeoff_no_climb :
  exists d,
    estimate_takeoff_distance 41557.66 113.7 30000 2.1 1.225 9.81 0.03
      0.1 0.048 0.049 1.15 0.7 2.0 10.7 = ([WarnNoClimb], Ok d).
Proof.
  eexists.
  eapply takeoff_no_climb.
  - apply takeoff_ground_balance_ok; lra.
  - rewrite sqr_of_scaled_sqrt by lra. lra.
  - rewrite sqr_scaled_sqrt by lra. lra.
  - rewrite sqr_scaled_sqrt by lra. unfold Runway.W_N.
    rewrite Rmin_left by lra. lra.
Qed.

Lemma finite_takeoff_total_is_sum_of_segments_witness :
  exists d total,
    estimate_takeoff_distance 41557.66 113.7 136880 2.1 1.225 9.81 0.03
      0.1 0.048 0.049 1.15 0.7 2.0 10.7 = ([], Ok d) /\
    d !! "S_total_takeoff_m" = Some (VFloat total) /\
    exists a_avg Sg Sr S_air,
      d !! "a_avg_ms2" = Some (VFloat a_avg) /\
      d !! "S_ground_run_m" = Some (VFloat Sg) /\
      d !! "S_rotation_m" = Some (VFloat Sr) /\
      d !! "S_airborne_m" = Some (VFloat S_air) /\
      0 < a_avg /\ 0 <= Sg /\ total = Sg + Sr + S_air.
Proof.
  destruct example_takeoff_climbs as (d & total & Hret & Htot).
  exists d, total. split; [exact Hret|]. split; [exact Htot|].
  apply (finite_takeoff_total_is_sum_of_segments 41557.66 113.7 136880
           2.1 1.225 9.81 0.03 0.1 0.048 0.049 1.15 0.7 2.0 10.7
           [] d total Hret Htot).
Defined.

Lemma takeoff_warning_means_infinite_total_witness :
  exists d,
    estimate_takeoff_distance 41557.66 113.7 30000 2.1 1.225 9.81 0.03
      0.1 0.048 0.049 1.15 0.7 2.0 10.7 = ([WarnNoClimb], Ok d) /\
    d !! "S_total_takeoff_m" = Some VInf.
Proof.
  destruct example_takeoff_no_climb as (d & Hret).
  exists d. split; [exact Hret|].
  apply (takeoff_warning_means_infinite_total 41557.66 113.7 30000
           2.1 1.225 9.81 0.03 0.1 0.048 0.049 1.15 0.7 2.0 10.7
           [WarnNoClimb] d Hret).
  discriminate.
Defined.

(** The example without weight, with a negative weight, and with a
    lift-off factor of zero. *)
Lemma degenerate_takeoff_inputs_raise_witness :
  estimate_takeoff_distance 0 113.7 136880 2.1 1.225 9.81 0.03
    0.1 0.048 0.049 1.15 0.7 2.0 10.7 = ([], Raise ZeroDivisionError) /\
  estimate_takeoff_distance (-41557.66) 113.7 136880 2.1 1.225 9.81 0.03
    0.1 0.048 0.049 1.15 0.7 2.0 10.7 = ([], Raise ValueError) /\
  estimate_takeoff_distance 41557.66 113.7 136880 2.1 1.225 9.81 0.03
    0.1 0.048 0.049 0 0.7 2.0 10.7 = ([], Raise ZeroDivisionError).
Proof.
  split; [|split].
  - destruct (degenerate_takeoff_inputs_raise 0 113.7 136880 2.1 1.225
                9.81 0.03 0.1 0.048 0.049 1.15 0.7 2.0 10.7)
      as (Hzero & _ & _).
    apply Hzero. left. lra.
  - destruct (degenerate_takeoff_inputs_raise (-41557.66) 113.7 136880 2.1
                1.225 9.81 0.03 0.1 0.048 0.049 1.15 0.7 2.0 10.7)
      as (_ & Hneg & _).
    apply Hneg; lra.
  - destruct (degenerate_takeoff_inputs_raise 41557.66 113.7 136880 2.1
                1.225 9.81 0.03 0.1 0.048 0.049 0 0.7 2.0 10.7)
      as (_ & _ & Hfactor).
    eapply Hfactor.
    + apply takeoff_ground_balance_ok; lra.
    + reflexivity.
    + rewrite sqr_of_scaled_sqrt by lra. lra.
Defined.

(** The example with 500 kN of thrust, 1.23 times its weight. *)
Lemma excess_thrust_raises_value_error_witness :
  estimate_takeoff_distance 41557.66 113.7 500000 2.1 1.225 9.81 0.03
    0.1 0.048 0.049 1.15 0.7 2.0 10.7 = ([], Raise ValueError).
Proof.
  apply (excess_thrust_raises_value_error 41557.66 113.7 500000 2.1 1.225
           9.81 0.03 0.1 0.048 0.049 1.15 0.7 2.0 10.7); lra.
Defined.

End TakeoffInstances.

(** ** calculo_distancia_pista.py: landing *)

Section LandingFacts.

Import Runway.

Variables (W_land_kg S_m2 CLmax_land : R).
Variables (rho0_kgm3 g_ms2 mu_brake CD0_landing K CL_land_ground : R).
Variables (Vapp_factor Vtd_factor gamma_app_deg : R).
Variables (h_obs_m h_flare_m t_flare_s : R).

Local Abbreviation ground_balance T_rev_N :=
  (landing_ground_balance W_land_kg S_m2 CLmax_land rho0_kgm3 g_ms2
     mu_brake CD0_landing K CL_land_ground Vapp_factor Vtd_factor
     gamma_app_deg h_obs_m h_flare_m t_flare_s T_rev_N).
Local Abbreviation landing T_rev_N :=
  (estimate_landing_distance W_land_kg S_m2 CLmax_land rho0_kgm3 g_ms2
     mu_brake CD0_landing K CL_land_ground Vapp_factor Vtd_factor
     gamma_app_deg h_obs_m h_flare_m t_flare_s T_rev_N).
Local Abbreviation W_land_N := (W_land_N W_land_kg g_ms2).

Lemma landing_ground_balance_inv T_rev_N Vs_land Vapp Vtd Sa Sf a_avg_land :
  ground_balance T_rev_N = Ok (Vs_land, Vapp, Vtd, Sa, Sf, a_avg_land) ->
  rho0_kgm3 * S_m2 * CLmax_land <> 0 /\
  0 <= 2 * W_land_N / (rho0_kgm3 * S_m2 * CLmax_land) /\
  tan (math_radians gamma_app_deg) <> 0 /\
  W_land_N <> 0 /\
  Vs_land = sqrt (2 * W_land_N / (rho0_kgm3 * S_m2 * CLmax_land)) /\
  Vapp = Vapp_factor * Vs_land /\
  Vtd = Vtd_factor * Vs_land /\
  Sa = (h_obs_m - h_flare_m) / tan (math_radians gamma_app_deg) /\
  Sf = Vapp * t_flare_s /\
  a_avg_land
  = g_ms2 / W_land_N
    * (T_rev_N
       - 0.5 * rho0_kgm3 * (0.7 * Vtd) ^ 2 * S_m2
         * (CD0_landing + K * CL_land_ground ^ 2)
       - mu_brake
         * (W_land_N
            - 0.5 * rho0_kgm3 * (0.7 * Vtd) ^ 2 * S_m2 * CL_land_ground)).
Proof.
  unfold landing_ground_balance, float_div, math_sqrt.
  destruct (Req_dec_T (rho0_kgm3 * S_m2 * CLmax_land) 0) as [H|Hden];
    [discriminate|].
  cbn [res_bind].
  destruct (Rlt_dec _ 0) as [H|Hrad]; [discriminate|].
  cbn [res_bind].
  destruct (Req_dec_T (tan (math_radians gamma_app_deg)) 0) as [H|Htan];
    [discriminate|].
  cbn [res_bind].
  destruct (Req_dec_T W_land_N 0) as [H|HW]; [discriminate|].
  cbn [res_bind]. intros [= <- <- <- <- <- <-].
  repeat split; try assumption; try reflexivity. lra.
Qed.

(** Every normal return of the function, by the branch taken. *)
Lemma landing_returns_inv T_rev_N lg d :
  landing T_rev_N = (lg, Ok d) ->
  exists Vs_land Vapp Vtd Sa Sf a_avg_land,
    ground_balance T_rev_N = Ok (Vs_land, Vapp, Vtd, Sa, Sf, a_avg_land) /\
    ((a_avg_land >= 0 /\ lg = [WarnNoDeceleration] /\
      d = landing_result Vs_land Vapp Vtd a_avg_land Sa Sf
            Infinity Infinity) \/
     (a_avg_land < 0 /\ lg = [] /\
      d = landing_result Vs_land Vapp Vtd a_avg_land Sa Sf
            (Finite (- (Vtd ^ 2) / (2 * a_avg_land)))
            (Finite (Sa + Sf + - (Vtd ^ 2) / (2 * a_avg_land))))).
Proof.
  unfold estimate_landing_distance.
  destruct (ground_balance T_rev_N)
    as [[[[[[Vs_land Vapp] Vtd] Sa] Sf] a_avg_land]|e]; [|discriminate].
  intros H. exists Vs_land, Vapp, Vtd, Sa, Sf, a_avg_land.
  split; [reflexivity|].
  destruct (Rge_dec a_avg_land 0) as [Ha|Ha].
  - left. injection H as <- <-. auto.
  - right. injection H as <- <-. split; [lra|]. auto.
Qed.

Lemma landing_stops T_rev_N Vs_land Vapp Vtd Sa Sf a_avg_land :
  ground_balance T_rev_N = Ok (Vs_land, Vapp, Vtd, Sa, Sf, a_avg_land) ->
  a_avg_land < 0 ->
  landing T_rev_N
  = ([],
     Ok (landing_result Vs_land Vapp Vtd a_avg_land Sa Sf
           (Finite (- (Vtd ^ 2) / (2 * a_avg_land)))
           (Finite (Sa + Sf + - (Vtd ^ 2) / (2 * a_avg_land))))).
Proof.
  intros Hbal Ha. unfold estimate_landing_distance. rewrite Hbal.
  destruct (Rge_dec a_avg_land 0) as [H|_]; [lra|]. reflexivity.
Qed.

Lemma ground_roll_nonneg Vtd a_avg_land :
  a_avg_land < 0 -> 0 <= - (Vtd ^ 2) / (2 * a_avg_land).
Proof.
  intros Ha.
  replace (- (Vtd ^ 2) / (2 * a_avg_land))
    with (Vtd ^ 2 / (2 * - a_avg_land)) by (field; lra).
  apply Rmult_le_pos; [apply pow2_ge_0|].
  apply Rlt_le, Rinv_0_lt_compat. lra.
Qed.

Lemma ground_roll_monotone Vtd a1 a2 :
  a1 <= a2 -> a2 < 0 ->
  - (Vtd ^ 2) / (2 * a1) <= - (Vtd ^ 2) / (2 * a2).
Proof.
  intros H12 H2.
  replace (- (Vtd ^ 2) / (2 * a1))
    with (Vtd ^ 2 * / (2 * - a1)) by (field; lra).
  replace (- (Vtd ^ 2) / (2 * a2))
    with (Vtd ^ 2 * / (2 * - a2)) by (field; lra).
  apply Rmult_le_compat_l; [apply pow2_ge_0|].
  apply Rinv_le_contravar; lra.
Qed.

(** X26.  A landing that returns has one of two shapes.  Either the
    deceleration is negative, nothing is logged, the ground roll is
    finite and not negative and the total is approach plus flare plus
    ground roll; or the deceleration is not negative, the one warning is
    logged and both the ground roll and the total are infinite, the
    approach and the flare being reported all the same. *)
Theorem landing_warns_exactly_when_infinite
    (T_rev_N : R) (lg : list log_event) (d : gmap string value) :
  estimate_landing_distance W_land_kg S_m2 CLmax_land rho0_kgm3
    g_ms2 mu_brake CD0_landing K CL_land_ground Vapp_factor Vtd_factor
    gamma_app_deg h_obs_m h_flare_m t_flare_s T_rev_N = (lg, Ok d) ->
  exists a_avg_land Sa Sf,
    d !! "a_avg_land_ms2" = Some (VFloat a_avg_land) /\
    d !! "S_approach_m" = Some (VFloat Sa) /\
    d !! "S_flare_m" = Some (VFloat Sf) /\
    ((a_avg_land < 0 /\ lg = [] /\
      exists Sg_land,
        d !! "S_ground_roll_m" = Some (VFloat Sg_land) /\
        0 <= Sg_land /\
        d !! "S_total_landing_m" = Some (VFloat (Sa + Sf + Sg_land))) \/
     (a_avg_land >= 0 /\ lg = [WarnNoDeceleration] /\
      d !! "S_ground_roll_m" = Some VInf /\
      d !! "S_total_landing_m" = Some VInf)).
Proof.
  intros Hret.
  destruct (landing_returns_inv _ _ _ Hret)
    as (Vs_land & Vapp & Vtd & Sa & Sf & a_avg_land & _
        & [(Ha & -> & ->) | (Ha & -> & ->)]);
    exists a_avg_land, Sa, Sf;
    (split; [reflexivity|]); (split; [reflexivity|]);
    (split; [reflexivity|]).
  - right. repeat split; try reflexivity. exact Ha.
  - left. split; [exact Ha|]. split; [reflexivity|].
    exists (- (Vtd ^ 2) / (2 * a_avg_land)).
    split; [reflexivity|]. split; [|reflexivity].
    apply ground_roll_nonneg, Ha.
Qed.

(** X27.  Degenerate landing inputs raise instead of returning: a zero
    weight, gravity, density, wing area or maximum lift coefficient
    raises [ZeroDivisionError]; a negative stall-speed radicand raises
    [ValueError]; and, once the stall speed is computed, an approach
    angle of zero raises [ZeroDivisionError]. *)
Theorem degenerate_landing_inputs_raise (T_rev_N : R) :
  (W_land_kg * g_ms2 = 0 \/ rho0_kgm3 * S_m2 * CLmax_land = 0 ->
   estimate_landing_distance W_land_kg S_m2 CLmax_land rho0_kgm3
     g_ms2 mu_brake CD0_landing K CL_land_ground Vapp_factor Vtd_factor
     gamma_app_deg h_obs_m h_flare_m t_flare_s T_rev_N
   = ([], Raise ZeroDivisionError)) /\
  (rho0_kgm3 * S_m2 * CLmax_land <> 0 ->
   2 * (W_land_kg * g_ms2) / (rho0_kgm3 * S_m2 * CLmax_land) < 0 ->
   estimate_landing_distance W_land_kg S_m2 CLmax_land rho0_kgm3
     g_ms2 mu_brake CD0_landing K CL_land_ground Vapp_factor Vtd_factor
     gamma_app_deg h_obs_m h_flare_m t_flare_s T_rev_N
   = ([], Raise ValueError)) /\
  (rho0_kgm3 * S_m2 * CLmax_land <> 0 ->
   0 <= 2 * (W_land_kg * g_ms2) / (rho0_kgm3 * S_m2 * CLmax_land) ->
   gamma_app_deg = 0 ->
   estimate_landing_distance W_land_kg S_m2 CLmax_land rho0_kgm3
     g_ms2 mu_brake CD0_landing K CL_land_ground Vapp_factor Vtd_factor
     gamma_app_deg h_obs_m h_flare_m t_flare_s T_rev_N
   = ([], Raise ZeroDivisionError)).
Proof.
  split; [|split].
  - intros Hz.
    unfold estimate_landing_distance, landing_ground_balance, float_div,
      math_sqrt, Runway.W_land_N.
    destruct (Req_dec_T (rho0_kgm3 * S_m2 * CLmax_land) 0) as [H|Hden];
      [reflexivity|].
    destruct Hz as [Hz|Hz]; [|contradiction].
    cbn [res_bind]. rewrite Hz.
    destruct (Rlt_dec _ 0) as [H|_].
    { unfold Rdiv in H. rewrite Rmult_0_r, Rmult_0_l in H. lra. }
    cbn [res_bind].
    destruct (Req_dec_T (tan (math_radians gamma_app_deg)) 0) as [H|_];
      [reflexivity|].
    cbn [res_bind].
    destruct (Req_dec_T 0 0) as [_|H]; [reflexivity|contradiction].
  - intros Hden Hneg.
    unfold estimate_landing_distance, landing_ground_balance, float_div,
      math_sqrt, Runway.W_land_N.
    destruct (Req_dec_T (rho0_kgm3 * S_m2 * CLmax_land) 0) as [H|_];
      [contradiction|].
    cbn [res_bind].
    destruct (Rlt_dec _ 0) as [_|H]; [reflexivity|contradiction].
  - intros Hden Hrad ->.
    unfold estimate_landing_distance, landing_ground_balance, float_div,
      math_sqrt, Runway.W_land_N.
    destruct (Req_dec_T (rho0_kgm3 * S_m2 * CLmax_land) 0) as [H|_];
      [contradiction|].
    cbn [res_bind].
    destruct (Rlt_dec _ 0) as [H|_]; [lra|].
    cbn [res_bind].
    destruct (Req_dec_T (tan (math_radians 0)) 0) as [_|H]; [reflexivity|].
    exfalso. apply H. unfold math_radians. rewrite Rmult_0_l. apply tan_0.
Qed.

(** X28.  Reverse thrust never lengthens the landing.  For a positive
    landing weight, if the landing with thrust [T2] stops (its ground
    roll is finite), then the landing with any [T1 <= T2], all else
    equal, stops too, without a warning, and neither its ground roll nor
    its total distance is longer. *)
Theorem reverse_thrust_never_lengthens_landing
    (T1 T2 : R) (lg2 : list log_event) (d2 : gmap string value)
    (Sg2 : R) :
  0 < W_land_kg ->
  T1 <= T2 ->
  estimate_landing_distance W_land_kg S_m2 CLmax_land rho0_kgm3
    g_ms2 mu_brake CD0_landing K CL_land_ground Vapp_factor Vtd_factor
    gamma_app_deg h_obs_m h_flare_m t_flare_s T2 = (lg2, Ok d2) ->
  d2 !! "S_ground_roll_m" = Some (VFloat Sg2) ->
  exists d1 Sg1 total1 total2,
    estimate_landing_distance W_land_kg S_m2 CLmax_land rho0_kgm3
      g_ms2 mu_brake CD0_landing K CL_land_ground Vapp_factor Vtd_factor
      gamma_app_deg h_obs_m h_flare_m t_flare_s T1 = ([], Ok d1) /\
    d1 !! "S_ground_roll_m" = Some (VFloat Sg1) /\
    d1 !! "S_total_landing_m" = Some (VFloat total1) /\
    d2 !! "S_total_landing_m" = Some (VFloat total2) /\
    Sg1 <= Sg2 /\ total1 <= total2.
Proof.
  intros HW HT Hret Hroll.
  destruct (landing_returns_inv _ _ _ Hret)
    as (Vs_land & Vapp & Vtd & Sa & Sf & a2 & Hbal2
        & [(_ & _ & ->) | (Ha2 & _ & ->)]); [discriminate Hroll|].
  injection Hroll as <-.
  destruct (landing_ground_balance_inv _ _ _ _ _ _ _ Hbal2)
    as (Hden & Hrad & Htan & HWN & -> & -> & -> & -> & -> & Hdef).
  pose proof (landing_ground_balance_ok W_land_kg S_m2 CLmax_land
                rho0_kgm3 g_ms2 mu_brake CD0_landing K CL_land_ground
                Vapp_factor Vtd_factor gamma_app_deg h_obs_m h_flare_m
                t_flare_s T1 Hden Hrad Htan HWN) as Hbal1.
  cbv zeta in Hbal1.
  match type of Hbal1 with
  | _ = Ok (_, _, _, _, _, ?a) => set (a1 := a) in *
  end.
  assert (Hgw : 0 < g_ms2 / Runway.W_land_N W_land_kg g_ms2).
  { unfold Runway.W_land_N in *.
    assert (Hg : g_ms2 <> 0).
    { intros ->. apply HWN. ring. }
    replace (g_ms2 / (W_land_kg * g_ms2)) with (/ W_land_kg)
      by (field; split; lra).
    apply Rinv_0_lt_compat, HW. }
  assert (H12 : a1 <= a2).
  { rewrite Hdef. unfold a1. unfold Runway.W_land_N in *.
    apply Rmult_le_compat_l; lra. }
  eexists _, _, _, _.
  split; [apply (landing_stops _ _ _ _ _ _ _ Hbal1); lra|].
  split; [reflexivity|]. split; [reflexivity|]. split; [reflexivity|].
  pose proof (ground_roll_monotone
                (Vtd_factor
                 * sqrt (2 * Runway.W_land_N W_land_kg g_ms2
                         / (rho0_kgm3 * S_m2 * CLmax_land)))
                a1 a2 H12 Ha2) as Hmono.
  unfold Runway.W_land_N in *.
  split; [exact Hmono | apply Rplus_le_compat_l; exact Hmono].
Qed.

End LandingFacts.

Section LandingInstances.

Import Runway.

(** The landing example of the module: it stops. *)
Lemma example_landing_stops :
  exists d Sg,
    estimate_landing_distance 26389 113.7 2.6 1.225 9.81 0.4 0.063 0.049
      0.1 1.3 1.15 3.0 15.2 10.0 3.0 0 = ([], Ok d) /\
    d !! "S_ground_roll_m" = Some (VFloat Sg).
Proof.
  do 2 eexists. split.
  - eapply landing_stops.
    + apply landing_ground_balance_ok;
        [lra | lra | apply approach_angle_tangent | lra].
    + rewrite sqr_of_scaled_sqrt by lra. lra.
  - reflexivity.
Qed.

Lemma landing_warns_exactly_when_infinite_witness :
  exists d a_avg_land Sa Sf,
    estimate_landing_distance 26389 113.7 2.6 1.225 9.81 0.4 0.063 0.049
      0.1 1.3 1.15 3.0 15.2 10.0 3.0 0 = ([], Ok d) /\
    d !! "a_avg_land_ms2" = Some (VFloat a_avg_land) /\
    d !! "S_approach_m" = Some (VFloat Sa) /\
    d !! "S_flare_m" = Some (VFloat Sf) /\
    ((a_avg_land < 0 /\ @nil log_event = [] /\
      exists Sg_land,
        d !! "S_ground_roll_m" = Some (VFloat Sg_land) /\
        0 <= Sg_land /\
        d !! "S_total_landing_m" = Some (VFloat (Sa + Sf + Sg_land))) \/
     (a_avg_land >= 0 /\ [] = [WarnNoDeceleration] /\
      d !! "S_ground_roll_m" = Some VInf /\
      d !! "S_total_landing_m" = Some VInf)).
Proof.
  destruct example_landing_stops as (d & Sg & Hret & _).
  destruct (landing_warns_exactly_when_infinite 26389 113.7 2.6 1.225
              9.81 0.4 0.063 0.049 0.1 1.3 1.15 3.0 15.2 10.0 3.0 0
              [] d Hret) as (a & Sa & Sf & H).
  exists d, a, Sa, Sf. split; [exact Hret | exact H].
Defined.

(** The example without weight, with a negative weight, and with a level
    approach. *)
Lemma degenerate_landing_inputs_raise_witness :
  estimate_landing_distance 0 113.7 2.6 1.225 9.81 0.4 0.063 0.049
    0.1 1.3 1.15 3.0 15.2 10.0 3.0 0 = ([], Raise ZeroDivisionError) /\
  estimate_landing_distance (-26389) 113.7 2.6 1.225 9.81 0.4 0.063 0.049
    0.1 1.3 1.15 3.0 15.2 10.0 3.0 0 = ([], Raise ValueError) /\
  estimate_landing_distance 26389 113.7 2.6 1.225 9.81 0.4 0.063 0.049
    0.1 1.3 1.15 0 15.2 10.0 3.0 0 = ([], Raise ZeroDivisionError).
Proof.
  split; [|split].
  - destruct (degenerate_landing_inputs_raise 0 113.7 2.6 1.225 9.81 0.4
                0.063 0.049 0.1 1.3 1.15 3.0 15.2 10.0 3.0 0)
      as (Hzero & _ & _).
    apply Hzero. left. lra.
  - destruct (degenerate_landing_inputs_raise (-26389) 113.7 2.6 1.225
                9.81 0.4 0.063 0.049 0.1 1.3 1.15 3.0 15.2 10.0 3.0 0)
      as (_ & Hneg & _).
    apply Hneg; lra.
  - destruct (degenerate_landing_inputs_raise 26389 113.7 2.6 1.225 9.81
                0.4 0.063 0.049 0.1 1.3 1.15 0 15.2 10.0 3.0 0)
      as (_ & _ & Hlevel).
    apply Hlevel; [lra | lra | reflexivity].
Defined.

(** The example with 20 kN of reverse thrust against none. *)
Lemma reverse_thrust_never_lengthens_landing_witness :
  exists d2 Sg2 d1 Sg1 total1 total2,
    estimate_landing_distance 26389 113.7 2.6 1.225 9.81 0.4 0.063 0.049
      0.1 1.3 1.15 3.0 15.2 10.0 3.0 0 = ([], Ok d2) /\
    d2 !! "S_ground_roll_m" = Some (VFloat Sg2) /\
    estimate_landing_distance 26389 113.7 2.6 1.225 9.81 0.4 0.063 0.049
      0.1 1.3 1.15 3.0 15.2 10.0 3.0 (-20000) = ([], Ok d1) /\
    d1 !! "S_ground_roll_m" = Some (VFloat Sg1) /\
    d1 !! "S_total_landing_m" = Some (VFloat total1) /\
    d2 !! "S_total_landing_m" = Some (VFloat total2) /\
    Sg1 <= Sg2 /\ total1 <= total2.
Proof.
  destruct example_landing_stops as (d2 & Sg2 & Hret & Hroll).
  destruct (reverse_thrust_never_lengthens_landing 26389 113.7 2.6 1.225
              9.81 0.4 0.063 0.049 0.1 1.3 1.15 3.0 15.2 10.0 3.0
              (-20000) 0 [] d2 Sg2 ltac:(lra) ltac:(lra) Hret Hroll)
    as (d1 & Sg1 & t1 & t2 & H).
  exists d2, Sg2, d1, Sg1, t1, t2.
  split; [exact Hret|]. split; [exact Hroll|]. exact H.
Defined.

End LandingInstances.
